(** * Linked document graph of the project-management backend

    A shallow embedding of [app/schemas/documents.py] and
    [app/routers/workplace.py]: the six document classes, their
    before-delete hooks, the sprint overlap validator, the identifier
    based equality methods and the workplace handlers, over an explicit
    document store.

    The object-document mapper (Beanie) and MongoDB are external; their
    operations are interpreted here at the level of their documented
    contract: a collection is a sequence of documents addressed by
    identifier, [find_one] yields the first document that satisfies all
    conditions, [save] writes a document back (inserting it when absent),
    [delete] runs the before-delete hooks and then removes the record,
    link rules follow forward links, and a back link resolves to the
    parent whose forward collection lists the child. *)

From Stdlib Require Import ZArith List String Ascii Bool Lia.
Import ListNotations.
Local Open Scope Z_scope.

(** ** Python values *)

(** [uuid.UUID]: a 128 bit integer; two UUIDs are equal when their
    integers are. *)
Definition UUID := Z.

Definition UUID_eqb (a b : UUID) : bool := Z.eqb a b.

(** [datetime.datetime], as microseconds on the proleptic Gregorian time
    line; comparison is chronological. *)
Definition datetime := Z.

Inductive pyval : Type :=
| PNone
| PBool (b : bool)
| PInt (z : Z)
| PStr (s : string)
| PBytes (bs : list Z)
| PTuple (vs : list Z)
| PUUID (u : UUID)
| PDatetime (d : datetime).

(** A keyword dictionary, as produced by [model_dump()]: insertion
    ordered, one entry per key. *)
Definition dict := list (string * pyval).

Fixpoint dict_get (k : string) (d : dict) : option pyval :=
  match d with
  | [] => None
  | (k', v) :: t => if String.eqb k' k then Some v else dict_get k t
  end.

Fixpoint dict_set (k : string) (v : pyval) (d : dict) : dict :=
  match d with
  | [] => [(k, v)]
  | (k', v') :: t =>
      if String.eqb k' k then (k, v) :: t else (k', v') :: dict_set k v t
  end.

(** [d.update(upd)]: every key of [upd] is assigned in [d], the other
    keys of [d] stay. This is also what the [$set] update operator does
    to the fields of a stored document. *)
Definition dict_update (d upd : dict) : dict :=
  fold_left (fun acc kv => dict_set (fst kv) (snd kv) acc) upd d.

(** Exceptions that the modelled code raises or lets escape. *)
Inductive exn : Type :=
| AttributeError (msg : string)
| ValueError (msg : string)
| ValidationError (msg : string)
| WorkplaceFileNotFoundException (msg : string).



Inductive Result (A : Type) : Type :=
| Ok (a : A)
| Raise (e : exn).
Arguments Ok {A} a.
Arguments Raise {A} e.

(** ** The attributes of [uuid.UUID] *)

Definition hex_digit (n : Z) : ascii :=
  match n with
  | 0 => "0" | 1 => "1" | 2 => "2" | 3 => "3" | 4 => "4" | 5 => "5"
  | 6 => "6" | 7 => "7" | 8 => "8" | 9 => "9" | 10 => "a" | 11 => "b"
  | 12 => "c" | 13 => "d" | 14 => "e" | _ => "f"
  end%char.

(** The [digits] lowest hexadecimal digits of [n], most significant
    first. *)
Fixpoint hex_of (digits : nat) (n : Z) : string :=
  match digits with
  | O => EmptyString
  | S k =>
      String (hex_digit (Z.land (Z.shiftr n (4 * Z.of_nat k)) 15)) (hex_of k n)
  end.

(** The [count] lowest bytes of [n], most significant first. *)
Fixpoint bytes_of (count : nat) (n : Z) : list Z :=
  match count with
  | O => []
  | S k => Z.land (Z.shiftr n (8 * Z.of_nat k)) 255 :: bytes_of k n
  end.

Module UUIDAttr.

Definition int (u : UUID) : Z := u.
Definition time_low (u : UUID) : Z := Z.shiftr u 96.
Definition time_mid (u : UUID) : Z := Z.land (Z.shiftr u 80) 65535.
Definition time_hi_version (u : UUID) : Z := Z.land (Z.shiftr u 64) 65535.
Definition clock_seq_hi_variant (u : UUID) : Z := Z.land (Z.shiftr u 56) 255.
Definition clock_seq_low (u : UUID) : Z := Z.land (Z.shiftr u 48) 255.
Definition node (u : UUID) : Z := Z.land u 281474976710655.

Definition time (u : UUID) : Z :=
  Z.lor (Z.lor (Z.shiftl (Z.land (time_hi_version u) 4095) 48)
               (Z.shiftl (time_mid u) 32))
        (time_low u).

Definition clock_seq (u : UUID) : Z :=
  Z.lor (Z.shiftl (Z.land (clock_seq_hi_variant u) 63) 8) (clock_seq_low u).

Definition hex (u : UUID) : string := hex_of 32 u.

Definition bytes (u : UUID) : list Z := bytes_of 16 u.

Definition bytes_le (u : UUID) : list Z :=
  let b := bytes u in
  rev (firstn 4 b) ++ rev (firstn 2 (skipn 4 b))
    ++ rev (firstn 2 (skipn 6 b)) ++ skipn 8 b.

Definition fields (u : UUID) : list Z :=
  [time_low u; time_mid u; time_hi_version u;
            clock_seq_hi_variant u; clock_seq_low u; node u].

Definition str (u : UUID) : string :=
  let h := hex u in
  (substring 0 8 h ++ "-" ++ substring 8 4 h ++ "-" ++ substring 12 4 h
    ++ "-" ++ substring 16 4 h ++ "-" ++ substring 20 12 h)%string.

Definition urn (u : UUID) : string := ("urn:uuid:" ++ str u)%string.

Definition variant (u : UUID) : string :=
  (if Z.eqb (Z.land u (Z.shiftl 32768 48)) 0
   then "reserved for NCS compatibility"
   else if Z.eqb (Z.land u (Z.shiftl 16384 48)) 0
   then "specified in RFC 4122"
   else if Z.eqb (Z.land u (Z.shiftl 8192 48)) 0
   then "reserved for Microsoft compatibility"
   else "reserved for future definition")%string.

Definition version (u : UUID) : pyval :=
  if String.eqb (variant u) "specified in RFC 4122"
  then PInt (Z.land (Z.shiftr u 76) 15)
  else PNone.

End UUIDAttr.

(** [getattr(u, name)] on a [uuid.UUID]: the properties that the class
    defines, and [AttributeError] for every other name. *)
Definition UUID_getattr (u : UUID) (name : string) : Result pyval :=
  if String.eqb name "int" then Ok (PInt (UUIDAttr.int u))
  else if String.eqb name "bytes" then Ok (PBytes (UUIDAttr.bytes u))
  else if String.eqb name "bytes_le" then Ok (PBytes (UUIDAttr.bytes_le u))
  else if String.eqb name "fields" then Ok (PTuple (UUIDAttr.fields u))
  else if String.eqb name "time_low" then Ok (PInt (UUIDAttr.time_low u))
  else if String.eqb name "time_mid" then Ok (PInt (UUIDAttr.time_mid u))
  else if String.eqb name "time_hi_version"
  then Ok (PInt (UUIDAttr.time_hi_version u))
  else if String.eqb name "clock_seq_hi_variant"
  then Ok (PInt (UUIDAttr.clock_seq_hi_variant u))
  else if String.eqb name "clock_seq_low"
  then Ok (PInt (UUIDAttr.clock_seq_low u))
  else if String.eqb name "time" then Ok (PInt (UUIDAttr.time u))
  else if String.eqb name "clock_seq" then Ok (PInt (UUIDAttr.clock_seq u))
  else if String.eqb name "node" then Ok (PInt (UUIDAttr.node u))
  else if String.eqb name "hex" then Ok (PStr (UUIDAttr.hex u))
  else if String.eqb name "urn" then Ok (PStr (UUIDAttr.urn u))
  else if String.eqb name "variant" then Ok (PStr (UUIDAttr.variant u))
  else if String.eqb name "version" then Ok (UUIDAttr.version u)
  else if String.eqb name "is_safe" then Ok PNone
  else Raise (AttributeError
                ("'UUID' object has no attribute '" ++ name ++ "'")%string).

(** ** Calendar dates *)

Definition is_leap (y : Z) : bool :=
  (y mod 4 =? 0) && (negb (y mod 100 =? 0) || (y mod 400 =? 0)).

Definition days_before_year (y : Z) : Z :=
  let p := y - 1 in p * 365 + p / 4 - p / 100 + p / 400.

Definition days_before_month (y m : Z) : Z :=
  nth (Z.to_nat m) [0; 0; 31; 59; 90; 120; 151; 181; 212; 243; 273; 304; 334] 0
  + (if (2 <? m) && is_leap y then 1 else 0).

Definition ymd2ord (y m d : Z) : Z :=
  days_before_year y + days_before_month y m + d.

(** [datetime(y, m, d)], midnight of that day. *)
Definition datetime_ymd (y m d : Z) : datetime := ymd2ord y m d * 86400000000.

(** ** Documents *)

(** Modelled from the spec: the [Role] enumeration of
    [app/schemas/types.py], "ADMIN | MEMBER | GUEST". *)
Inductive Role : Type := ADMIN | MEMBER | GUEST.

(** The creation models of [app/schemas/models.py] are not part of the
    modelled sources. A document class that inherits from one of them
    carries the inherited fields as the dictionary that [model_dump()]
    yields; only [SprintCreation.start_date] and [end_date], which the
    validator reads, are named. *)
Record SprintCreation : Type := {
  SprintCreation_start_date : datetime;
  SprintCreation_end_date : datetime;
  SprintCreation_rest : dict
}.

(** A [Link] field is stored as a reference, that is as the identifier
    of the linked document. A [BackLink] field is not stored. *)
Record User : Type := {
  User_id : UUID;
  User_email : string;
  User_password : string;
  User_register : dict
}.

Record UserAssignedWorkplace : Type := {
  UserAssignedWorkplace_id : UUID;
  UserAssignedWorkplace_user : UUID;
  UserAssignedWorkplace_role : Role
}.

Record Workplace : Type := {
  Workplace_creation : dict;
  Workplace_id : UUID;
  Workplace_states : list string;
  Workplace_users : list UUID;
  Workplace_sprints : list UUID;
  Workplace_issues : list UUID
}.

Record Sprint : Type := {
  Sprint_creation : SprintCreation;
  Sprint_id : UUID;
  Sprint_issues : list UUID
}.

Definition Sprint_start_date (s : Sprint) : datetime :=
  SprintCreation_start_date (Sprint_creation s).

Definition Sprint_end_date (s : Sprint) : datetime :=
  SprintCreation_end_date (Sprint_creation s).

Record Issue : Type := {
  Issue_base : dict;
  Issue_id : UUID;
  Issue_creation_date : datetime;
  Issue_author : option UUID;
  Issue_implementers : list UUID;
  Issue_comments : list UUID
}.

Record Comment : Type := {
  Comment_creation : dict;
  Comment_id : UUID;
  Comment_creation_date : datetime;
  Comment_author : option UUID
}.

(** Any Python object that can be the right operand of [==]. *)
Inductive pyobj : Type :=
| OValue (v : pyval)
| OUser (u : User)
| OUserAssignedWorkplace (m : UserAssignedWorkplace)
| OWorkplace (w : Workplace)
| OSprint (s : Sprint)
| OIssue (i : Issue)
| OComment (c : Comment).

Inductive pyclass : Type :=
| ClsUUID | ClsUser | ClsUserAssignedWorkplace | ClsWorkplace
| ClsSprint | ClsIssue | ClsComment | ClsOther.

Definition type_of (o : pyobj) : pyclass :=
  match o with
  | OValue (PUUID _) => ClsUUID
  | OValue _ => ClsOther
  | OUser _ => ClsUser
  | OUserAssignedWorkplace _ => ClsUserAssignedWorkplace
  | OWorkplace _ => ClsWorkplace
  | OSprint _ => ClsSprint
  | OIssue _ => ClsIssue
  | OComment _ => ClsComment
  end.

Definition pyclass_eqb (a b : pyclass) : bool :=
  match a, b with
  | ClsUUID, ClsUUID | ClsUser, ClsUser
  | ClsUserAssignedWorkplace, ClsUserAssignedWorkplace
  | ClsWorkplace, ClsWorkplace | ClsSprint, ClsSprint
  | ClsIssue, ClsIssue | ClsComment, ClsComment | ClsOther, ClsOther => true
  | _, _ => false
  end.

(** [isinstance(o, classes)]; none of the modelled classes has a
    subclass. *)
Definition isinstance (o : pyobj) (classes : list pyclass) : bool :=
  existsb (pyclass_eqb (type_of o)) classes.

(** ** The document store *)

Section Collection.

Context {D : Type} (key : D -> UUID).

Definition find_by_id (k : UUID) (c : list D) : option D :=
  find (fun d => UUID_eqb (key d) k) c.

(** Write a document back under its identifier, inserting it when no
    document has that identifier. *)
Definition upsert (d : D) (c : list D) : list D :=
  if existsb (fun x => UUID_eqb (key x) (key d)) c
  then map (fun x => if UUID_eqb (key x) (key d) then d else x) c
  else c ++ [d].

(** Update in place the document stored under [k]; nothing happens when
    there is none. *)
Definition update_by_id (k : UUID) (f : D -> D) (c : list D) : list D :=
  map (fun x => if UUID_eqb (key x) k then f x else x) c.

Definition delete_by_id (k : UUID) (c : list D) : list D :=
  filter (fun x => negb (UUID_eqb (key x) k)) c.

End Collection.

Record Store : Type := {
  db_User : list User;
  db_UserAssignedWorkplace : list UserAssignedWorkplace;
  db_Workplace : list Workplace;
  db_Sprint : list Sprint;
  db_Issue : list Issue;
  db_Comment : list Comment
}.

Definition empty_store : Store :=
  {| db_User := []; db_UserAssignedWorkplace := []; db_Workplace := [];
     db_Sprint := []; db_Issue := []; db_Comment := [] |}.

Definition with_User (f : list User -> list User) (st : Store) : Store :=
  {| db_User := f (db_User st);
     db_UserAssignedWorkplace := db_UserAssignedWorkplace st;
     db_Workplace := db_Workplace st; db_Sprint := db_Sprint st;
     db_Issue := db_Issue st; db_Comment := db_Comment st |}.

Definition with_UserAssignedWorkplace
  (f : list UserAssignedWorkplace -> list UserAssignedWorkplace)
  (st : Store) : Store :=
  {| db_User := db_User st;
     db_UserAssignedWorkplace := f (db_UserAssignedWorkplace st);
     db_Workplace := db_Workplace st; db_Sprint := db_Sprint st;
     db_Issue := db_Issue st; db_Comment := db_Comment st |}.

Definition with_Workplace (f : list Workplace -> list Workplace)
  (st : Store) : Store :=
  {| db_User := db_User st;
     db_UserAssignedWorkplace := db_UserAssignedWorkplace st;
     db_Workplace := f (db_Workplace st); db_Sprint := db_Sprint st;
     db_Issue := db_Issue st; db_Comment := db_Comment st |}.

Definition with_Sprint (f : list Sprint -> list Sprint) (st : Store) : Store :=
  {| db_User := db_User st;
     db_UserAssignedWorkplace := db_UserAssignedWorkplace st;
     db_Workplace := db_Workplace st; db_Sprint := f (db_Sprint st);
     db_Issue := db_Issue st; db_Comment := db_Comment st |}.

Definition with_Issue (f : list Issue -> list Issue) (st : Store) : Store :=
  {| db_User := db_User st;
     db_UserAssignedWorkplace := db_UserAssignedWorkplace st;
     db_Workplace := db_Workplace st; db_Sprint := db_Sprint st;
     db_Issue := f (db_Issue st); db_Comment := db_Comment st |}.

Definition with_Comment (f : list Comment -> list Comment)
  (st : Store) : Store :=
  {| db_User := db_User st;
     db_UserAssignedWorkplace := db_UserAssignedWorkplace st;
     db_Workplace := db_Workplace st; db_Sprint := db_Sprint st;
     db_Issue := db_Issue st; db_Comment := f (db_Comment st) |}.

(** ** Back links

    A back link is the inverse of a forward link field of the parent
    class ([original_field]): it resolves to the first parent whose
    forward collection lists the child. *)
Definition mem_id (k : UUID) (l : list UUID) : bool := existsb (UUID_eqb k) l.

Definition resolve_backlink {P : Type} (original_field : P -> list UUID)
  (parents : list P) (child : UUID) : option P :=
  find (fun p => mem_id child (original_field p)) parents.

Definition UserAssignedWorkplace_workplace (st : Store) (id : UUID)
  : option Workplace :=
  resolve_backlink Workplace_users (db_Workplace st) id.

Definition Sprint_workplace (st : Store) (id : UUID) : option Workplace :=
  resolve_backlink Workplace_sprints (db_Workplace st) id.

Definition Issue_workplace (st : Store) (id : UUID) : option Workplace :=
  resolve_backlink Workplace_issues (db_Workplace st) id.

Definition Issue_sprint (st : Store) (id : UUID) : option Sprint :=
  resolve_backlink Sprint_issues (db_Sprint st) id.

Definition Comment_issue (st : Store) (id : UUID) : option Issue :=
  resolve_backlink Issue_comments (db_Issue st) id.

(** ** Asynchronous code over the store

    A coroutine that is awaited runs to its end against the store; when
    it raises, the writes it has already made stay (there is no
    transaction). *)
Definition M (A : Type) : Type := Store -> Store * Result A.

Definition ret {A : Type} (a : A) : M A := fun st => (st, Ok a).

Definition raise {A : Type} (e : exn) : M A := fun st => (st, Raise e).

Definition bind {A B : Type} (m : M A) (k : A -> M B) : M B :=
  fun st =>
    match m st with
    | (st', Ok a) => k a st'
    | (st', Raise e) => (st', Raise e)
    end.

Notation "x <- c1 ;; c2" := (bind c1 (fun x => c2))
  (at level 61, c1 at next level, right associativity).
Notation "c1 ;; c2" := (bind c1 (fun _ => c2))
  (at level 61, right associativity).

Definition get_store : M Store := fun st => (st, Ok st).

Definition modify_store (f : Store -> Store) : M unit :=
  fun st => (f st, Ok tt).

(** The store a computation leaves behind, whether it returned or
    raised. *)
Definition exec {A : Type} (m : M A) (st : Store) : Store := fst (m st).

Definition result {A : Type} (m : M A) (st : Store) : Result A := snd (m st).

(** Calling an [async] method without [await] only builds a coroutine
    object; its body never runs. *)
Definition not_awaited {A : Type} (coroutine : M A) : M unit := ret tt.

Fixpoint for_each {A : Type} (f : A -> M unit) (l : list A) : M unit :=
  match l with
  | [] => ret tt
  | x :: t => f x ;; for_each f t
  end.

(** Attribute access on a value that may be [None]. *)
Definition attr_of {A : Type} (o : option A) (attr : string) : M A :=
  match o with
  | Some a => ret a
  | None =>
      raise (AttributeError
               ("'NoneType' object has no attribute '" ++ attr ++ "'")%string)
  end.

(** [l.remove(x)]: drops the first element equal to [x]. The elements of
    a link collection compare equal to an identifier when they carry
    that identifier (see the [__eq__] methods), so a collection is
    represented by the identifiers of its elements. *)
Fixpoint remove_first (x : UUID) (l : list UUID) : option (list UUID) :=
  match l with
  | [] => None
  | y :: t =>
      if UUID_eqb y x then Some t
      else match remove_first x t with
           | Some t' => Some (y :: t')
           | None => None
           end
  end.

Definition list_remove (l : list UUID) (x : UUID) : M (list UUID) :=
  match remove_first x l with
  | Some l' => ret l'
  | None => raise (ValueError "list.remove(x): x not in list")
  end.

(** ** Documents in memory

    A document that was read with [fetch_links=True] holds, next to its
    own fields, the documents its links point to and, for each back
    link, a copy of the parent found at the time of the read. A link
    whose target does not exist stays a reference; for the code below a
    reference and [None] behave alike, so both are [None] here. *)
Record UserAssignedWorkplaceObj : Type := {
  m_self : UserAssignedWorkplace;
  m_user : option User;
  m_workplace : option Workplace
}.

Record CommentObj : Type := {
  c_self : Comment;
  c_author : option UserAssignedWorkplaceObj;
  c_issue : option Issue
}.

Record IssueObj : Type := {
  i_self : Issue;
  i_workplace : option Workplace;
  i_author : option UserAssignedWorkplaceObj;
  i_sprint : option Sprint;
  i_implementers : list UserAssignedWorkplaceObj;
  i_comments : list CommentObj
}.

Record SprintObj : Type := {
  s_self : Sprint;
  s_workplace : option Workplace;
  s_issues : list IssueObj
}.

Record WorkplaceObj : Type := {
  w_self : Workplace;
  w_users : list UserAssignedWorkplaceObj;
  w_sprints : list SprintObj;
  w_issues : list IssueObj
}.

(** The linked documents that exist, in the order of the references. *)
Definition fetch_links {D L : Type} (lookup : UUID -> option D)
  (load : D -> L) (refs : list UUID) : list L :=
  flat_map (fun k => match lookup k with
                     | Some d => [load d]
                     | None => []
                     end) refs.

Definition fetch_link {D L : Type} (lookup : UUID -> option D)
  (load : D -> L) (ref : option UUID) : option L :=
  match ref with
  | Some k => option_map load (lookup k)
  | None => None
  end.

Definition fetch_UserAssignedWorkplace (st : Store)
  (d : UserAssignedWorkplace) : UserAssignedWorkplaceObj :=
  {| m_self := d;
     m_user := find_by_id User_id (UserAssignedWorkplace_user d) (db_User st);
     m_workplace :=
       UserAssignedWorkplace_workplace st (UserAssignedWorkplace_id d) |}.

Definition lookup_UserAssignedWorkplace (st : Store) (k : UUID)
  : option UserAssignedWorkplace :=
  find_by_id UserAssignedWorkplace_id k (db_UserAssignedWorkplace st).

Definition fetch_Comment (st : Store) (d : Comment) : CommentObj :=
  {| c_self := d;
     c_author := fetch_link (lookup_UserAssignedWorkplace st)
                   (fetch_UserAssignedWorkplace st) (Comment_author d);
     c_issue := Comment_issue st (Comment_id d) |}.

Definition fetch_Issue (st : Store) (d : Issue) : IssueObj :=
  {| i_self := d;
     i_workplace := Issue_workplace st (Issue_id d);
     i_author := fetch_link (lookup_UserAssignedWorkplace st)
                   (fetch_UserAssignedWorkplace st) (Issue_author d);
     i_sprint := Issue_sprint st (Issue_id d);
     i_implementers := fetch_links (lookup_UserAssignedWorkplace st)
                         (fetch_UserAssignedWorkplace st)
                         (Issue_implementers d);
     i_comments := fetch_links (fun k => find_by_id Comment_id k (db_Comment st))
                     (fetch_Comment st) (Issue_comments d) |}.

Definition fetch_Sprint (st : Store) (d : Sprint) : SprintObj :=
  {| s_self := d;
     s_workplace := Sprint_workplace st (Sprint_id d);
     s_issues := fetch_links (fun k => find_by_id Issue_id k (db_Issue st))
                   (fetch_Issue st) (Sprint_issues d) |}.

Definition fetch_Workplace (st : Store) (d : Workplace) : WorkplaceObj :=
  {| w_self := d;
     w_users := fetch_links (lookup_UserAssignedWorkplace st)
                  (fetch_UserAssignedWorkplace st) (Workplace_users d);
     w_sprints := fetch_links (fun k => find_by_id Sprint_id k (db_Sprint st))
                    (fetch_Sprint st) (Workplace_sprints d);
     w_issues := fetch_links (fun k => find_by_id Issue_id k (db_Issue st))
                   (fetch_Issue st) (Workplace_issues d) |}.

(** ** Link rules *)

Module DeleteRules.
Inductive t : Type := DO_NOTHING | DELETE_LINKS.
End DeleteRules.

Module WriteRules.
Inductive t : Type := DO_NOTHING | WRITE.
End WriteRules.

(** [save()] of a parent copy, with the default link rule: the document
    itself is written back. *)
Definition Workplace_save (w : Workplace) : M unit :=
  modify_store (with_Workplace (upsert Workplace_id w)).

Definition Sprint_save (s : Sprint) : M unit :=
  modify_store (with_Sprint (upsert Sprint_id s)).

Definition Issue_save (i : Issue) : M unit :=
  modify_store (with_Issue (upsert Issue_id i)).

Definition set_Workplace_users (w : Workplace) (l : list UUID) : Workplace :=
  {| Workplace_creation := Workplace_creation w; Workplace_id := Workplace_id w;
     Workplace_states := Workplace_states w; Workplace_users := l;
     Workplace_sprints := Workplace_sprints w;
     Workplace_issues := Workplace_issues w |}.

Definition set_Workplace_sprints (w : Workplace) (l : list UUID) : Workplace :=
  {| Workplace_creation := Workplace_creation w; Workplace_id := Workplace_id w;
     Workplace_states := Workplace_states w; Workplace_users := Workplace_users w;
     Workplace_sprints := l; Workplace_issues := Workplace_issues w |}.

Definition set_Workplace_issues (w : Workplace) (l : list UUID) : Workplace :=
  {| Workplace_creation := Workplace_creation w; Workplace_id := Workplace_id w;
     Workplace_states := Workplace_states w; Workplace_users := Workplace_users w;
     Workplace_sprints := Workplace_sprints w; Workplace_issues := l |}.

Definition set_Workplace_creation (w : Workplace) (d : dict) : Workplace :=
  {| Workplace_creation := d; Workplace_id := Workplace_id w;
     Workplace_states := Workplace_states w; Workplace_users := Workplace_users w;
     Workplace_sprints := Workplace_sprints w;
     Workplace_issues := Workplace_issues w |}.

Definition set_Sprint_issues (s : Sprint) (l : list UUID) : Sprint :=
  {| Sprint_creation := Sprint_creation s; Sprint_id := Sprint_id s;
     Sprint_issues := l |}.

Definition set_Issue_comments (i : Issue) (l : list UUID) : Issue :=
  {| Issue_base := Issue_base i; Issue_id := Issue_id i;
     Issue_creation_date := Issue_creation_date i;
     Issue_author := Issue_author i;
     Issue_implementers := Issue_implementers i; Issue_comments := l |}.

(** ** class User *)
Module User.

(** The [created] property: [self.id.generation_time]. *)
Definition created (self : User) : Result pyval :=
  UUID_getattr (User_id self) "generation_time".

Definition by_email (email : string) : M (option User) :=
  st <- get_store ;;
  ret (find (fun u => String.eqb (User_email u) email) (db_User st)).

Definition __eq__ (self : User) (other : pyobj) : bool :=
  if negb (isinstance other [ClsUser; ClsUUID]) then false
  else
    match other with
    | OValue (PUUID id) => UUID_eqb (User_id self) id
    | OUser o => UUID_eqb (User_id self) (User_id o)
    | _ => false
    end.

Definition save (self : User) : M unit :=
  modify_store (with_User (upsert User_id self)).

Definition delete (link_rule : DeleteRules.t) (self : User) : M unit :=
  modify_store (with_User (delete_by_id User_id (User_id self))).

End User.

(** ** class UserAssignedWorkplace *)
Module UserAssignedWorkplace.

Definition delete_refs (self : UserAssignedWorkplaceObj)
  : M UserAssignedWorkplaceObj :=
  ret {| m_self := m_self self; m_user := None;
         m_workplace := m_workplace self |}.

Definition __eq__ (self : UserAssignedWorkplace) (other : pyobj) : bool :=
  if negb (isinstance other [ClsUserAssignedWorkplace; ClsUUID]) then false
  else
    match other with
    | OValue (PUUID id) => UUID_eqb (UserAssignedWorkplace_id self) id
    | OUserAssignedWorkplace o =>
        UUID_eqb (UserAssignedWorkplace_id self) (UserAssignedWorkplace_id o)
    | _ => false
    end.

Definition save (link_rule : WriteRules.t) (self : UserAssignedWorkplaceObj)
  : M unit :=
  match link_rule, m_user self with
  | WriteRules.WRITE, Some u => User.save u
  | _, _ => ret tt
  end ;;
  modify_store
    (with_UserAssignedWorkplace (upsert UserAssignedWorkplace_id (m_self self))).

Definition delete (link_rule : DeleteRules.t) (self : UserAssignedWorkplaceObj)
  : M unit :=
  self <- delete_refs self ;;
  match link_rule, m_user self with
  | DeleteRules.DELETE_LINKS, Some u => User.delete link_rule u
  | _, _ => ret tt
  end ;;
  modify_store
    (with_UserAssignedWorkplace
       (delete_by_id UserAssignedWorkplace_id
          (UserAssignedWorkplace_id (m_self self)))).

End UserAssignedWorkplace.

Definition delete_link {L : Type} (link_rule : DeleteRules.t)
  (delete : DeleteRules.t -> L -> M unit) (value : option L) : M unit :=
  match link_rule, value with
  | DeleteRules.DELETE_LINKS, Some d => delete link_rule d
  | _, _ => ret tt
  end.

Definition delete_links {L : Type} (link_rule : DeleteRules.t)
  (delete : DeleteRules.t -> L -> M unit) (values : list L) : M unit :=
  match link_rule with
  | DeleteRules.DELETE_LINKS => for_each (delete link_rule) values
  | DeleteRules.DO_NOTHING => ret tt
  end.

(** ** class Comment *)
Module Comment.

Definition delete_refs (self : CommentObj) : M CommentObj :=
  issue <- attr_of (c_issue self) "comments" ;;
  comments <- list_remove (Issue_comments issue) (Comment_id (c_self self)) ;;
  let issue := set_Issue_comments issue comments in
  Issue_save issue ;;
  ret {| c_self :=
           {| Comment_creation := Comment_creation (c_self self);
              Comment_id := Comment_id (c_self self);
              Comment_creation_date := Comment_creation_date (c_self self);
              Comment_author := None |};
         c_author := None;
         c_issue := Some issue |}.

Definition __eq__ (self : Comment) (other : pyobj) : bool :=
  if negb (isinstance other [ClsComment; ClsUUID]) then false
  else
    match other with
    | OValue (PUUID id) => UUID_eqb (Comment_id self) id
    | OComment o => UUID_eqb (Comment_id self) (Comment_id o)
    | _ => false
    end.

Definition delete (link_rule : DeleteRules.t) (self : CommentObj) : M unit :=
  self <- delete_refs self ;;
  delete_link link_rule UserAssignedWorkplace.delete (c_author self) ;;
  modify_store
    (with_Comment (delete_by_id Comment_id (Comment_id (c_self self)))).

End Comment.

(** ** class Issue *)
Module Issue.

Definition delete_refs (self : IssueObj) : M IssueObj :=
  let id := Issue_id (i_self self) in
  workplace <- attr_of (i_workplace self) "issues" ;;
  issues <- list_remove (Workplace_issues workplace) id ;;
  let workplace := set_Workplace_issues workplace issues in
  Workplace_save workplace ;;
  sprint <- match i_sprint self with
            | Some sprint =>
                issues <- list_remove (Sprint_issues sprint) id ;;
                let sprint := set_Sprint_issues sprint issues in
                not_awaited (Sprint_save sprint) ;;
                ret (Some sprint)
            | None => ret None
            end ;;
  ret {| i_self :=
           {| Issue_base := Issue_base (i_self self);
              Issue_id := id;
              Issue_creation_date := Issue_creation_date (i_self self);
              Issue_author := None;
              Issue_implementers := [];
              Issue_comments := Issue_comments (i_self self) |};
         i_workplace := Some workplace;
         i_author := None;
         i_sprint := sprint;
         i_implementers := [];
         i_comments := i_comments self |}.

Definition __eq__ (self : Issue) (other : pyobj) : bool :=
  if negb (isinstance other [ClsIssue; ClsUUID]) then false
  else
    match other with
    | OValue (PUUID id) => UUID_eqb (Issue_id self) id
    | OIssue o => UUID_eqb (Issue_id self) (Issue_id o)
    | _ => false
    end.

Definition delete (link_rule : DeleteRules.t) (self : IssueObj) : M unit :=
  self <- delete_refs self ;;
  delete_link link_rule UserAssignedWorkplace.delete (i_author self) ;;
  delete_links link_rule UserAssignedWorkplace.delete (i_implementers self) ;;
  delete_links link_rule Comment.delete (i_comments self) ;;
  modify_store (with_Issue (delete_by_id Issue_id (Issue_id (i_self self)))).

End Issue.

(** ** class Sprint *)
Module Sprint.

Definition delete_ref_workplace (self : SprintObj) : M SprintObj :=
  workplace <- attr_of (s_workplace self) "sprints" ;;
  sprints <- list_remove (Workplace_sprints workplace) (Sprint_id (s_self self)) ;;
  let workplace := set_Workplace_sprints workplace sprints in
  Workplace_save workplace ;;
  ret {| s_self := s_self self; s_workplace := Some workplace;
         s_issues := s_issues self |}.

(** The three branches of the [Or] of the query. *)
Definition overlaps (sprint_creation : SprintCreation) (s : Sprint) : bool :=
  let start_date := SprintCreation_start_date sprint_creation in
  let end_date := SprintCreation_end_date sprint_creation in
  ((start_date <=? Sprint_start_date s) && (Sprint_start_date s <? end_date))
  || ((start_date <? Sprint_end_date s) && (Sprint_end_date s <=? end_date))
  || ((Sprint_start_date s <=? start_date) && (end_date <=? Sprint_end_date s)).

Definition workplace_id_is (st : Store) (workplace_id : UUID) (s : Sprint)
  : bool :=
  match Sprint_workplace st (Sprint_id s) with
  | Some w => UUID_eqb (Workplace_id w) workplace_id
  | None => false
  end.

(** [Sprint.id != sprint_id], where [sprint_id] defaults to [None]. *)
Definition id_is_not (sprint_id : option UUID) (s : Sprint) : bool :=
  match sprint_id with
  | Some k => negb (UUID_eqb (Sprint_id s) k)
  | None => true
  end.

Definition validate_creation (sprint_creation : SprintCreation)
  (workplace_id : UUID) (sprint_id : option UUID) (check_self : bool)
  : M unit :=
  st <- get_store ;;
  let find_sprint :=
    find (fun s => workplace_id_is st workplace_id s
                   && overlaps sprint_creation s
                   && id_is_not sprint_id s) (db_Sprint st) in
  match find_sprint with
  | Some _ => raise (ValidationError "Спринты не должны пересекаться по дате.")
  | None => ret tt
  end.

Definition __eq__ (self : Sprint) (other : pyobj) : bool :=
  if negb (isinstance other [ClsSprint; ClsUUID]) then false
  else
    match other with
    | OValue (PUUID id) => UUID_eqb (Sprint_id self) id
    | OSprint o => UUID_eqb (Sprint_id self) (Sprint_id o)
    | _ => false
    end.

Definition delete (link_rule : DeleteRules.t) (self : SprintObj) : M unit :=
  self <- delete_ref_workplace self ;;
  delete_links link_rule Issue.delete (s_issues self) ;;
  modify_store (with_Sprint (delete_by_id Sprint_id (Sprint_id (s_self self)))).

End Sprint.

(** ** class Workplace *)
Module Workplace.

Definition find_one (workplace_id : UUID) (fetch_links : bool)
  : M (option WorkplaceObj) :=
  st <- get_store ;;
  ret (option_map
         (fun d => if fetch_links then fetch_Workplace st d
                   else {| w_self := d; w_users := []; w_sprints := [];
                           w_issues := [] |})
         (find_by_id Workplace_id workplace_id (db_Workplace st))).

(** [save(link_rule=...)]: with [WRITE] the linked documents held in
    memory are saved first. References are left alone. Only membership
    documents are ever attached in memory by the handlers. *)
Definition save (link_rule : WriteRules.t) (self : WorkplaceObj) : M unit :=
  match link_rule with
  | WriteRules.WRITE =>
      for_each (UserAssignedWorkplace.save link_rule) (w_users self)
  | WriteRules.DO_NOTHING => ret tt
  end ;;
  Workplace_save (w_self self).

(** [update({"$set": fields})]: the update is applied to the stored
    document with this identifier. *)
Definition update_set (self : WorkplaceObj) (fields : dict) : M unit :=
  modify_store
    (with_Workplace
       (update_by_id Workplace_id (Workplace_id (w_self self))
          (fun d => set_Workplace_creation d
                      (dict_update (Workplace_creation d) fields)))).

Definition delete (link_rule : DeleteRules.t) (self : WorkplaceObj) : M unit :=
  delete_links link_rule UserAssignedWorkplace.delete (w_users self) ;;
  delete_links link_rule Sprint.delete (w_sprints self) ;;
  delete_links link_rule Issue.delete (w_issues self) ;;
  modify_store
    (with_Workplace (delete_by_id Workplace_id (Workplace_id (w_self self)))).

End Workplace.

(** ** The workplace router *)

(** What the handlers need from modules outside the modelled sources:
    the default workflow stages ([states()] of [app/schemas/types.py])
    and the client's main URL ([client_api_settings.MAIN_URL]). *)
Record Config : Type := {
  states : list string;
  MAIN_URL : string
}.

Inductive response : Type :=
| SuccessfulResponse
| RedirectResponse (url : string)
| ResponseWorkplace (w : option Workplace)
| ResponseNone.

(** A fresh document, before it is saved. Identifiers come from
    [uuid4()]; the drawn value is an argument of the handler. The
    handlers also pass [workplace_id=...] to the constructor; the class
    has no such field, so nothing is kept of it. *)
Definition new_UserAssignedWorkplace (id : UUID) (user : User) (role : Role)
  : UserAssignedWorkplaceObj :=
  {| m_self := {| UserAssignedWorkplace_id := id;
                  UserAssignedWorkplace_user := User_id user;
                  UserAssignedWorkplace_role := role |};
     m_user := Some user;
     m_workplace := None |}.

Definition new_Workplace (cfg : Config) (id : UUID) (creation : dict)
  : WorkplaceObj :=
  {| w_self := {| Workplace_creation := creation; Workplace_id := id;
                  Workplace_states := states cfg; Workplace_users := [];
                  Workplace_sprints := []; Workplace_issues := [] |};
     w_users := []; w_sprints := []; w_issues := [] |}.

(** [workplace.users = value] and [workplace.users.append(m)]. *)
Definition assign_users (w : WorkplaceObj)
  (value : list UserAssignedWorkplaceObj) : WorkplaceObj :=
  {| w_self := set_Workplace_users (w_self w)
                 (map (fun m => UserAssignedWorkplace_id (m_self m)) value);
     w_users := value; w_sprints := w_sprints w; w_issues := w_issues w |}.

Definition append_user (w : WorkplaceObj) (m : UserAssignedWorkplaceObj)
  : WorkplaceObj :=
  {| w_self := set_Workplace_users (w_self w)
                 (Workplace_users (w_self w)
                    ++ [UserAssignedWorkplace_id (m_self m)]);
     w_users := w_users w ++ [m];
     w_sprints := w_sprints w; w_issues := w_issues w |}.

Definition create_workplace (cfg : Config) (uuid4_workplace uuid4_member : UUID)
  (workplace_creation : dict) (user : User) : M response :=
  let workplace := new_Workplace cfg uuid4_workplace workplace_creation in
  let workplace :=
    assign_users workplace [new_UserAssignedWorkplace uuid4_member user ADMIN] in
  Workplace.save WriteRules.WRITE workplace ;;
  ret SuccessfulResponse.

Definition get_workplace (workplace_id : UUID) : M response :=
  workplace <- Workplace.find_one workplace_id false ;;
  ret (ResponseWorkplace (option_map w_self workplace)).

Definition edit_workplace (workplace_creation : dict) (workplace_id : UUID)
  : M response :=
  workplace <- Workplace.find_one workplace_id false ;;
  workplace <- attr_of workplace "update" ;;
  Workplace.update_set workplace workplace_creation ;;
  ret SuccessfulResponse.

(** [UserAssignedWorkplace.find(UserAssignedWorkplace.workplace.id ==
    workplace_id).delete()]: every matching record is removed at once;
    no hook runs. *)
Definition delete_members_of (workplace_id : UUID) : M unit :=
  st <- get_store ;;
  modify_store
    (with_UserAssignedWorkplace
       (filter (fun m =>
          negb match UserAssignedWorkplace_workplace st
                       (UserAssignedWorkplace_id m) with
               | Some w => UUID_eqb (Workplace_id w) workplace_id
               | None => false
               end))).

Definition delete_workplace (workplace_id : UUID) : M response :=
  delete_members_of workplace_id ;;
  workplace <- Workplace.find_one workplace_id true ;;
  workplace <- attr_of workplace "delete" ;;
  Workplace.delete DeleteRules.DELETE_LINKS workplace ;;
  ret ResponseNone.

(** [token_email] is the address in the decoded invitation token. *)
Definition add_to_workplace (cfg : Config) (uuid4_member : UUID)
  (workplace_id : UUID) (token_email : string) : M response :=
  user <- User.by_email token_email ;;
  match user with
  | None => ret (RedirectResponse (MAIN_URL cfg))
  | Some user =>
      workplace <- Workplace.find_one workplace_id false ;;
      workplace <- attr_of workplace "users" ;;
      let workplace :=
        append_user workplace
          (new_UserAssignedWorkplace uuid4_member user MEMBER) in
      Workplace.save WriteRules.WRITE workplace ;;
      ret (RedirectResponse ("/workplaces/" ++ UUIDAttr.str workplace_id)%string)
  end.

(** ** Statements about the sprint overlap validator *)

(** The three conditions, in the words of the specification:
    existing.start in [candidate.start, candidate.end), existing.end in
    (candidate.start, candidate.end], or the existing interval contains
    the candidate. *)
Definition overlap_conditions (candidate : SprintCreation) (existing : Sprint)
  : Prop :=
  let cs := SprintCreation_start_date candidate in
  let ce := SprintCreation_end_date candidate in
  (cs <= Sprint_start_date existing /\ Sprint_start_date existing < ce)
  \/ (cs < Sprint_end_date existing /\ Sprint_end_date existing <= ce)
  \/ (Sprint_start_date existing <= cs /\ Sprint_end_date existing >= ce).

(** A stored sprint whose workplace back link resolves to the workplace
    with the given identifier. *)
Definition sprint_of (st : Store) (workplace_id : UUID) (s : Sprint) : Prop :=
  In s (db_Sprint st)
  /\ exists w, Sprint_workplace st (Sprint_id s) = Some w
               /\ Workplace_id w = workplace_id.

Definition conflict (st : Store) (candidate : SprintCreation)
  (workplace_id : UUID) (excluded : option UUID) : Prop :=
  exists s, sprint_of st workplace_id s
            /\ Some (Sprint_id s) <> excluded
            /\ overlap_conditions candidate s.

Definition interval (start_date end_date : datetime) : SprintCreation :=
  {| SprintCreation_start_date := start_date;
     SprintCreation_end_date := end_date;
     SprintCreation_rest := [] |}.

(** One workplace (identifier 1) with one sprint (identifier 10) over
    [2024-01-01, 2024-01-10). *)
Definition january_store : Store :=
  {| db_User := []; db_UserAssignedWorkplace := [];
     db_Workplace :=
       [{| Workplace_creation := [("name"%string, PStr "W")]; Workplace_id := 1;
           Workplace_states := []; Workplace_users := [];
           Workplace_sprints := [10]; Workplace_issues := [] |}];
     db_Sprint :=
       [{| Sprint_creation :=
             interval (datetime_ymd 2024 1 1) (datetime_ymd 2024 1 10);
           Sprint_id := 10; Sprint_issues := [] |}];
     db_Issue := []; db_Comment := [] |}.

(** ** Statements about entity equality *)

(** What it means for the [__eq__] method [eq] of the class [cls], whose
    instances are injected by [inj] and identified by [id], to be
    equality by identifier. *)
Definition eq_by_identifier {D : Type} (id : D -> UUID) (inj : D -> pyobj)
  (cls : pyclass) (eq : D -> pyobj -> bool) : Prop :=
  (forall a b, eq a (inj b) = true <-> id a = id b)
  /\ (forall a, eq a (OValue (PUUID (id a))) = true)
  /\ (forall a u, eq a (OValue (PUUID u)) = true <-> id a = u)
  /\ (forall a o, type_of o <> cls -> type_of o <> ClsUUID -> eq a o = false)
  /\ (forall a, eq a (inj a) = true)
  /\ (forall a b, eq a (inj b) = eq b (inj a))
  /\ (forall a b c, eq a (inj b) = true -> eq b (inj c) = true ->
                    eq a (inj c) = true).

(** ** Statements about the monad *)

(** [m] keeps [P], whether it returns or raises. *)
Definition preserves {A : Type} (P : Store -> Prop) (m : M A) : Prop :=
  forall st, P st -> P (exec m st).

(** From a store in [P], [m] returns normally and establishes [Q]. *)
Definition returns {A : Type} (P : Store -> Prop) (m : M A)
  (Q : A -> Store -> Prop) : Prop :=
  forall st, P st -> exists a st', m st = (st', Ok a) /\ Q a st'.

(** ** Example stores *)

(** Workplace 1 owns sprint 10 and issue 20; the issue is assigned to
    the sprint and has comment 30; membership 40 links user 50. *)
Definition sample_user : User :=
  {| User_id := 50; User_email := "ann@example.org"; User_password := "x";
     User_register := [] |}.

Definition sample_workplace : Workplace :=
  {| Workplace_creation := [("name"%string, PStr "W")]; Workplace_id := 1;
     Workplace_states := ["todo"%string]; Workplace_users := [40];
     Workplace_sprints := [10]; Workplace_issues := [20] |}.

Definition sample_sprint : Sprint :=
  {| Sprint_creation :=
       interval (datetime_ymd 2024 1 1) (datetime_ymd 2024 1 10);
     Sprint_id := 10; Sprint_issues := [20] |}.

Definition sample_issue : Issue :=
  {| Issue_base := []; Issue_id := 20;
     Issue_creation_date := datetime_ymd 2024 1 2;
     Issue_author := Some 40; Issue_implementers := [40];
     Issue_comments := [30] |}.

Definition sample_comment : Comment :=
  {| Comment_creation := []; Comment_id := 30;
     Comment_creation_date := datetime_ymd 2024 1 3;
     Comment_author := Some 40 |}.

Definition sample_member : UserAssignedWorkplace :=
  {| UserAssignedWorkplace_id := 40; UserAssignedWorkplace_user := 50;
     UserAssignedWorkplace_role := ADMIN |}.

Definition sample_store : Store :=
  {| db_User := [sample_user];
     db_UserAssignedWorkplace := [sample_member];
     db_Workplace := [sample_workplace];
     db_Sprint := [sample_sprint];
     db_Issue := [sample_issue];
     db_Comment := [sample_comment] |}.

Definition sample_config : Config :=
  {| states := ["todo"%string; "done"%string];
     MAIN_URL := "https://example.org" |}.

(** ** Reachable stores and mutual consistency *)

(** An identifier drawn by [uuid4()] for a new membership is not yet
    listed by any workplace. *)
Definition fresh_member (st : Store) (id : UUID) : Prop :=
  forall w, In w (db_Workplace st) -> ~ In id (Workplace_users w).

(** The stores that the modelled operations produce from the store
    [start]: the handlers of the workplace router, and [delete] (with
    either link rule) on a stored sprint, issue, comment or membership
    read with its links. A request that raises leaves the writes it
    made. The start is any store, with whatever sprints, issues and
    comments the other routers have put there. *)
Inductive reachable (cfg : Config) (start : Store) : Store -> Prop :=
| reach_start : reachable cfg start start
| reach_create_workplace st wid mid creation user :
    reachable cfg start st -> fresh_member st mid ->
    reachable cfg start (exec (create_workplace cfg wid mid creation user) st)
| reach_get_workplace st wid :
    reachable cfg start st -> reachable cfg start (exec (get_workplace wid) st)
| reach_edit_workplace st fields wid :
    reachable cfg start st ->
    reachable cfg start (exec (edit_workplace fields wid) st)
| reach_delete_workplace st wid :
    reachable cfg start st ->
    reachable cfg start (exec (delete_workplace wid) st)
| reach_add_to_workplace st mid wid email :
    reachable cfg start st -> fresh_member st mid ->
    reachable cfg start (exec (add_to_workplace cfg mid wid email) st)
| reach_delete_sprint st rule s :
    reachable cfg start st -> In s (db_Sprint st) ->
    reachable cfg start (exec (Sprint.delete rule (fetch_Sprint st s)) st)
| reach_delete_issue st rule i :
    reachable cfg start st -> In i (db_Issue st) ->
    reachable cfg start (exec (Issue.delete rule (fetch_Issue st i)) st)
| reach_delete_comment st rule c :
    reachable cfg start st -> In c (db_Comment st) ->
    reachable cfg start (exec (Comment.delete rule (fetch_Comment st c)) st)
| reach_delete_member st rule m :
    reachable cfg start st -> In m (db_UserAssignedWorkplace st) ->
    reachable cfg start
      (exec (UserAssignedWorkplace.delete rule
               (fetch_UserAssignedWorkplace st m)) st).

(** Every membership that a stored workplace lists resolves, through
    its back link, to that workplace. *)
Definition mutual_consistency (st : Store) : Prop :=
  forall w m, In w (db_Workplace st) -> In m (Workplace_users w) ->
              UserAssignedWorkplace_workplace st m = Some w.

(** No membership is listed by two workplaces, and no identifier is
    carried by two workplace documents. *)
Definition members_apart (ws : list Workplace) : Prop :=
  forall w1 w2 m, In w1 ws -> In w2 ws ->
                  In m (Workplace_users w1) -> In m (Workplace_users w2) ->
                  Workplace_id w1 = Workplace_id w2.

Definition unique_ids (ws : list Workplace) : Prop :=
  forall w1 w2, In w1 ws -> In w2 ws ->
                Workplace_id w1 = Workplace_id w2 -> w1 = w2.

(** [w] has the identifier and the members of a workplace of [ws]. *)
Definition same_members_in (ws : list Workplace) (w : Workplace) : Prop :=
  exists w0, In w0 ws /\ Workplace_id w0 = Workplace_id w
             /\ Workplace_users w0 = Workplace_users w.

(** The workplaces of the store answer to those of [ws]. *)
Definition members_from (ws : list Workplace) (st : Store) : Prop :=
  (forall w, In w (db_Workplace st) -> same_members_in ws w)
  /\ unique_ids (db_Workplace st).

(** The parent copies that a document in memory would save. *)
Definition parents_Issue (S : Workplace -> Prop) (i : IssueObj) : Prop :=
  forall w, i_workplace i = Some w -> S w.

Definition parents_Sprint (S : Workplace -> Prop) (s : SprintObj) : Prop :=
  (forall w, s_workplace s = Some w -> S w)
  /\ (forall i, In i (s_issues s) -> parents_Issue S i).

Definition parents_Workplace (S : Workplace -> Prop) (w : WorkplaceObj)
  : Prop :=
  (forall s, In s (w_sprints w) -> parents_Sprint S s)
  /\ (forall i, In i (w_issues w) -> parents_Issue S i).

(** [m] keeps [P] and, when it returns, its value is in [R]. *)
Definition preserves_with {A : Type} (P : Store -> Prop) (m : M A)
  (R : A -> Prop) : Prop :=
  forall st, P st ->
             P (exec m st) /\ (forall a, result m st = Ok a -> R a).

Definition apart_store (st : Store) : Prop :=
  members_apart (db_Workplace st) /\ unique_ids (db_Workplace st).

(** Stores reached from the sample store: sprint 10 is deleted (its hook
    saves a copy of workplace 1), a second workplace is created, and an
    invitation to workplace 1 is accepted. *)
Definition detached_store : Store :=
  exec (Sprint.delete DeleteRules.DO_NOTHING
          (fetch_Sprint sample_store sample_sprint)) sample_store.

Definition created_store : Store :=
  exec (create_workplace sample_config 2 41 [("name"%string, PStr "V")]
          sample_user) detached_store.

Definition invited_store : Store :=
  exec (add_to_workplace sample_config 42 1 "ann@example.org") created_store.

(** ** Statements about the delete cascade *)

(** The identifiers in [XM], [XS] and [XI] are not findable as
    membership, sprint and issue. *)
Definition gone (XM XS XI : UUID -> Prop) (st : Store) : Prop :=
  (forall k, XM k ->
             find_by_id UserAssignedWorkplace_id k (db_UserAssignedWorkplace st)
             = None)
  /\ (forall k, XS k -> find_by_id Sprint_id k (db_Sprint st) = None)
  /\ (forall k, XI k -> find_by_id Issue_id k (db_Issue st) = None).

(** A document in memory on which the before-delete hooks find what
    they dereference: the parent copies are present and list the
    document, and the issue copy held by a comment is its issue. *)
Definition ready_Comment (issue_id : UUID) (c : CommentObj) : Prop :=
  exists i, c_issue c = Some i /\ Issue_id i = issue_id
            /\ In (Comment_id (c_self c)) (Issue_comments i).

Definition ready_Issue (i : IssueObj) : Prop :=
  (exists w, i_workplace i = Some w
             /\ In (Issue_id (i_self i)) (Workplace_issues w))
  /\ (forall s, i_sprint i = Some s ->
                In (Issue_id (i_self i)) (Sprint_issues s))
  /\ (forall c, In c (i_comments i) -> ready_Comment (Issue_id (i_self i)) c).

Definition ready_Sprint (s : SprintObj) : Prop :=
  (exists w, s_workplace s = Some w
             /\ In (Sprint_id (s_self s)) (Workplace_sprints w))
  /\ (forall i, In i (s_issues s) -> ready_Issue i).

Definition ready_Workplace (w : WorkplaceObj) : Prop :=
  (forall s, In s (w_sprints w) -> ready_Sprint s)
  /\ (forall i, In i (w_issues w) -> ready_Issue i).

(** Data model: a comment belongs to one issue, and an issue that a
    sprint lists is an issue of some workplace. *)
Definition comments_apart (st : Store) : Prop :=
  forall i1 i2 c, In i1 (db_Issue st) -> In i2 (db_Issue st) ->
                  In c (Issue_comments i1) -> In c (Issue_comments i2) ->
                  Issue_id i1 = Issue_id i2.

Definition sprint_issues_owned (st : Store) : Prop :=
  forall s i, In s (db_Sprint st) -> In i (Sprint_issues s) ->
              exists w, In w (db_Workplace st) /\ In i (Workplace_issues w).

(** The same for the issues that exist only: a sprint may still list the
    identifier of an issue that was deleted. *)
Definition sprint_issues_listed (st : Store) : Prop :=
  forall s i d, In s (db_Sprint st) -> In i (Sprint_issues s) ->
                find_by_id Issue_id i (db_Issue st) = Some d ->
                exists w, In w (db_Workplace st) /\ In i (Workplace_issues w).

(** The sample store after issue 20 was deleted: sprint 10 still lists
    the identifier. *)
Definition stale_store : Store :=
  exec (Issue.delete DeleteRules.DO_NOTHING
          (fetch_Issue sample_store sample_issue)) sample_store.

(** The issues that the workplace [w] owns: those it lists and those
    that one of its sprints lists. *)
Definition owned_issue (st : Store) (w : Workplace) (i : UUID) : Prop :=
  In i (Workplace_issues w)
  \/ exists k s, In k (Workplace_sprints w)
                 /\ find_by_id Sprint_id k (db_Sprint st) = Some s
                 /\ In i (Sprint_issues s).

(** The memberships whose back link resolves to the workplace with the
    identifier [workplace_id]. *)
Definition member_of (st : Store) (workplace_id : UUID) (m : UUID) : Prop :=
  exists w, UserAssignedWorkplace_workplace st m = Some w
            /\ Workplace_id w = workplace_id.

(** ** More of the workplace router and of the document classes *)

(** The comprehension [[w.id for w in workplaces for u in w.users if
    u.user.id == user.id]]: the test dereferences the user of every
    membership held by the workplace, in order. *)
Fixpoint ids_for_user (user : User) (id : UUID)
  (users : list UserAssignedWorkplaceObj) : M (list UUID) :=
  match users with
  | [] => ret []
  | u :: t =>
      linked <- attr_of (m_user u) "id" ;;
      rest <- ids_for_user user id t ;;
      ret (if UUID_eqb (User_id linked) (User_id user) then id :: rest
           else rest)
  end.

Fixpoint ids_of_workplaces (user : User) (workplaces : list WorkplaceObj)
  : M (list UUID) :=
  match workplaces with
  | [] => ret []
  | w :: t =>
      here <- ids_for_user user (Workplace_id (w_self w)) (w_users w) ;;
      rest <- ids_of_workplaces user t ;;
      ret (here ++ rest)
  end.

(** [GET /workplaces]: all workplaces are read with their links, the
    identifiers of those with a membership of the caller are collected,
    and the workplaces with one of these identifiers are read again. *)
Definition get_user_workplaces (user : User) : M (list Workplace) :=
  st <- get_store ;;
  let workplaces := map (fetch_Workplace st) (db_Workplace st) in
  ids <- ids_of_workplaces user workplaces ;;
  st <- get_store ;;
  ret (filter (fun w => mem_id (Workplace_id w) ids) (db_Workplace st)).

(** [hash(n)] of an integer, as CPython computes it on 64 bit builds:
    reduction modulo the Mersenne prime 2^61 - 1, keeping the sign, and
    -2 in place of -1. *)
Definition hash_int (n : Z) : Z :=
  let r := Z.sgn n * (Z.abs n mod 2305843009213693951) in
  if r =? -1 then -2 else r.

(** [uuid.UUID.__hash__]: [hash(self.int)]. *)
Definition UUID_hash (u : UUID) : Z := hash_int (UUIDAttr.int u).

(** [UserAssignedWorkplace.__hash__]: [hash(self.id)]. *)
Definition UserAssignedWorkplace_hash (self : UserAssignedWorkplace) : Z :=
  UUID_hash (UserAssignedWorkplace_id self).

(** Two intervals share a point of time, both read as half open. *)
Definition intersects (candidate : SprintCreation) (existing : Sprint) : Prop :=
  Sprint_start_date existing < SprintCreation_end_date candidate
  /\ SprintCreation_start_date candidate < Sprint_end_date existing.

(** The identifiers in [X] are not findable as comment. *)
Definition gone_comments (X : UUID -> Prop) (st : Store) : Prop :=
  forall k, X k -> find_by_id Comment_id k (db_Comment st) = None.

(** ** The delete request behind its dependency *)



(** * Properties *)

(** ** Collections *)

Section CollectionFacts.

Context {D : Type} (key : D -> UUID).

Lemma find_by_id_Some (k : UUID) (c : list D) (d : D) :
  find_by_id key k c = Some d -> In d c /\ key d = k.
Proof.
  unfold find_by_id. intros H. apply find_some in H as [Hin Hk].
  split; [exact Hin|]. now apply Z.eqb_eq in Hk.
Qed.

Lemma find_by_id_None (k : UUID) (c : list D) :
  find_by_id key k c = None <-> (forall d, In d c -> key d <> k).
Proof.
  unfold find_by_id. split.
  - intros H d Hin Hk. apply (find_none _ _ H) in Hin.
    unfold UUID_eqb in Hin. apply Z.eqb_neq in Hin. contradiction.
  - intros H. induction c as [|x c IH]; [reflexivity|]. simpl.
    destruct (UUID_eqb (key x) k) eqn:E.
    + apply Z.eqb_eq in E. exfalso. apply (H x); [now left|exact E].
    + apply IH. intros d Hd. apply H. now right.
Qed.

Lemma find_by_id_In (k : UUID) (c : list D) (d : D) :
  In d c -> key d = k -> exists d', find_by_id key k c = Some d'.
Proof.
  intros Hin Hk. destruct (find_by_id key k c) eqn:E; [eauto|].
  exfalso. rewrite find_by_id_None in E. now apply (E d).
Qed.

Lemma In_upsert (d x : D) (c : list D) :
  In x (upsert key d c) -> x = d \/ (In x c /\ key x <> key d).
Proof.
  unfold upsert.
  destruct (existsb (fun y => UUID_eqb (key y) (key d)) c) eqn:Hex.
  - rewrite in_map_iff. intros [y [Hy Hin]].
    destruct (UUID_eqb (key y) (key d)) eqn:E.
    + left. now symmetry.
    + right. subst y. split; [exact Hin|]. now apply Z.eqb_neq in E.
  - rewrite in_app_iff. intros [Hin|[Heq|[]]].
    + right. split; [exact Hin|]. intros Hk.
      assert (Hex' : existsb (fun y => UUID_eqb (key y) (key d)) c = true).
      { apply existsb_exists. exists x. split; [exact Hin|].
        now apply Z.eqb_eq. }
      congruence.
    + left. now symmetry.
Qed.

Lemma find_by_id_upsert_same (d : D) (c : list D) :
  find_by_id key (key d) (upsert key d c) = Some d.
Proof.
  unfold upsert, find_by_id.
  destruct (existsb (fun x => UUID_eqb (key x) (key d)) c) eqn:E.
  - induction c as [|x c IH]; [discriminate|]. simpl in *.
    destruct (UUID_eqb (key x) (key d)) eqn:Ex; simpl.
    + unfold UUID_eqb. now rewrite Z.eqb_refl.
    + rewrite Ex. now apply IH.
  - induction c as [|x c IH]; simpl in *.
    + unfold UUID_eqb. now rewrite Z.eqb_refl.
    + apply orb_false_iff in E as [Ex Ec]. rewrite Ex. now apply IH.
Qed.

Lemma find_by_id_upsert_other (k : UUID) (d : D) (c : list D) :
  k <> key d -> find_by_id key k (upsert key d c) = find_by_id key k c.
Proof.
  intros Hk. unfold upsert, find_by_id.
  assert (Hd : UUID_eqb (key d) k = false) by (apply Z.eqb_neq; congruence).
  destruct (existsb _ c).
  - induction c as [|x c IH]; [reflexivity|]. simpl.
    destruct (UUID_eqb (key x) (key d)) eqn:Ex.
    + rewrite Hd. apply Z.eqb_eq in Ex.
      assert (Hx : UUID_eqb (key x) k = false)
        by (apply Z.eqb_neq; congruence).
      now rewrite Hx.
    + destruct (UUID_eqb (key x) k); [reflexivity|exact IH].
  - induction c as [|x c IH]; simpl.
    + now rewrite Hd.
    + destruct (UUID_eqb (key x) k); [reflexivity|exact IH].
Qed.

Lemma In_delete_by_id (k : UUID) (x : D) (c : list D) :
  In x (delete_by_id key k c) <-> In x c /\ key x <> k.
Proof.
  unfold delete_by_id. rewrite filter_In, negb_true_iff.
  unfold UUID_eqb. now rewrite Z.eqb_neq.
Qed.

Lemma find_by_id_delete_same (k : UUID) (c : list D) :
  find_by_id key k (delete_by_id key k c) = None.
Proof.
  apply find_by_id_None. intros d Hd. now apply In_delete_by_id in Hd.
Qed.

Lemma find_by_id_delete_other (k k' : UUID) (c : list D) :
  k <> k' -> find_by_id key k (delete_by_id key k' c) = find_by_id key k c.
Proof.
  intros Hk. unfold delete_by_id, find_by_id.
  induction c as [|x c IH]; [reflexivity|]. simpl.
  destruct (UUID_eqb (key x) k') eqn:E; simpl.
  - apply Z.eqb_eq in E.
    assert (Hx : UUID_eqb (key x) k = false)
      by (apply Z.eqb_neq; congruence).
    now rewrite Hx.
  - destruct (UUID_eqb (key x) k); [reflexivity|exact IH].
Qed.

Lemma find_by_id_delete_None (k k' : UUID) (c : list D) :
  find_by_id key k c = None -> find_by_id key k (delete_by_id key k' c) = None.
Proof.
  rewrite !find_by_id_None. intros H d Hd.
  apply In_delete_by_id in Hd as [Hd _]. now apply H.
Qed.

Lemma In_update_by_id (k : UUID) (f : D -> D) (x : D) (c : list D) :
  In x (update_by_id key k f c) ->
  (In x c /\ key x <> k) \/ (exists y, In y c /\ key y = k /\ x = f y).
Proof.
  unfold update_by_id. rewrite in_map_iff. intros [y [Hy Hin]].
  destruct (UUID_eqb (key y) k) eqn:E.
  - right. exists y. apply Z.eqb_eq in E. now repeat split.
  - left. subst y. split; [exact Hin|]. now apply Z.eqb_neq in E.
Qed.

Lemma find_by_id_update_same (k : UUID) (f : D -> D) (c : list D) (d : D) :
  (forall y, key (f y) = key y) ->
  find_by_id key k c = Some d ->
  find_by_id key k (update_by_id key k f c) = Some (f d).
Proof.
  intros Hf. unfold find_by_id, update_by_id.
  induction c as [|x c IH]; [discriminate|]. simpl.
  destruct (UUID_eqb (key x) k) eqn:E.
  - intros [= ->]. now rewrite Hf, E.
  - rewrite E. exact IH.
Qed.

Lemma find_by_id_update_other (k k' : UUID) (f : D -> D) (c : list D) :
  (forall y, key (f y) = key y) -> k <> k' ->
  find_by_id key k (update_by_id key k' f c) = find_by_id key k c.
Proof.
  intros Hf Hk. unfold find_by_id, update_by_id.
  induction c as [|x c IH]; [reflexivity|]. simpl.
  destruct (UUID_eqb (key x) k') eqn:E.
  - rewrite Hf. apply Z.eqb_eq in E.
    assert (Hx : UUID_eqb (key x) k = false)
      by (apply Z.eqb_neq; congruence).
    now rewrite Hx.
  - destruct (UUID_eqb (key x) k); [reflexivity|exact IH].
Qed.

End CollectionFacts.

Lemma mem_id_In (k : UUID) (l : list UUID) : mem_id k l = true <-> In k l.
Proof.
  unfold mem_id. rewrite existsb_exists. split.
  - intros [x [Hin Hx]]. apply Z.eqb_eq in Hx. now subst.
  - intros Hin. exists k. split; [exact Hin|]. apply Z.eqb_refl.
Qed.

Lemma resolve_backlink_Some {P : Type} (field : P -> list UUID)
  (parents : list P) (child : UUID) (p : P) :
  resolve_backlink field parents child = Some p ->
  In p parents /\ In child (field p).
Proof.
  unfold resolve_backlink. intros H. apply find_some in H as [Hin Hm].
  split; [exact Hin|]. now apply mem_id_In.
Qed.

Lemma resolve_backlink_None {P : Type} (field : P -> list UUID)
  (parents : list P) (child : UUID) :
  resolve_backlink field parents child = None <->
  (forall p, In p parents -> ~ In child (field p)).
Proof.
  unfold resolve_backlink. split.
  - intros H p Hin Hc. apply (find_none _ _ H) in Hin.
    apply mem_id_In in Hc. congruence.
  - intros H. induction parents as [|x ps IH]; [reflexivity|]. simpl.
    destruct (mem_id child (field x)) eqn:E.
    + apply mem_id_In in E. exfalso. apply (H x); [now left|exact E].
    + apply IH. intros p Hp. apply H. now right.
Qed.

Lemma resolve_backlink_listed {P : Type} (field : P -> list UUID)
  (parents : list P) (child : UUID) (p : P) :
  In p parents -> In child (field p) ->
  exists q, resolve_backlink field parents child = Some q.
Proof.
  intros Hin Hc. destruct (resolve_backlink field parents child) eqn:E.
  - eauto.
  - rewrite resolve_backlink_None in E. exfalso. now apply (E p).
Qed.

(** ** The sprint overlap validator *)

Lemma overlaps_spec (candidate : SprintCreation) (s : Sprint) :
  Sprint.overlaps candidate s = true <-> overlap_conditions candidate s.
Proof.
  unfold Sprint.overlaps, overlap_conditions. cbv zeta.
  rewrite !orb_true_iff, !andb_true_iff, !Z.leb_le, !Z.ltb_lt.
  intuition lia.
Qed.

Lemma id_is_not_spec (excluded : option UUID) (s : Sprint) :
  Sprint.id_is_not excluded s = true <-> Some (Sprint_id s) <> excluded.
Proof.
  unfold Sprint.id_is_not. destruct excluded as [k|].
  - rewrite negb_true_iff. unfold UUID_eqb. rewrite Z.eqb_neq.
    split; congruence.
  - split; [discriminate|reflexivity].
Qed.

Lemma workplace_id_is_spec (st : Store) (workplace_id : UUID) (s : Sprint) :
  Sprint.workplace_id_is st workplace_id s = true <->
  exists w, Sprint_workplace st (Sprint_id s) = Some w
            /\ Workplace_id w = workplace_id.
Proof.
  unfold Sprint.workplace_id_is.
  destruct (Sprint_workplace st (Sprint_id s)) as [w|].
  - unfold UUID_eqb. rewrite Z.eqb_eq. split.
    + intros H. now exists w.
    + now intros [w' [[= <-] H]].
  - split; [discriminate|]. now intros [w [H _]].
Qed.

Lemma validate_creation_cases (st : Store) (candidate : SprintCreation)
  (workplace_id : UUID) (excluded : option UUID) (check_self : bool) :
  (conflict st candidate workplace_id excluded
   /\ Sprint.validate_creation candidate workplace_id excluded check_self st
      = (st, Raise (ValidationError "Спринты не должны пересекаться по дате.")))
  \/ (~ conflict st candidate workplace_id excluded
      /\ Sprint.validate_creation candidate workplace_id excluded check_self st
         = (st, Ok tt)).
Proof.
  unfold Sprint.validate_creation, bind, get_store.
  destruct (find _ (db_Sprint st)) as [s|] eqn:E.
  - left. split; [|reflexivity].
    apply find_some in E as [Hin Hc].
    rewrite !andb_true_iff in Hc. destruct Hc as [[Hw Ho] Hi].
    exists s. split; [split; [exact Hin|now apply workplace_id_is_spec]|].
    split; [now apply id_is_not_spec|now apply overlaps_spec].
  - right. split; [|reflexivity].
    intros [s [[Hin Hw] [Hi Ho]]].
    apply (find_none _ _ E) in Hin.
    apply workplace_id_is_spec in Hw. apply id_is_not_spec in Hi.
    apply overlaps_spec in Ho. rewrite Hw, Hi, Ho in Hin. discriminate.
Qed.

(** C1. The validator raises a validation error exactly when some sprint
    of the workplace, other than the excluded one, meets one of the three
    overlap conditions with the candidate, and returns normally
    otherwise; the store is left as it was. Against the sprint
    [2024-01-01, 2024-01-10): [2024-01-05, 2024-01-15) conflicts, the
    adjacent [2024-01-10, 2024-01-20) passes, the containing
    [2023-12-01, 2024-02-01) conflicts, and the sprint's own dates pass
    when its own identifier is excluded. *)
Theorem validate_creation_conflict_iff :
  (forall st candidate workplace_id excluded check_self,
      ((exists msg,
           result (Sprint.validate_creation candidate workplace_id excluded
                     check_self) st = Raise (ValidationError msg))
       <-> conflict st candidate workplace_id excluded)
      /\ (result (Sprint.validate_creation candidate workplace_id excluded
                    check_self) st = Ok tt
          <-> ~ conflict st candidate workplace_id excluded)
      /\ exec (Sprint.validate_creation candidate workplace_id excluded
                 check_self) st = st)
  /\ (exists msg,
         result (Sprint.validate_creation
                   (interval (datetime_ymd 2024 1 5) (datetime_ymd 2024 1 15))
                   1 None false) january_store
         = Raise (ValidationError msg))
  /\ result (Sprint.validate_creation
               (interval (datetime_ymd 2024 1 10) (datetime_ymd 2024 1 20))
               1 None false) january_store = Ok tt
  /\ (exists msg,
         result (Sprint.validate_creation
                   (interval (datetime_ymd 2023 12 1) (datetime_ymd 2024 2 1))
                   1 None false) january_store
         = Raise (ValidationError msg))
  /\ result (Sprint.validate_creation
               (interval (datetime_ymd 2024 1 1) (datetime_ymd 2024 1 10))
               1 (Some 10) false) january_store = Ok tt.
Proof.
  split; [|repeat split; try (eexists; reflexivity); reflexivity].
  intros st candidate workplace_id excluded check_self.
  unfold result, exec.
  destruct (validate_creation_cases st candidate workplace_id excluded
              check_self) as [[Hc ->]|[Hc ->]]; simpl.
  - repeat split; try tauto; try discriminate.
    intros _. eexists. reflexivity.
  - repeat split; try tauto.
    intros [msg H]. discriminate.
Qed.

(** ** The [created] property *)

(** C7. Reading [created] never yields a timestamp: [uuid.UUID] has no
    attribute [generation_time], so the property raises
    [AttributeError] for every user. *)
Theorem created_raises_AttributeError (u : User) :
  User.created u
  = Raise (AttributeError "'UUID' object has no attribute 'generation_time'").
Proof. reflexivity. Qed.

(** ** Equality by identifier *)

Lemma eq_by_identifier_intro {D : Type} (id : D -> UUID) (inj : D -> pyobj)
  (cls : pyclass) (eq : D -> pyobj -> bool) :
  (forall a b, eq a (inj b) = UUID_eqb (id a) (id b)) ->
  (forall a u, eq a (OValue (PUUID u)) = UUID_eqb (id a) u) ->
  (forall a o, type_of o <> cls -> type_of o <> ClsUUID -> eq a o = false) ->
  eq_by_identifier id inj cls eq.
Proof.
  intros Hent Hid Hother. unfold eq_by_identifier, UUID_eqb in *.
  split; [|split; [|split; [|split; [|split; [|split]]]]].
  - intros a b. rewrite Hent. apply Z.eqb_eq.
  - intros a. rewrite Hid. apply Z.eqb_refl.
  - intros a u. rewrite Hid. apply Z.eqb_eq.
  - exact Hother.
  - intros a. rewrite Hent. apply Z.eqb_refl.
  - intros a b. rewrite !Hent. apply Z.eqb_sym.
  - intros a b c. rewrite !Hent, !Z.eqb_eq. congruence.
Qed.

Ltac other_type :=
  intros a o Hcls Huuid;
  destruct o as [v| | | | | |]; try reflexivity;
  [destruct v; try reflexivity; now elim Huuid | now elim Hcls].

(** C9. For each of User, Membership, Sprint, Issue and Comment,
    [__eq__] on two entities of the class holds exactly when their
    identifiers are equal, an entity equals its own raw identifier, a
    value of any other type is unequal, and on the entities of one class
    the comparison is reflexive, symmetric and transitive. *)
Theorem entity_equality_by_identifier :
  eq_by_identifier User_id OUser ClsUser User.__eq__
  /\ eq_by_identifier UserAssignedWorkplace_id OUserAssignedWorkplace
       ClsUserAssignedWorkplace UserAssignedWorkplace.__eq__
  /\ eq_by_identifier Sprint_id OSprint ClsSprint Sprint.__eq__
  /\ eq_by_identifier Issue_id OIssue ClsIssue Issue.__eq__
  /\ eq_by_identifier Comment_id OComment ClsComment Comment.__eq__.
Proof.
  split; [|split; [|split; [|split]]];
    (apply eq_by_identifier_intro; [reflexivity|reflexivity|other_type]).
Qed.

(** ** Reasoning about handlers *)

Lemma exec_bind {A B : Type} (m : M A) (k : A -> M B) (st : Store) :
  exec (bind m k) st
  = match result m st with
    | Ok a => exec (k a) (exec m st)
    | Raise _ => exec m st
    end.
Proof.
  unfold exec, result, bind. now destruct (m st) as [st' [a|e]].
Qed.


Lemma preserves_ret {A : Type} (P : Store -> Prop) (a : A) :
  preserves P (ret a).
Proof. now intros st. Qed.

Lemma preserves_raise {A : Type} (P : Store -> Prop) (e : exn) :
  preserves P (@raise A e).
Proof. now intros st. Qed.

Lemma preserves_get_store (P : Store -> Prop) : preserves P get_store.
Proof. now intros st. Qed.

Lemma preserves_not_awaited {A : Type} (P : Store -> Prop) (m : M A) :
  preserves P (not_awaited m).
Proof. now intros st. Qed.

Lemma preserves_bind {A B : Type} (P : Store -> Prop) (m : M A)
  (k : A -> M B) :
  preserves P m -> (forall a, preserves P (k a)) -> preserves P (bind m k).
Proof.
  intros Hm Hk st HP. rewrite exec_bind.
  destruct (result m st); [apply Hk|]; now apply Hm.
Qed.

Lemma preserves_attr_of {A : Type} (P : Store -> Prop) (o : option A)
  (attr : string) :
  preserves P (attr_of o attr).
Proof. destruct o; now intros st. Qed.

Lemma preserves_list_remove (P : Store -> Prop) (l : list UUID) (x : UUID) :
  preserves P (list_remove l x).
Proof. unfold list_remove. destruct (remove_first x l); now intros st. Qed.

Lemma preserves_for_each {A : Type} (P : Store -> Prop) (f : A -> M unit)
  (l : list A) :
  (forall x, In x l -> preserves P (f x)) -> preserves P (for_each f l).
Proof.
  induction l as [|x l IH]; intros Hf; simpl.
  - apply preserves_ret.
  - apply preserves_bind.
    + apply Hf. now left.
    + intros _. apply IH. intros y Hy. apply Hf. now right.
Qed.

Lemma preserves_modify_store (P : Store -> Prop) (f : Store -> Store) :
  (forall st, P st -> P (f st)) -> preserves P (modify_store f).
Proof. intros Hf st HP. now apply Hf. Qed.

Lemma preserves_delete_link {L : Type} (P : Store -> Prop)
  (rule : DeleteRules.t) (delete : DeleteRules.t -> L -> M unit)
  (value : option L) :
  (forall d, value = Some d -> preserves P (delete rule d)) ->
  preserves P (delete_link rule delete value).
Proof.
  intros H. unfold delete_link.
  destruct rule; [apply preserves_ret|].
  destruct value; [now apply H|apply preserves_ret].
Qed.

Lemma preserves_delete_links {L : Type} (P : Store -> Prop)
  (rule : DeleteRules.t) (delete : DeleteRules.t -> L -> M unit)
  (values : list L) :
  (forall d, In d values -> preserves P (delete rule d)) ->
  preserves P (delete_links rule delete values).
Proof.
  intros H. unfold delete_links.
  destruct rule; [apply preserves_ret|now apply preserves_for_each].
Qed.

(** Splits a handler into its store updates. *)
Ltac preserves_step :=
  first
    [ apply preserves_ret
    | apply preserves_raise
    | apply preserves_get_store
    | apply preserves_not_awaited
    | apply preserves_attr_of
    | apply preserves_list_remove
    | apply preserves_bind; [|intros ?]
    | match goal with
      | |- preserves _ (match ?x with _ => _ end) => destruct x
      end ].

Ltac preserves_tac := repeat preserves_step.

(** ** Workplace creation *)

(** C10. After every creation request the new workplace is stored with a
    membership collection of exactly one element; that membership is
    stored too, links the creator and has the role ADMIN. *)
Theorem create_workplace_sole_admin (cfg : Config) (wid mid : UUID)
  (creation : dict) (user : User) (st : Store) :
  let st' := exec (create_workplace cfg wid mid creation user) st in
  result (create_workplace cfg wid mid creation user) st = Ok SuccessfulResponse
  /\ exists w m,
       find_by_id Workplace_id wid (db_Workplace st') = Some w
       /\ Workplace_users w = [mid]
       /\ Workplace_creation w = creation
       /\ find_by_id UserAssignedWorkplace_id mid (db_UserAssignedWorkplace st')
          = Some m
       /\ UserAssignedWorkplace_user m = User_id user
       /\ UserAssignedWorkplace_role m = ADMIN
       /\ find_by_id User_id (UserAssignedWorkplace_user m) (db_User st')
          = Some user.
Proof.
  split; [reflexivity|].
  eexists. eexists.
  unfold create_workplace, exec, bind, Workplace.save, Workplace_save,
    UserAssignedWorkplace.save, User.save, modify_store, ret. simpl.
  split; [exact (find_by_id_upsert_same Workplace_id _ _)|].
  split; [reflexivity|]. split; [reflexivity|].
  split; [exact (find_by_id_upsert_same UserAssignedWorkplace_id _ _)|].
  split; [reflexivity|]. split; [reflexivity|].
  exact (find_by_id_upsert_same User_id _ _).
Qed.

(** ** Deleting an issue *)

Lemma Issue_delete_keeps_sprints (rule : DeleteRules.t) (self : IssueObj)
  (sprints : list Sprint) :
  preserves (fun st => db_Sprint st = sprints) (Issue.delete rule self).
Proof.
  unfold Issue.delete, Issue.delete_refs.
  preserves_tac; try (apply preserves_modify_store; now intros st).
  - apply preserves_delete_link. intros d _.
    unfold UserAssignedWorkplace.delete, UserAssignedWorkplace.delete_refs,
      User.delete.
    preserves_tac; apply preserves_modify_store; now intros st.
  - apply preserves_delete_links. intros d _.
    unfold UserAssignedWorkplace.delete, UserAssignedWorkplace.delete_refs,
      User.delete.
    preserves_tac; apply preserves_modify_store; now intros st.
  - apply preserves_delete_links. intros d _.
    unfold Comment.delete, Comment.delete_refs, Issue_save.
    preserves_tac; try (apply preserves_modify_store; now intros st).
    apply preserves_delete_link. intros m _.
    unfold UserAssignedWorkplace.delete, UserAssignedWorkplace.delete_refs,
      User.delete.
    preserves_tac; apply preserves_modify_store; now intros st.
Qed.

(** C3. Deleting an issue never writes to the sprint collection: the
    change to the sprint's issue collection is made on the copy in
    memory only, because its [save()] is not awaited. For the issue 20
    of the sample store, which is assigned to sprint 10, the delete
    returns, the issue is gone and the workplace no longer lists it, but
    the stored sprint still lists the deleted issue. *)
Theorem issue_delete_sprint_not_persisted :
  (forall rule self st,
      db_Sprint (exec (Issue.delete rule self) st) = db_Sprint st)
  /\ let self := fetch_Issue sample_store sample_issue in
     let st' := exec (Issue.delete DeleteRules.DO_NOTHING self) sample_store in
     i_sprint self = Some sample_sprint
     /\ result (Issue.delete DeleteRules.DO_NOTHING self) sample_store = Ok tt
     /\ find_by_id Issue_id 20 (db_Issue st') = None
     /\ option_map Workplace_issues
          (find_by_id Workplace_id 1 (db_Workplace st')) = Some []
     /\ option_map Sprint_issues (find_by_id Sprint_id 10 (db_Sprint st'))
        = Some [20].
Proof.
  split.
  - intros rule self st. now apply (Issue_delete_keeps_sprints rule self).
  - repeat split; reflexivity.
Qed.

(** ** Deleting a workplace that does not exist *)

Lemma delete_workplace_missing (st : Store) (workplace_id : UUID) :
  find_by_id Workplace_id workplace_id (db_Workplace st) = None ->
  result (delete_workplace workplace_id) st
  = Raise (AttributeError "'NoneType' object has no attribute 'delete'").
Proof.
  intros H. unfold delete_workplace, delete_members_of, Workplace.find_one,
    result, bind, get_store, modify_store, ret. simpl.
  now rewrite H.
Qed.





















(** ** Editing a workplace *)

Lemma dict_get_set_same (k : string) (v : pyval) (d : dict) :
  dict_get k (dict_set k v d) = Some v.
Proof.
  induction d as [|[k' v'] d IH]; simpl.
  - now rewrite String.eqb_refl.
  - destruct (String.eqb k' k) eqn:E; simpl.
    + now rewrite String.eqb_refl.
    + now rewrite E.
Qed.

Lemma dict_get_set_other (k k0 : string) (v : pyval) (d : dict) :
  k <> k0 -> dict_get k (dict_set k0 v d) = dict_get k d.
Proof.
  intros Hk. induction d as [|[k' v'] d IH]; simpl.
  - apply String.eqb_neq in Hk. rewrite String.eqb_sym in Hk. now rewrite Hk.
  - destruct (String.eqb k' k0) eqn:E; simpl.
    + apply String.eqb_eq in E. subst k'.
      destruct (String.eqb k0 k) eqn:E'; [|reflexivity].
      apply String.eqb_eq in E'. congruence.
    + destruct (String.eqb k' k); [reflexivity|exact IH].
Qed.

Lemma dict_get_not_key (k : string) (d : dict) :
  ~ In k (map fst d) -> dict_get k d = None.
Proof.
  induction d as [|[k' v'] d IH]; simpl; [reflexivity|].
  intros H. destruct (String.eqb k' k) eqn:E.
  - apply String.eqb_eq in E. exfalso. apply H. now left.
  - apply IH. intros Hin. apply H. now right.
Qed.

Lemma dict_get_update (k : string) (d upd : dict) :
  NoDup (map fst upd) ->
  dict_get k (dict_update d upd)
  = match dict_get k upd with
    | Some v => Some v
    | None => dict_get k d
    end.
Proof.
  unfold dict_update. revert d.
  induction upd as [|[k0 v0] upd IH]; intros d Hnd; simpl; [reflexivity|].
  inversion Hnd as [|? ? Hk0 Hnd']; subst. rewrite (IH _ Hnd').
  destruct (String.eqb k0 k) eqn:E.
  - apply String.eqb_eq in E. subst k0.
    rewrite (dict_get_not_key _ _ Hk0). apply dict_get_set_same.
  - destruct (dict_get k upd); [reflexivity|].
    apply dict_get_set_other. intros ->. now rewrite String.eqb_refl in E.
Qed.

(** C6. Editing an existing workplace returns normally; in the stored
    workplace every supplied creation field has the supplied value,
    every other creation field keeps its value, and the identifier,
    states, users, sprints and issues are as before. Every other
    workplace and every other collection is untouched. *)
Theorem edit_workplace_merge_patch (st : Store) (workplace_id : UUID)
  (w : Workplace) (fields : dict) :
  NoDup (map fst fields) ->
  find_by_id Workplace_id workplace_id (db_Workplace st) = Some w ->
  let st' := exec (edit_workplace fields workplace_id) st in
  result (edit_workplace fields workplace_id) st = Ok SuccessfulResponse
  /\ (exists w',
         find_by_id Workplace_id workplace_id (db_Workplace st') = Some w'
         /\ (forall k v, dict_get k fields = Some v ->
                         dict_get k (Workplace_creation w') = Some v)
         /\ (forall k, dict_get k fields = None ->
                       dict_get k (Workplace_creation w')
                       = dict_get k (Workplace_creation w))
         /\ Workplace_id w' = Workplace_id w
         /\ Workplace_states w' = Workplace_states w
         /\ Workplace_users w' = Workplace_users w
         /\ Workplace_sprints w' = Workplace_sprints w
         /\ Workplace_issues w' = Workplace_issues w)
  /\ (forall k, k <> workplace_id ->
                find_by_id Workplace_id k (db_Workplace st')
                = find_by_id Workplace_id k (db_Workplace st))
  /\ db_User st' = db_User st
  /\ db_UserAssignedWorkplace st' = db_UserAssignedWorkplace st
  /\ db_Sprint st' = db_Sprint st
  /\ db_Issue st' = db_Issue st
  /\ db_Comment st' = db_Comment st.
Proof.
  intros Hnd Hw.
  destruct (find_by_id_Some _ _ _ _ Hw) as [_ Hid].
  unfold edit_workplace, Workplace.find_one, Workplace.update_set, exec,
    result, bind, get_store, modify_store, ret, attr_of. simpl.
  rewrite Hw. simpl. rewrite Hid.
  split; [reflexivity|]. split; [|split; [|repeat split]].
  - eexists. split.
    + apply find_by_id_update_same; [reflexivity|exact Hw].
    + simpl. repeat split; try reflexivity.
      * intros k v Hk. now rewrite dict_get_update, Hk.
      * intros k Hk. now rewrite dict_get_update, Hk.
      * exact Hid.
  - intros k Hk. now apply find_by_id_update_other.
Qed.

(** The sample workplace, renamed. *)
Lemma edit_workplace_merge_patch_witness :
  let fields := [("name"%string, PStr "V")] in
  result (edit_workplace fields 1) sample_store = Ok SuccessfulResponse
  /\ db_Sprint (exec (edit_workplace fields 1) sample_store)
     = db_Sprint sample_store.
Proof.
  assert (Hnd : NoDup (map fst [("name"%string, PStr "V")])).
  { constructor; [intros []|constructor]. }
  assert (Hw : find_by_id Workplace_id 1 (db_Workplace sample_store)
               = Some sample_workplace) by reflexivity.
  destruct (edit_workplace_merge_patch sample_store 1 sample_workplace
              [("name"%string, PStr "V")] Hnd Hw)
    as [Hr [_ [_ [_ [_ [Hs _]]]]]].
  split; [exact Hr|exact Hs].
Defined.

(** ** Deleting a sprint *)

Lemma remove_first_In (x : UUID) (l : list UUID) :
  In x l -> exists l', remove_first x l = Some l'.
Proof.
  induction l as [|y l IH]; [contradiction|]. intros Hin. simpl.
  destruct (UUID_eqb y x) eqn:E; [eauto|].
  destruct Hin as [->|Hin].
  - unfold UUID_eqb in E. now rewrite Z.eqb_refl in E.
  - destruct (IH Hin) as [l' ->]. eauto.
Qed.

Lemma remove_first_subset (x : UUID) (l l' : list UUID) :
  remove_first x l = Some l' -> forall k, In k l' -> In k l.
Proof.
  revert l'. induction l as [|y l IH]; intros l'; simpl; [discriminate|].
  destruct (UUID_eqb y x).
  - intros [= <-] k Hk. now right.
  - destruct (remove_first x l) as [t|]; [|discriminate].
    intros [= <-] k [->|Hk]; [now left|right; now apply (IH t)].
Qed.

Lemma remove_first_NoDup (x : UUID) (l l' : list UUID) :
  remove_first x l = Some l' -> NoDup l ->
  forall k, In k l' <-> In k l /\ k <> x.
Proof.
  revert l'. induction l as [|y l IH]; intros l'; simpl; [discriminate|].
  intros H Hnd. inversion Hnd as [|? ? Hy Hnd']; subst.
  destruct (UUID_eqb y x) eqn:E.
  - apply Z.eqb_eq in E. subst y. injection H as <-. intros k. split.
    + intros Hk. split; [now right|]. intros ->. contradiction.
    + intros [[Hk|Hk] Hne]; [congruence|exact Hk].
  - apply Z.eqb_neq in E.
    destruct (remove_first x l) as [t|]; [|discriminate].
    injection H as <-. intros k. specialize (IH t eq_refl Hnd' k).
    simpl. split.
    + intros [<-|Hk]; [split; [now left|exact E]|].
      apply IH in Hk as [Hk Hne]. split; [now right|exact Hne].
    + intros [[<-|Hk] Hne]; [now left|]. right. apply IH. now split.
Qed.



(** ** Mutual consistency of workplaces and memberships *)

Lemma apart_consistent (st : Store) :
  members_apart (db_Workplace st) -> unique_ids (db_Workplace st) ->
  mutual_consistency st.
Proof.
  intros Hap Huniq w m Hw Hm. unfold UserAssignedWorkplace_workplace.
  destruct (resolve_backlink_listed Workplace_users _ m w Hw Hm) as [q Hq].
  rewrite Hq. f_equal.
  apply resolve_backlink_Some in Hq as [Hq Hmq].
  apply Huniq; [exact Hq|exact Hw|]. now apply (Hap q w m).
Qed.

Lemma unique_ids_upsert (w : Workplace) (ws : list Workplace) :
  unique_ids ws -> unique_ids (upsert Workplace_id w ws).
Proof.
  intros H w1 w2 H1 H2 Hid.
  apply In_upsert in H1 as [->|[H1 N1]]; apply In_upsert in H2 as [->|[H2 N2]];
    try reflexivity; try congruence.
  now apply H.
Qed.

Lemma unique_ids_delete (k : UUID) (ws : list Workplace) :
  unique_ids ws -> unique_ids (delete_by_id Workplace_id k ws).
Proof.
  intros H w1 w2 H1 H2. apply In_delete_by_id in H1 as [H1 _].
  apply In_delete_by_id in H2 as [H2 _]. now apply H.
Qed.

Lemma unique_ids_update (k : UUID) (f : Workplace -> Workplace)
  (ws : list Workplace) :
  (forall y, Workplace_id (f y) = Workplace_id y) ->
  unique_ids ws -> unique_ids (update_by_id Workplace_id k f ws).
Proof.
  intros Hf H w1 w2 H1 H2 Hid.
  apply In_update_by_id in H1 as [[H1 N1]|[y1 [H1 [K1 ->]]]];
    apply In_update_by_id in H2 as [[H2 N2]|[y2 [H2 [K2 ->]]]].
  - now apply H.
  - rewrite Hf in Hid. congruence.
  - rewrite Hf in Hid. congruence.
  - rewrite !Hf in Hid. f_equal. now apply H.
Qed.

Lemma members_from_self (st : Store) :
  unique_ids (db_Workplace st) -> members_from (db_Workplace st) st.
Proof.
  intros H. split; [|exact H]. intros w Hw. now exists w.
Qed.

Lemma members_from_apart (ws : list Workplace) (st : Store) :
  members_apart ws -> members_from ws st -> members_apart (db_Workplace st).
Proof.
  intros Hap [Hfrom _] w1 w2 m H1 H2 M1 M2.
  destruct (Hfrom w1 H1) as [v1 [V1 [I1 U1]]].
  destruct (Hfrom w2 H2) as [v2 [V2 [I2 U2]]].
  rewrite <- I1, <- I2. apply (Hap v1 v2 m V1 V2); congruence.
Qed.

Lemma members_from_save (ws : list Workplace) (w : Workplace) :
  same_members_in ws w -> preserves (members_from ws) (Workplace_save w).
Proof.
  intros Hw. apply preserves_modify_store. intros st [Hfrom Huniq].
  split; simpl.
  - intros x Hx. apply In_upsert in Hx as [->|[Hx _]]; [exact Hw|].
    now apply Hfrom.
  - now apply unique_ids_upsert.
Qed.

Lemma members_from_delete (ws : list Workplace) (k : UUID) :
  preserves (members_from ws)
    (modify_store (with_Workplace (delete_by_id Workplace_id k))).
Proof.
  apply preserves_modify_store. intros st [Hfrom Huniq]. split; simpl.
  - intros x Hx. apply In_delete_by_id in Hx as [Hx _]. now apply Hfrom.
  - now apply unique_ids_delete.
Qed.

(** A write to another collection does not touch the workplaces. *)
Lemma members_from_elsewhere (ws : list Workplace) (f : Store -> Store) :
  (forall st, db_Workplace (f st) = db_Workplace st) ->
  preserves (members_from ws) (modify_store f).
Proof.
  intros Hf. apply preserves_modify_store. intros st H.
  unfold members_from. now rewrite Hf.
Qed.

Lemma same_members_set_sprints (ws : list Workplace) (w : Workplace)
  (l : list UUID) :
  same_members_in ws w -> same_members_in ws (set_Workplace_sprints w l).
Proof. intros [w0 H]. now exists w0. Qed.

Lemma same_members_set_issues (ws : list Workplace) (w : Workplace)
  (l : list UUID) :
  same_members_in ws w -> same_members_in ws (set_Workplace_issues w l).
Proof. intros [w0 H]. now exists w0. Qed.

Lemma preserves_bind_ret {A B : Type} (P : Store -> Prop) (a : A)
  (k : A -> M B) :
  preserves P (k a) -> preserves P (bind (ret a) k).
Proof. intros H st HP. exact (H st HP). Qed.

Lemma preserves_bind_raise {A B : Type} (P : Store -> Prop) (e : exn)
  (k : A -> M B) :
  preserves P (bind (raise e) k).
Proof. now intros st HP. Qed.

Lemma UserAssignedWorkplace_delete_members_from (ws : list Workplace)
  (rule : DeleteRules.t) (self : UserAssignedWorkplaceObj) :
  preserves (members_from ws) (UserAssignedWorkplace.delete rule self).
Proof.
  unfold UserAssignedWorkplace.delete, UserAssignedWorkplace.delete_refs,
    User.delete.
  preserves_tac; now apply members_from_elsewhere.
Qed.

Lemma Comment_delete_members_from (ws : list Workplace)
  (rule : DeleteRules.t) (self : CommentObj) :
  preserves (members_from ws) (Comment.delete rule self).
Proof.
  unfold Comment.delete, Comment.delete_refs, Issue_save.
  preserves_tac; try now apply members_from_elsewhere.
  apply preserves_delete_link. intros m _.
  apply UserAssignedWorkplace_delete_members_from.
Qed.

Lemma Issue_delete_members_from (ws : list Workplace)
  (rule : DeleteRules.t) (self : IssueObj) :
  parents_Issue (same_members_in ws) self ->
  preserves (members_from ws) (Issue.delete rule self).
Proof.
  intros Hp. unfold Issue.delete, Issue.delete_refs.
  apply preserves_bind.
  - destruct (i_workplace self) as [w|] eqn:Ew; simpl;
      [apply preserves_bind_ret|apply preserves_bind_raise].
    unfold list_remove. destruct (remove_first _ _) as [l|];
      [apply preserves_bind_ret|apply preserves_bind_raise].
    apply preserves_bind.
    + apply members_from_save, same_members_set_issues. now apply Hp.
    + intros _. preserves_tac.
  - intros self'. preserves_tac.
    + apply preserves_delete_link. intros m _.
      apply UserAssignedWorkplace_delete_members_from.
    + apply preserves_delete_links. intros m _.
      apply UserAssignedWorkplace_delete_members_from.
    + apply preserves_delete_links. intros c _.
      apply Comment_delete_members_from.
Qed.

Lemma preserves_bind_with {A B : Type} (P : Store -> Prop) (m : M A)
  (R : A -> Prop) (k : A -> M B) :
  preserves_with P m R -> (forall a, R a -> preserves P (k a)) ->
  preserves P (bind m k).
Proof.
  intros Hm Hk st HP. rewrite exec_bind. destruct (Hm st HP) as [HP' HR].
  destruct (result m st) as [a|e]; [|exact HP'].
  apply Hk; [now apply HR|exact HP'].
Qed.

Lemma Sprint_hook_members_from (ws : list Workplace) (self : SprintObj) :
  (forall w, s_workplace self = Some w -> same_members_in ws w) ->
  preserves_with (members_from ws) (Sprint.delete_ref_workplace self)
    (fun self' => s_issues self' = s_issues self
                  /\ s_self self' = s_self self).
Proof.
  intros Hp st HP. unfold Sprint.delete_ref_workplace, exec, result, bind.
  destruct (s_workplace self) as [w|]; simpl; [|split; [exact HP|discriminate]].
  unfold list_remove. destruct (remove_first _ _) as [l|]; simpl;
    [|split; [exact HP|discriminate]].
  split.
  - apply (members_from_save ws (set_Workplace_sprints w l)); [|exact HP].
    now apply same_members_set_sprints, Hp.
  - intros a [= <-]. now split.
Qed.

Lemma Sprint_delete_members_from (ws : list Workplace)
  (rule : DeleteRules.t) (self : SprintObj) :
  parents_Sprint (same_members_in ws) self ->
  preserves (members_from ws) (Sprint.delete rule self).
Proof.
  intros [Hp Hi]. unfold Sprint.delete.
  apply (preserves_bind_with _ _ _ _ (Sprint_hook_members_from ws self Hp)).
  intros self' [Hissues _]. rewrite Hissues. apply preserves_bind.
  - apply preserves_delete_links. intros i Hin.
    now apply Issue_delete_members_from, Hi.
  - intros _. now apply members_from_elsewhere.
Qed.

Lemma Workplace_delete_members_from (ws : list Workplace)
  (rule : DeleteRules.t) (self : WorkplaceObj) :
  parents_Workplace (same_members_in ws) self ->
  preserves (members_from ws) (Workplace.delete rule self).
Proof.
  intros [Hs Hi]. unfold Workplace.delete.
  apply preserves_bind; [|intros _; apply preserves_bind;
                          [|intros _; apply preserves_bind]].
  - apply preserves_delete_links. intros m _.
    apply UserAssignedWorkplace_delete_members_from.
  - apply preserves_delete_links. intros s Hin.
    now apply Sprint_delete_members_from, Hs.
  - apply preserves_delete_links. intros i Hin.
    now apply Issue_delete_members_from, Hi.
  - intros _. apply members_from_delete.
Qed.

Lemma In_fetch_links {D L : Type} (lookup : UUID -> option D) (load : D -> L)
  (refs : list UUID) (x : L) :
  In x (fetch_links lookup load refs) <->
  exists k d, In k refs /\ lookup k = Some d /\ x = load d.
Proof.
  unfold fetch_links. rewrite in_flat_map. split.
  - intros [k [Hk Hx]]. destruct (lookup k) as [d|] eqn:E; [|contradiction].
    destruct Hx as [<-|[]]. now exists k, d.
  - intros [k [d [Hk [E ->]]]]. exists k. split; [exact Hk|].
    rewrite E. now left.
Qed.

Lemma fetch_Issue_parents (S : Workplace -> Prop) (st : Store) (d : Issue) :
  (forall w, In w (db_Workplace st) -> S w) ->
  parents_Issue S (fetch_Issue st d).
Proof.
  intros HS w Hw. simpl in Hw. apply resolve_backlink_Some in Hw as [Hw _].
  now apply HS.
Qed.

Lemma fetch_Sprint_parents (S : Workplace -> Prop) (st : Store) (d : Sprint) :
  (forall w, In w (db_Workplace st) -> S w) ->
  parents_Sprint S (fetch_Sprint st d).
Proof.
  intros HS. split.
  - intros w Hw. simpl in Hw. apply resolve_backlink_Some in Hw as [Hw _].
    now apply HS.
  - intros i Hi. simpl in Hi. apply In_fetch_links in Hi as [k [x [_ [_ ->]]]].
    now apply fetch_Issue_parents.
Qed.

Lemma fetch_Workplace_parents (S : Workplace -> Prop) (st : Store)
  (d : Workplace) :
  (forall w, In w (db_Workplace st) -> S w) ->
  parents_Workplace S (fetch_Workplace st d).
Proof.
  intros HS. split.
  - intros s Hs. simpl in Hs. apply In_fetch_links in Hs as [k [x [_ [_ ->]]]].
    now apply fetch_Sprint_parents.
  - intros i Hi. simpl in Hi. apply In_fetch_links in Hi as [k [x [_ [_ ->]]]].
    now apply fetch_Issue_parents.
Qed.

Lemma apart_empty : apart_store empty_store.
Proof. split; now intros w1 w2. Qed.

Lemma apart_from (st0 st : Store) :
  apart_store st0 -> members_from (db_Workplace st0) st -> apart_store st.
Proof.
  intros [Hap _] Hfrom. split; [|exact (proj2 Hfrom)].
  now apply (members_from_apart (db_Workplace st0)).
Qed.

Lemma apart_preserved {A : Type} (m : M A) (st : Store) :
  preserves (members_from (db_Workplace st)) m ->
  apart_store st -> apart_store (exec m st).
Proof.
  intros Hm Hst. apply (apart_from st); [exact Hst|].
  apply Hm, members_from_self, Hst.
Qed.

Lemma create_workplace_apart (cfg : Config) (wid mid : UUID) (creation : dict)
  (user : User) (st : Store) :
  apart_store st -> fresh_member st mid ->
  apart_store (exec (create_workplace cfg wid mid creation user) st).
Proof.
  intros [Hap Huniq] Hfresh.
  unfold create_workplace, exec, bind, Workplace.save, Workplace_save,
    UserAssignedWorkplace.save, User.save, modify_store, ret. simpl.
  split; [|now apply unique_ids_upsert].
  intros w1 w2 m H1 H2 M1 M2.
  apply In_upsert in H1 as [->|[H1 N1]]; apply In_upsert in H2 as [->|[H2 N2]].
  - reflexivity.
  - simpl in M1. destruct M1 as [<-|[]]. now elim (Hfresh w2 H2).
  - simpl in M2. destruct M2 as [<-|[]]. now elim (Hfresh w1 H1).
  - now apply (Hap w1 w2 m).
Qed.

Lemma edit_workplace_members_from (fields : dict) (wid : UUID)
  (ws : list Workplace) :
  preserves (members_from ws) (edit_workplace fields wid).
Proof.
  unfold edit_workplace, Workplace.find_one, Workplace.update_set.
  preserves_tac.
  apply preserves_modify_store. intros st [Hfrom Huniq]. split; simpl.
  - intros x Hx.
    apply In_update_by_id in Hx as [[Hx _]|[y [Hy [_ ->]]]];
      [now apply Hfrom|].
    destruct (Hfrom y Hy) as [w0 H0]. now exists w0.
  - now apply unique_ids_update.
Qed.

Lemma add_to_workplace_apart (cfg : Config) (mid wid : UUID) (email : string)
  (st : Store) :
  apart_store st -> fresh_member st mid ->
  apart_store (exec (add_to_workplace cfg mid wid email) st).
Proof.
  intros [Hap Huniq] Hfresh.
  unfold add_to_workplace, User.by_email, Workplace.find_one, exec, bind,
    get_store, ret. simpl.
  destruct (find _ (db_User st)) as [user|]; simpl; [|now split].
  destruct (find_by_id Workplace_id wid (db_Workplace st)) as [w|] eqn:Ew;
    simpl; [|now split].
  apply find_by_id_Some in Ew as [Hw Hid].
  split; [|now apply unique_ids_upsert].
  intros w1 w2 m H1 H2 M1 M2.
  assert (Hnew : forall x, In x (db_Workplace st) ->
                           Workplace_id x <> Workplace_id w ->
                           In m (Workplace_users w ++ [mid]) ->
                           In m (Workplace_users x) -> False).
  { intros x Hx Hne Hm Hmx. apply in_app_iff in Hm as [Hm|[<-|[]]].
    - apply Hne. now apply (Hap x w m).
    - now apply (Hfresh x). }
  apply In_upsert in H1 as [->|[H1 N1]]; apply In_upsert in H2 as [->|[H2 N2]].
  - reflexivity.
  - simpl in *. now elim (Hnew w2 H2 N2 M1).
  - simpl in *. now elim (Hnew w1 H1 N1 M2).
  - now apply (Hap w1 w2 m).
Qed.

Lemma find_one_parents (ws : list Workplace) (wid : UUID)
  (fetch : bool) :
  preserves_with (members_from ws) (Workplace.find_one wid fetch)
    (fun found => forall w, found = Some w ->
                            fetch = true ->
                            parents_Workplace (same_members_in ws) w).
Proof.
  intros st HP. split; [exact HP|].
  unfold Workplace.find_one, result, bind, get_store, ret. simpl.
  intros a [= <-] w Hw ->.
  destruct (find_by_id Workplace_id wid (db_Workplace st)) as [d|];
    [|discriminate].
  injection Hw as <-. apply fetch_Workplace_parents. exact (proj1 HP).
Qed.

Lemma delete_workplace_members_from (wid : UUID) (ws : list Workplace) :
  preserves (members_from ws) (delete_workplace wid).
Proof.
  unfold delete_workplace. apply preserves_bind.
  - unfold delete_members_of. preserves_tac.
  - intros _.
    apply (preserves_bind_with _ _ _ _ (find_one_parents ws wid true)).
    intros [w|] Hw; simpl;
      [apply preserves_bind_ret|apply preserves_bind_raise].
    apply preserves_bind; [|intros _; apply preserves_ret].
    now apply Workplace_delete_members_from, Hw.
Qed.

Lemma reachable_apart (cfg : Config) (start st : Store) :
  apart_store start -> reachable cfg start st -> apart_store st.
Proof.
  intros Hstart.
  induction 1 as [|st wid mid creation user _ IH Hfresh
                  |st wid _ IH|st fields wid _ IH|st wid _ IH
                  |st mid wid email _ IH Hfresh
                  |st rule s _ IH Hs|st rule i _ IH Hi
                  |st rule c _ IH Hc|st rule m _ IH Hm].
  - exact Hstart.
  - now apply create_workplace_apart.
  - exact IH.
  - apply apart_preserved; [apply edit_workplace_members_from|exact IH].
  - apply apart_preserved; [apply delete_workplace_members_from|exact IH].
  - now apply add_to_workplace_apart.
  - apply apart_preserved; [|exact IH].
    apply Sprint_delete_members_from, fetch_Sprint_parents.
    intros w Hw. now exists w.
  - apply apart_preserved; [|exact IH].
    apply Issue_delete_members_from, fetch_Issue_parents.
    intros w Hw. now exists w.
  - apply apart_preserved; [|exact IH]. apply Comment_delete_members_from.
  - apply apart_preserved; [|exact IH].
    apply UserAssignedWorkplace_delete_members_from.
Qed.

Lemma consistent_apart (st : Store) :
  mutual_consistency st -> members_apart (db_Workplace st).
Proof.
  intros H w1 w2 m H1 H2 M1 M2.
  pose proof (H w1 m H1 M1) as E1. pose proof (H w2 m H2 M2) as E2.
  congruence.
Qed.

(** C5. Mutual consistency is an invariant of the operations. From any
    store in which it holds (no membership listed by two workplaces, no
    identifier carried by two workplace documents), whatever sprints,
    issues and comments that store has, every store that the operations
    reach keeps it: every membership that a workplace lists resolves
    through its back link to that workplace. The empty store is such a
    start, so this covers the store right after a workplace creation
    and after every operation that follows. *)
Theorem reachable_mutual_consistency (cfg : Config) (start st : Store) :
  apart_store start -> reachable cfg start st ->
  mutual_consistency st /\ apart_store st.
Proof.
  intros Hstart H. pose proof (reachable_apart cfg start st Hstart H) as Hap.
  split; [|exact Hap]. destruct Hap as [Hap Huniq].
  now apply apart_consistent.
Qed.

(** From the sample store, with its sprint, issue and comment: the
    sprint is deleted, a workplace is created and a member invited. *)
Lemma reachable_mutual_consistency_witness :
  reachable sample_config sample_store invited_store
  /\ exists w, In w (db_Workplace invited_store)
               /\ Workplace_users w = [40; 42]
               /\ Workplace_sprints w = []
               /\ UserAssignedWorkplace_workplace invited_store 40 = Some w
               /\ UserAssignedWorkplace_workplace invited_store 42 = Some w.
Proof.
  assert (Hstart : apart_store sample_store).
  { split.
    - intros w1 w2 m [<-|[]] [<-|[]] _ _. reflexivity.
    - intros w1 w2 [<-|[]] [<-|[]] _. reflexivity. }
  assert (Hreach : reachable sample_config sample_store invited_store).
  { apply reach_add_to_workplace.
    - apply reach_create_workplace.
      + apply (reach_delete_sprint sample_config sample_store sample_store
                 DeleteRules.DO_NOTHING sample_sprint).
        * apply reach_start.
        * left. reflexivity.
      + intros w [<-|[]]. simpl. intros [H|[]]. discriminate.
    - intros w [<-|[<-|[]]]; simpl; intros [H|[]]; discriminate. }
  split; [exact Hreach|].
  destruct (reachable_mutual_consistency sample_config sample_store
              invited_store Hstart Hreach) as [Hcons _].
  eexists. split; [left; reflexivity|]. split; [reflexivity|].
  split; [reflexivity|].
  split; apply Hcons; simpl; auto.
Defined.


(** ** The delete cascade of a workplace *)

Lemma returns_consequence {A : Type} (P P' : Store -> Prop) (m : M A)
  (Q Q' : A -> Store -> Prop) :
  returns P m Q -> (forall st, P' st -> P st) ->
  (forall a st, Q a st -> Q' a st) -> returns P' m Q'.
Proof.
  intros H HP HQ st Hst. destruct (H st (HP st Hst)) as [a [st' [E Ha]]].
  exists a, st'. split; [exact E|now apply HQ].
Qed.

Lemma returns_ret {A : Type} (P : Store -> Prop) (a : A)
  (Q : A -> Store -> Prop) :
  (forall st, P st -> Q a st) -> returns P (ret a) Q.
Proof. intros H st Hst. exists a, st. split; [reflexivity|now apply H]. Qed.

Lemma returns_modify_store (P : Store -> Prop) (f : Store -> Store)
  (Q : unit -> Store -> Prop) :
  (forall st, P st -> Q tt (f st)) -> returns P (modify_store f) Q.
Proof.
  intros H st Hst. exists tt, (f st). split; [reflexivity|now apply H].
Qed.

Lemma returns_bind {A B : Type} (P : Store -> Prop) (m : M A)
  (R : A -> Store -> Prop) (k : A -> M B) (Q : B -> Store -> Prop) :
  returns P m R -> (forall a, returns (R a) (k a) Q) ->
  returns P (bind m k) Q.
Proof.
  intros Hm Hk st Hst. destruct (Hm st Hst) as [a [st1 [E1 Ha]]].
  destruct (Hk a st1 Ha) as [b [st2 [E2 Hb]]].
  exists b, st2. split; [|exact Hb]. unfold bind. now rewrite E1.
Qed.

Lemma returns_for_each_from {A : Type} (I : list A -> Store -> Prop)
  (f : A -> M unit) (l done : list A) :
  (forall seen x, In x l -> returns (I seen) (f x) (fun _ => I (seen ++ [x]))) ->
  returns (I done) (for_each f l) (fun _ => I (done ++ l)).
Proof.
  revert done. induction l as [|x l IH]; intros done Hf; simpl.
  - apply returns_ret. intros st. now rewrite app_nil_r.
  - apply (returns_bind _ _ (fun _ => I (done ++ [x]))).
    + apply Hf. now left.
    + intros _.
      replace (done ++ x :: l) with ((done ++ [x]) ++ l)
        by now rewrite <- app_assoc.
      apply IH. intros seen y Hy. apply Hf. now right.
Qed.

Lemma returns_for_each {A : Type} (I : list A -> Store -> Prop)
  (f : A -> M unit) (l : list A) :
  (forall seen x, In x l -> returns (I seen) (f x) (fun _ => I (seen ++ [x]))) ->
  returns (I []) (for_each f l) (fun _ => I l).
Proof. intros H. exact (returns_for_each_from I f l [] H). Qed.

Lemma UserAssignedWorkplace_delete_gone (XM XS XI : UUID -> Prop)
  (rule : DeleteRules.t) (self : UserAssignedWorkplaceObj) :
  returns (gone XM XS XI) (UserAssignedWorkplace.delete rule self)
    (fun _ => gone (fun k => XM k
                             \/ k = UserAssignedWorkplace_id (m_self self))
                XS XI).
Proof.
  intros st [HM [HS HI]].
  exists tt. eexists. split.
  - unfold UserAssignedWorkplace.delete, UserAssignedWorkplace.delete_refs,
      bind, ret, modify_store. simpl. now destruct rule.
  - split; [|now split]. simpl. intros k [Hk| ->].
    + now apply find_by_id_delete_None, HM.
    + apply find_by_id_delete_same.
Qed.

Lemma Comment_delete_gone (XM XS XI : UUID -> Prop) (rule : DeleteRules.t)
  (issue_id : UUID) (self : CommentObj) :
  ready_Comment issue_id self -> ~ XI issue_id ->
  returns (gone XM XS XI) (Comment.delete rule self) (fun _ => gone XM XS XI).
Proof.
  intros [i [Hi [Hid Hin]]] Hnot st [HM [HS HI]].
  destruct (remove_first_In _ _ Hin) as [l Hl].
  exists tt. eexists. split.
  - unfold Comment.delete, Comment.delete_refs, bind, list_remove.
    rewrite Hi. simpl. rewrite Hl. simpl. now destruct rule.
  - split; [exact HM|]. split; [exact HS|]. simpl. intros k Hk.
    rewrite find_by_id_upsert_other; [now apply HI|].
    simpl. intros ->. now rewrite Hid in Hk.
Qed.

Lemma returns_assume {A : Type} (fact : Prop) (P : Store -> Prop) (m : M A)
  (Q : A -> Store -> Prop) :
  (fact -> returns P m Q) -> returns (fun st => fact /\ P st) m Q.
Proof. intros H st [Hf Hst]. now apply H. Qed.

Lemma delete_link_None {L : Type} (rule : DeleteRules.t)
  (delete : DeleteRules.t -> L -> M unit) :
  delete_link rule delete None = ret tt.
Proof. now destruct rule. Qed.

Lemma delete_links_nil {L : Type} (rule : DeleteRules.t)
  (delete : DeleteRules.t -> L -> M unit) :
  delete_links rule delete [] = ret tt.
Proof. now destruct rule. Qed.

Lemma Issue_hook_returns (P : Store -> Prop) (self : IssueObj) :
  (forall f st, P st -> P (with_Workplace f st)) ->
  ready_Issue self ->
  returns P (Issue.delete_refs self)
    (fun self' st =>
       (i_author self' = None /\ i_implementers self' = []
        /\ i_comments self' = i_comments self
        /\ Issue_id (i_self self') = Issue_id (i_self self))
       /\ P st).
Proof.
  intros HP [[w [Hw Hin]] [Hs _]] st Hst.
  destruct (remove_first_In _ _ Hin) as [l Hl].
  unfold Issue.delete_refs, bind, list_remove, Workplace_save, modify_store,
    not_awaited, ret.
  rewrite Hw. simpl. rewrite Hl. simpl.
  destruct (i_sprint self) as [s|] eqn:Es.
  - destruct (remove_first_In _ _ (Hs s eq_refl)) as [l' Hl'].
    rewrite Hl'. simpl. eexists. eexists. split; [reflexivity|].
    split; [now repeat split|now apply HP].
  - eexists. eexists. split; [reflexivity|].
    split; [now repeat split|now apply HP].
Qed.

Lemma Issue_delete_gone (XM XS XI : UUID -> Prop) (rule : DeleteRules.t)
  (self : IssueObj) :
  ready_Issue self ->
  returns (gone XM XS XI) (Issue.delete rule self)
    (fun _ => gone XM XS (fun k => XI k \/ k = Issue_id (i_self self))).
Proof.
  intros Hready. unfold Issue.delete.
  apply (returns_bind _ _ _ _ _
           (Issue_hook_returns (gone XM XS XI) self (fun _ _ H => H) Hready)).
  intros self'. apply returns_assume. intros [Ha [Himpl [Hc Hid]]].
  rewrite Ha, Himpl, Hc, Hid, delete_link_None, delete_links_nil.
  change (returns (gone XM XS XI)
            (delete_links rule Comment.delete (i_comments self) ;;
             modify_store
               (with_Issue (delete_by_id Issue_id (Issue_id (i_self self)))))
            (fun _ => gone XM XS
                        (fun k => XI k \/ k = Issue_id (i_self self)))).
  set (XI' := fun k => XI k /\ k <> Issue_id (i_self self)).
  apply (returns_bind _ _ (fun _ => gone XM XS XI')).
  - destruct rule; simpl.
    + apply returns_ret. intros st [HM [HS HI]].
      split; [exact HM|]. split; [exact HS|]. intros k [Hk _]. now apply HI.
    + apply (returns_consequence (gone XM XS XI') _ _
               (fun _ => gone XM XS XI')).
      * apply (returns_for_each (fun _ => gone XM XS XI')).
        intros _ c Hin.
        apply (Comment_delete_gone _ _ _ _ (Issue_id (i_self self))).
        -- now apply (proj2 (proj2 Hready)).
        -- intros [_ Hne]. now apply Hne.
      * intros st [HM [HS HI]].
        split; [exact HM|]. split; [exact HS|]. intros k [Hk _]. now apply HI.
      * now intros _ st.
  - intros _. apply returns_modify_store. intros st [HM [HS HI]].
    split; [exact HM|]. split; [exact HS|]. simpl. intros k Hk.
    destruct (Z.eq_dec k (Issue_id (i_self self))) as [->|Hne].
    + apply find_by_id_delete_same.
    + apply find_by_id_delete_None, HI. split; [|exact Hne].
      destruct Hk as [Hk|Hk]; [exact Hk|contradiction].
Qed.

Lemma Sprint_hook_returns (P : Store -> Prop) (self : SprintObj) :
  (forall f st, P st -> P (with_Workplace f st)) ->
  ready_Sprint self ->
  returns P (Sprint.delete_ref_workplace self)
    (fun self' st =>
       (s_issues self' = s_issues self /\ s_self self' = s_self self)
       /\ P st).
Proof.
  intros HP [[w [Hw Hin]] _] st Hst.
  destruct (remove_first_In _ _ Hin) as [l Hl].
  unfold Sprint.delete_ref_workplace, bind, list_remove, Workplace_save,
    modify_store, ret.
  rewrite Hw. simpl. rewrite Hl. simpl.
  eexists. eexists. split; [reflexivity|].
  split; [now split|now apply HP].
Qed.

(** Deleting a list of issues one after the other. *)
Lemma Issues_delete_gone (XM XS XI : UUID -> Prop) (rule : DeleteRules.t)
  (l : list IssueObj) :
  (forall i, In i l -> ready_Issue i) ->
  returns (gone XM XS XI) (for_each (Issue.delete rule) l)
    (fun _ => gone XM XS
                (fun k => XI k
                          \/ exists i, In i l /\ k = Issue_id (i_self i))).
Proof.
  intros Hready.
  apply (returns_consequence
           (gone XM XS (fun k => XI k \/ exists i, In i [] /\ k = Issue_id (i_self i)))
           _ _
           (fun _ => gone XM XS
                       (fun k => XI k
                                 \/ exists i, In i l /\ k = Issue_id (i_self i)))).
  - apply (returns_for_each
             (fun seen =>
                gone XM XS
                  (fun k => XI k
                            \/ exists i, In i seen /\ k = Issue_id (i_self i)))).
    intros seen x Hx.
    eapply returns_consequence;
      [eapply Issue_delete_gone; exact (Hready x Hx)
      |intros st H; exact H|].
    intros _ st [HM [HS HI]]. split; [exact HM|]. split; [exact HS|].
    intros k [Hk|[i [Hi ->]]]; apply HI.
    + left. now left.
    + apply in_app_iff in Hi as [Hi|[<-|[]]].
      * left. right. now exists i.
      * now right.
  - intros st [HM [HS HI]]. split; [exact HM|]. split; [exact HS|].
    intros k [Hk|[i [[] _]]]. now apply HI.
  - now intros _ st.
Qed.

Lemma Sprint_delete_gone (XM XS XI : UUID -> Prop) (self : SprintObj) :
  ready_Sprint self ->
  returns (gone XM XS XI) (Sprint.delete DeleteRules.DELETE_LINKS self)
    (fun _ =>
       gone XM (fun k => XS k \/ k = Sprint_id (s_self self))
         (fun k => XI k
                   \/ exists i, In i (s_issues self)
                                /\ k = Issue_id (i_self i))).
Proof.
  intros Hready. unfold Sprint.delete.
  apply (returns_bind _ _ _ _ _
           (Sprint_hook_returns (gone XM XS XI) self (fun _ _ H => H) Hready)).
  intros self'. apply returns_assume. intros [Hi Hs]. rewrite Hi, Hs.
  eapply returns_bind.
  - apply Issues_delete_gone. exact (proj2 Hready).
  - intros u. apply returns_modify_store. intros st [HM [HS HI]].
    split; [exact HM|]. split; [|exact HI]. simpl. intros k [Hk| ->].
    + now apply find_by_id_delete_None, HS.
    + apply find_by_id_delete_same.
Qed.

Lemma Sprints_delete_gone (XM XS XI : UUID -> Prop) (l : list SprintObj) :
  (forall s, In s l -> ready_Sprint s) ->
  returns (gone XM XS XI)
    (for_each (Sprint.delete DeleteRules.DELETE_LINKS) l)
    (fun _ =>
       gone XM
         (fun k => XS k \/ exists s, In s l /\ k = Sprint_id (s_self s))
         (fun k => XI k
                   \/ exists s i, In s l /\ In i (s_issues s)
                                  /\ k = Issue_id (i_self i))).
Proof.
  intros Hready.
  set (I := fun seen =>
              gone XM
                (fun k => XS k
                          \/ exists s, In s seen /\ k = Sprint_id (s_self s))
                (fun k => XI k
                          \/ exists s i, In s seen /\ In i (s_issues s)
                                         /\ k = Issue_id (i_self i))).
  apply (returns_consequence (I []) _ _ (fun _ => I l)).
  - apply (returns_for_each I). intros seen x Hx.
    eapply returns_consequence;
      [eapply Sprint_delete_gone; exact (Hready x Hx)
      |intros st H; exact H|].
    intros _ st [HM [HS HI]]. split; [exact HM|]. split.
    + intros k [Hk|[s [Hs ->]]]; apply HS.
      * left. now left.
      * apply in_app_iff in Hs as [Hs|[<-|[]]].
        -- left. right. now exists s.
        -- now right.
    + intros k [Hk|[s [i [Hs [Hi ->]]]]]; apply HI.
      * left. now left.
      * apply in_app_iff in Hs as [Hs|[<-|[]]].
        -- left. right. now exists s, i.
        -- right. now exists i.
  - intros st [HM [HS HI]]. split; [exact HM|]. split.
    + intros k [Hk|[s [[] _]]]. now apply HS.
    + intros k [Hk|[s [i [[] _]]]]. now apply HI.
  - now intros _ st.
Qed.

Lemma Members_delete_gone (XM XS XI : UUID -> Prop) (rule : DeleteRules.t)
  (l : list UserAssignedWorkplaceObj) :
  returns (gone XM XS XI) (for_each (UserAssignedWorkplace.delete rule) l)
    (fun _ =>
       gone (fun k => XM k
                      \/ exists m, In m l
                                   /\ k = UserAssignedWorkplace_id (m_self m))
         XS XI).
Proof.
  set (I := fun seen =>
              gone (fun k => XM k
                             \/ exists m, In m seen
                                  /\ k = UserAssignedWorkplace_id (m_self m))
                XS XI).
  apply (returns_consequence (I []) _ _ (fun _ => I l)).
  - apply (returns_for_each I). intros seen x Hx.
    eapply returns_consequence;
      [eapply UserAssignedWorkplace_delete_gone
      |intros st H; exact H|].
    intros _ st [HM HR]. split; [|exact HR].
    intros k [Hk|[m [Hm ->]]]; apply HM.
    + left. now left.
    + apply in_app_iff in Hm as [Hm|[<-|[]]].
      * left. right. now exists m.
      * now right.
  - intros st [HM HR]. split; [|exact HR].
    intros k [Hk|[m [[] _]]]. now apply HM.
  - now intros _ st.
Qed.

Lemma Workplace_delete_gone (XM XS XI : UUID -> Prop) (self : WorkplaceObj) :
  ready_Workplace self ->
  returns (gone XM XS XI) (Workplace.delete DeleteRules.DELETE_LINKS self)
    (fun _ st =>
       gone
         (fun k => XM k
                   \/ exists m, In m (w_users self)
                                /\ k = UserAssignedWorkplace_id (m_self m))
         (fun k => XS k
                   \/ exists s, In s (w_sprints self)
                                /\ k = Sprint_id (s_self s))
         (fun k => XI k
                   \/ (exists s i, In s (w_sprints self) /\ In i (s_issues s)
                                   /\ k = Issue_id (i_self i))
                   \/ exists i, In i (w_issues self)
                                /\ k = Issue_id (i_self i))
         st
       /\ find_by_id Workplace_id (Workplace_id (w_self self))
            (db_Workplace st) = None).
Proof.
  intros [Hs Hi]. unfold Workplace.delete, delete_links.
  eapply returns_bind; [apply Members_delete_gone|]. intros u1.
  eapply returns_bind; [now apply Sprints_delete_gone|]. intros u2.
  eapply returns_bind; [now apply Issues_delete_gone|]. intros u3.
  apply returns_modify_store. intros st [HM [HS HI]]. split.
  - split; [exact HM|]. split; [exact HS|]. simpl. intros k Hk. apply HI.
    destruct Hk as [Hk|[Hk|Hk]]; [left; now left|left; now right|now right].
  - simpl. apply find_by_id_delete_same.
Qed.

Lemma fetch_Comment_ready (st : Store) (p : Issue) (d : Comment) :
  comments_apart st -> In p (db_Issue st) ->
  In (Comment_id d) (Issue_comments p) ->
  ready_Comment (Issue_id p) (fetch_Comment st d).
Proof.
  intros Hap Hp Hin.
  destruct (resolve_backlink_listed Issue_comments _ _ p Hp Hin) as [q Hq].
  exists q. split; [exact Hq|].
  apply resolve_backlink_Some in Hq as [Hq Hlisted].
  split; [now apply (Hap q p (Comment_id d))|exact Hlisted].
Qed.

Lemma fetch_Issue_ready (st : Store) (d : Issue) :
  comments_apart st -> In d (db_Issue st) ->
  (exists w, In w (db_Workplace st) /\ In (Issue_id d) (Workplace_issues w)) ->
  ready_Issue (fetch_Issue st d).
Proof.
  intros Hap Hd [w [Hw Hin]]. split; [|split]; simpl.
  - destruct (resolve_backlink_listed Workplace_issues _ _ w Hw Hin)
      as [q Hq].
    exists q. split; [exact Hq|]. now apply resolve_backlink_Some in Hq.
  - intros s Hs. now apply resolve_backlink_Some in Hs.
  - intros c Hc. apply In_fetch_links in Hc as [k [x [Hk [Hx ->]]]].
    apply find_by_id_Some in Hx as [_ <-]. now apply fetch_Comment_ready.
Qed.

Lemma owned_listed (st : Store) :
  sprint_issues_owned st -> sprint_issues_listed st.
Proof. intros H s i d Hs Hi _. now apply (H s i). Qed.

Lemma fetch_Sprint_ready (st : Store) (d : Sprint) :
  comments_apart st -> sprint_issues_listed st -> In d (db_Sprint st) ->
  (exists w, In w (db_Workplace st) /\ In (Sprint_id d) (Workplace_sprints w)) ->
  ready_Sprint (fetch_Sprint st d).
Proof.
  intros Hap Hown Hd [w [Hw Hin]]. split; simpl.
  - destruct (resolve_backlink_listed Workplace_sprints _ _ w Hw Hin)
      as [q Hq].
    exists q. split; [exact Hq|]. now apply resolve_backlink_Some in Hq.
  - intros i Hi. apply In_fetch_links in Hi as [k [x [Hk [Hx ->]]]].
    pose proof Hx as Hfound. apply find_by_id_Some in Hx as [Hx <-].
    apply fetch_Issue_ready; [exact Hap|exact Hx|].
    now apply (Hown d (Issue_id x) x).
Qed.

Lemma fetch_Workplace_ready (st : Store) (w : Workplace) :
  comments_apart st -> sprint_issues_listed st -> In w (db_Workplace st) ->
  ready_Workplace (fetch_Workplace st w).
Proof.
  intros Hap Hown Hw. split; simpl.
  - intros s Hs. apply In_fetch_links in Hs as [k [x [Hk [Hx ->]]]].
    apply find_by_id_Some in Hx as [Hx <-].
    apply fetch_Sprint_ready; try assumption. now exists w.
  - intros i Hi. apply In_fetch_links in Hi as [k [x [Hk [Hx ->]]]].
    apply find_by_id_Some in Hx as [Hx <-].
    apply fetch_Issue_ready; try assumption. now exists w.
Qed.

Lemma find_by_id_filter_None {D : Type} (key : D -> UUID) (keep : D -> bool)
  (k : UUID) (c : list D) :
  (forall d, In d c -> key d = k -> keep d = false) ->
  find_by_id key k (filter keep c) = None.
Proof.
  intros H. apply find_by_id_None. intros d Hd Hk.
  apply filter_In in Hd as [Hd Hkeep].
  rewrite (H d Hd Hk) in Hkeep. discriminate.
Qed.

Lemma delete_workplace_found (st : Store) (wid : UUID) (w : Workplace) :
  find_by_id Workplace_id wid (db_Workplace st) = Some w ->
  delete_workplace wid st
  = match Workplace.delete DeleteRules.DELETE_LINKS
            (fetch_Workplace (exec (delete_members_of wid) st) w)
            (exec (delete_members_of wid) st)
    with
    | (st2, Ok _) => (st2, Ok ResponseNone)
    | (st2, Raise e) => (st2, Raise e)
    end.
Proof.
  intros H. unfold delete_workplace, delete_members_of, Workplace.find_one,
    exec, bind, get_store, modify_store, ret. simpl. rewrite H. simpl.
  now destruct (Workplace.delete _ _ _) as [st2 [[]|e]].
Qed.

(** C2. Deleting a stored workplace returns normally (in a store where a
    comment belongs to one issue and every existing issue that a sprint
    lists is an issue of a workplace; a sprint may list identifiers of
    issues that are gone). Afterwards the workplace, every membership
    whose back link resolved to it, every membership and sprint it
    listed, and every issue it owned, directly or through one of its
    sprints, is no longer findable by its identifier. *)
Theorem delete_workplace_cascade (st : Store) (wid : UUID) (w : Workplace) :
  find_by_id Workplace_id wid (db_Workplace st) = Some w ->
  comments_apart st -> sprint_issues_listed st ->
  let st' := exec (delete_workplace wid) st in
  result (delete_workplace wid) st = Ok ResponseNone
  /\ find_by_id Workplace_id wid (db_Workplace st') = None
  /\ (forall m, member_of st wid m ->
                find_by_id UserAssignedWorkplace_id m
                  (db_UserAssignedWorkplace st') = None)
  /\ (forall m, In m (Workplace_users w) ->
                find_by_id UserAssignedWorkplace_id m
                  (db_UserAssignedWorkplace st') = None)
  /\ (forall s, In s (Workplace_sprints w) ->
                find_by_id Sprint_id s (db_Sprint st') = None)
  /\ (forall i, owned_issue st w i ->
                find_by_id Issue_id i (db_Issue st') = None).
Proof.
  intros Hfind Hap Hown.
  destruct (find_by_id_Some _ _ _ _ Hfind) as [Hw Hid].
  cbv zeta. unfold result, exec.
  rewrite (delete_workplace_found st wid w Hfind).
  set (st1 := exec (delete_members_of wid) st).
  set (self := fetch_Workplace st1 w).
  assert (Hready : ready_Workplace self)
    by now apply (fetch_Workplace_ready st1 w).
  set (XM := fun k => find_by_id UserAssignedWorkplace_id k
                        (db_UserAssignedWorkplace st1) = None).
  set (XS := fun k => find_by_id Sprint_id k (db_Sprint st1) = None).
  set (XI := fun k => find_by_id Issue_id k (db_Issue st1) = None).
  assert (Hstart : gone XM XS XI st1) by now repeat split.
  destruct (Workplace_delete_gone XM XS XI self Hready st1 Hstart)
    as [[] [st2 [E [[HM [HS HI]] Hgone]]]].
  rewrite E. simpl.
  split; [reflexivity|]. split; [now rewrite <- Hid|].
  split; [|split; [|split]].
  - intros m [w' [Hw' Hid']]. apply HM. left. unfold XM, st1. simpl.
    apply find_by_id_filter_None. intros d _ ->.
    rewrite Hw'. unfold UUID_eqb. now rewrite Hid', Z.eqb_refl.
  - intros m Hm. apply HM.
    destruct (lookup_UserAssignedWorkplace st1 m) as [d|] eqn:Ed;
      [right|now left].
    exists (fetch_UserAssignedWorkplace st1 d). split.
    + apply In_fetch_links. now exists m, d.
    + now apply find_by_id_Some in Ed as [_ <-].
  - intros s Hs. apply HS.
    destruct (find_by_id Sprint_id s (db_Sprint st1)) as [d|] eqn:Ed;
      [right|now left].
    exists (fetch_Sprint st1 d). split.
    + apply In_fetch_links. now exists s, d.
    + now apply find_by_id_Some in Ed as [_ <-].
  - intros i Hi. apply HI.
    destruct (find_by_id Issue_id i (db_Issue st1)) as [d|] eqn:Ed;
      [right|now left].
    destruct Hi as [Hi|[k [s [Hk [Hs Hi]]]]].
    + right. exists (fetch_Issue st1 d). split.
      * apply In_fetch_links. now exists i, d.
      * now apply find_by_id_Some in Ed as [_ <-].
    + left. exists (fetch_Sprint st1 s), (fetch_Issue st1 d).
      split; [|split].
      * apply In_fetch_links. now exists k, s.
      * apply In_fetch_links. now exists i, d.
      * now apply find_by_id_Some in Ed as [_ <-].
Qed.

(** Workplace 1 of the sample store, and of the store in which sprint
    10 lists the identifier of the deleted issue 20. *)
Lemma delete_workplace_cascade_witness :
  (let st' := exec (delete_workplace 1) sample_store in
   result (delete_workplace 1) sample_store = Ok ResponseNone
   /\ find_by_id UserAssignedWorkplace_id 40 (db_UserAssignedWorkplace st')
      = None
   /\ find_by_id Sprint_id 10 (db_Sprint st') = None
   /\ find_by_id Issue_id 20 (db_Issue st') = None)
  /\ (let st' := exec (delete_workplace 1) stale_store in
      ~ sprint_issues_owned stale_store
      /\ result (delete_workplace 1) stale_store = Ok ResponseNone
      /\ find_by_id UserAssignedWorkplace_id 40 (db_UserAssignedWorkplace st')
         = None
      /\ find_by_id Sprint_id 10 (db_Sprint st') = None
      /\ find_by_id Issue_id 20 (db_Issue st') = None).
Proof.
  split.
  - assert (Hap : comments_apart sample_store).
    { intros i1 i2 c [<-|[]] [<-|[]] _ _. reflexivity. }
    assert (Hown : sprint_issues_listed sample_store).
    { intros s i d [<-|[]] [<-|[]] _. exists sample_workplace.
      split; left; reflexivity. }
    destruct (delete_workplace_cascade sample_store 1 sample_workplace
                eq_refl Hap Hown) as [Hr [_ [_ [Hm [Hs Hi]]]]].
    split; [exact Hr|]. split; [|split].
    + apply Hm. left. reflexivity.
    + apply Hs. left. reflexivity.
    + apply Hi. left. left. reflexivity.
  - assert (Hap : comments_apart stale_store).
    { intros i1 i2 c []. }
    assert (Hown : sprint_issues_listed stale_store).
    { intros s i d _ _ H. discriminate H. }
    destruct (delete_workplace_cascade stale_store 1
                (set_Workplace_issues sample_workplace [])
                eq_refl Hap Hown) as [Hr [_ [_ [Hm [Hs Hi]]]]].
    split; [|split; [exact Hr|split; [|split]]].
    + intros H.
      destruct (H sample_sprint 20 (or_introl eq_refl) (or_introl eq_refl))
        as [w [[<-|[]] []]].
    + apply Hm. left. reflexivity.
    + apply Hs. left. reflexivity.
    + apply Hi. right. exists 10, sample_sprint.
      split; [left; reflexivity|]. split; [reflexivity|left; reflexivity].
Defined.

(** * Further properties *)

(** ** The overlap test on proper intervals *)

Lemma overlap_conditions_intersects (candidate : SprintCreation) (s : Sprint) :
  SprintCreation_start_date candidate < SprintCreation_end_date candidate ->
  Sprint_start_date s < Sprint_end_date s ->
  (overlap_conditions candidate s <-> intersects candidate s).
Proof.
  unfold overlap_conditions, intersects. cbv zeta. intros Hc Hs. lia.
Qed.

(** X1. When the candidate and every stored sprint start before they
    end, the validator returns normally exactly when every other sprint
    of the workplace ends no later than the candidate starts or starts
    no earlier than the candidate ends; the three branches together are
    the usual intersection test. *)
Theorem validate_creation_proper_intervals (st : Store)
  (candidate : SprintCreation) (workplace_id : UUID) (excluded : option UUID)
  (check_self : bool) :
  SprintCreation_start_date candidate < SprintCreation_end_date candidate ->
  (forall s, In s (db_Sprint st) -> Sprint_start_date s < Sprint_end_date s) ->
  (result (Sprint.validate_creation candidate workplace_id excluded check_self)
     st = Ok tt
   <-> forall s, sprint_of st workplace_id s -> Some (Sprint_id s) <> excluded ->
                 Sprint_end_date s <= SprintCreation_start_date candidate
                 \/ SprintCreation_end_date candidate <= Sprint_start_date s).
Proof.
  intros Hc Hall. unfold result.
  destruct (validate_creation_cases st candidate workplace_id excluded
              check_self) as [[Hex ->]|[Hno ->]]; simpl.
  - split; [discriminate|]. intros H. exfalso.
    destruct Hex as [s [Hof [Hne Ho]]].
    apply overlap_conditions_intersects in Ho;
      [|exact Hc|apply Hall, Hof].
    destruct Ho as [H1 H2]. destruct (H s Hof Hne); lia.
  - split; [|reflexivity]. intros _ s Hof Hne.
    destruct (Z_le_gt_dec (Sprint_end_date s)
                (SprintCreation_start_date candidate)) as [Hle|Hgt];
      [now left|].
    destruct (Z_le_gt_dec (SprintCreation_end_date candidate)
                (Sprint_start_date s)) as [Hle'|Hgt']; [now right|].
    exfalso. apply Hno. exists s. split; [exact Hof|]. split; [exact Hne|].
    apply overlap_conditions_intersects; [exact Hc|apply Hall, Hof|].
    unfold intersects. lia.
Qed.

(** The adjacent candidate against the January sprint. *)
Lemma validate_creation_proper_intervals_witness :
  result (Sprint.validate_creation
            (interval (datetime_ymd 2024 1 10) (datetime_ymd 2024 1 20))
            1 None false) january_store = Ok tt.
Proof.
  apply (validate_creation_proper_intervals january_store).
  - reflexivity.
  - intros s [<-|[]]. reflexivity.
  - intros s [[<-|[]] _] _. left. discriminate.
Defined.

(** X2. A candidate of no length, [t, t), is in conflict with a sprint
    exactly when [t] lies between the sprint's start and end, both
    included; so on the sprint's end date it is refused although a
    proper interval starting there is accepted. *)
Theorem overlaps_point_candidate (t : datetime) (s : Sprint) :
  Sprint.overlaps (interval t t) s = true
  <-> Sprint_start_date s <= t /\ t <= Sprint_end_date s.
Proof.
  rewrite overlaps_spec. unfold overlap_conditions. simpl. lia.
Qed.

(** ** Handlers on identifiers that do not resolve *)

Lemma edit_workplace_not_found (st : Store) (fields : dict) (wid : UUID) :
  find_by_id Workplace_id wid (db_Workplace st) = None ->
  edit_workplace fields wid st
  = (st, Raise (AttributeError "'NoneType' object has no attribute 'update'")).
Proof.
  intros H. unfold edit_workplace, Workplace.find_one, bind, get_store, ret.
  simpl. now rewrite H.
Qed.

(** X3. Editing with an identifier that no workplace carries lets an
    [AttributeError] escape and writes nothing. *)
Theorem edit_workplace_missing (st : Store) (fields : dict) (wid : UUID) :
  find_by_id Workplace_id wid (db_Workplace st) = None ->
  exec (edit_workplace fields wid) st = st
  /\ result (edit_workplace fields wid) st
     = Raise (AttributeError "'NoneType' object has no attribute 'update'").
Proof.
  intros H. unfold exec, result.
  now rewrite (edit_workplace_not_found st fields wid H).
Qed.

Lemma edit_workplace_missing_witness :
  result (edit_workplace [("name"%string, PStr "V")] 7) sample_store
  = Raise (AttributeError "'NoneType' object has no attribute 'update'").
Proof.
  exact (proj2 (edit_workplace_missing sample_store
                  [("name"%string, PStr "V")] 7 eq_refl)).
Defined.

(** ** Accepting an invitation *)

(** X4. When no user has the address of the token, the handler redirects
    to the main URL and writes nothing, whether or not the workplace
    exists. *)
Theorem add_to_workplace_unknown_email (cfg : Config) (mid wid : UUID)
  (email : string) (st : Store) :
  (forall u, In u (db_User st) -> User_email u <> email) ->
  add_to_workplace cfg mid wid email st
  = (st, Ok (RedirectResponse (MAIN_URL cfg))).
Proof.
  intros H. unfold add_to_workplace, User.by_email, bind, get_store, ret.
  simpl.
  destruct (find (fun u => String.eqb (User_email u) email) (db_User st))
    as [u|] eqn:E; [|reflexivity].
  apply find_some in E as [Hin He]. apply String.eqb_eq in He.
  now elim (H u Hin).
Qed.

Lemma add_to_workplace_unknown_email_witness :
  add_to_workplace sample_config 42 1 "bob@example.org" sample_store
  = (sample_store, Ok (RedirectResponse "https://example.org")).
Proof.
  apply (add_to_workplace_unknown_email sample_config 42 1).
  intros u [<-|[]]. discriminate.
Defined.

(** X5. When the address belongs to a user but the workplace does not
    exist, an [AttributeError] escapes and nothing is written: no
    membership is created. *)
Theorem add_to_workplace_missing_workplace (cfg : Config) (mid wid : UUID)
  (email : string) (u : User) (st : Store) :
  In u (db_User st) -> User_email u = email ->
  find_by_id Workplace_id wid (db_Workplace st) = None ->
  add_to_workplace cfg mid wid email st
  = (st, Raise (AttributeError "'NoneType' object has no attribute 'users'")).
Proof.
  intros Hin He Hw.
  unfold add_to_workplace, User.by_email, Workplace.find_one, bind, get_store,
    ret. simpl.
  destruct (find (fun x => String.eqb (User_email x) email) (db_User st))
    as [x|] eqn:E.
  - simpl. now rewrite Hw.
  - apply (find_none _ _ E) in Hin. apply String.eqb_neq in Hin.
    contradiction.
Qed.

Lemma add_to_workplace_missing_workplace_witness :
  result (add_to_workplace sample_config 42 7 "ann@example.org") sample_store
  = Raise (AttributeError "'NoneType' object has no attribute 'users'").
Proof.
  unfold result.
  now rewrite (add_to_workplace_missing_workplace sample_config 42 7
                 "ann@example.org" sample_user sample_store
                 (or_introl eq_refl) eq_refl eq_refl).
Defined.

(** X6. When the address belongs to a user and the workplace exists,
    the handler redirects to the workplace, and the stored workplace
    lists the members it listed before, in their order, followed by the
    new membership; that membership is stored with the role MEMBER and
    links a user with the address of the token. A user who was a member
    already is not recognised: a further membership is added. *)
Theorem add_to_workplace_appends_member (cfg : Config) (mid wid : UUID)
  (email : string) (u : User) (w : Workplace) (st : Store) :
  In u (db_User st) -> User_email u = email ->
  find_by_id Workplace_id wid (db_Workplace st) = Some w ->
  let st' := exec (add_to_workplace cfg mid wid email) st in
  result (add_to_workplace cfg mid wid email) st
  = Ok (RedirectResponse ("/workplaces/" ++ UUIDAttr.str wid)%string)
  /\ find_by_id Workplace_id wid (db_Workplace st')
     = Some (set_Workplace_users w (Workplace_users w ++ [mid]))
  /\ (exists m linked,
         find_by_id UserAssignedWorkplace_id mid (db_UserAssignedWorkplace st')
         = Some m
         /\ UserAssignedWorkplace_role m = MEMBER
         /\ UserAssignedWorkplace_user m = User_id linked
         /\ In linked (db_User st) /\ User_email linked = email)
  /\ db_Sprint st' = db_Sprint st /\ db_Issue st' = db_Issue st
  /\ db_Comment st' = db_Comment st.
Proof.
  intros Hin He Hw.
  destruct (find_by_id_Some _ _ _ _ Hw) as [_ Hid].
  unfold add_to_workplace, User.by_email, Workplace.find_one, exec, result,
    bind, get_store, ret. simpl.
  destruct (find (fun x => String.eqb (User_email x) email) (db_User st))
    as [x|] eqn:E.
  - simpl. rewrite Hw. simpl.
    apply find_some in E as [Hx Hxe]. apply String.eqb_eq in Hxe.
    split; [reflexivity|]. split; [|split; [|now repeat split]].
    + rewrite <- Hid.
      exact (find_by_id_upsert_same Workplace_id
               (set_Workplace_users w (Workplace_users w ++ [mid])) _).
    + eexists. exists x.
      split; [exact (find_by_id_upsert_same UserAssignedWorkplace_id _ _)|].
      now repeat split.
  - apply (find_none _ _ E) in Hin. apply String.eqb_neq in Hin.
    contradiction.
Qed.

Lemma add_to_workplace_appends_member_witness :
  option_map Workplace_users
    (find_by_id Workplace_id 1
       (db_Workplace
          (exec (add_to_workplace sample_config 42 1 "ann@example.org")
             sample_store)))
  = Some [40; 42].
Proof.
  destruct (add_to_workplace_appends_member sample_config 42 1
              "ann@example.org" sample_user sample_workplace sample_store
              (or_introl eq_refl) eq_refl eq_refl) as [_ [H _]].
  now rewrite H.
Defined.

(** ** Creating, reading and deleting a workplace *)


Lemma upsert_fresh {D : Type} (key : D -> UUID) (d : D) (c : list D) :
  find_by_id key (key d) c = None -> upsert key d c = c ++ [d].
Proof.
  intros H. unfold upsert.
  destruct (existsb (fun x => UUID_eqb (key x) (key d)) c) eqn:E;
    [|reflexivity].
  apply existsb_exists in E as [x [Hx Hk]]. apply Z.eqb_eq in Hk.
  rewrite find_by_id_None in H. now elim (H x Hx).
Qed.

Lemma filter_all {A : Type} (f : A -> bool) (l : list A) :
  (forall x, In x l -> f x = true) -> filter f l = l.
Proof.
  induction l as [|x l IH]; intros H; simpl; [reflexivity|].
  rewrite (H x (or_introl eq_refl)). f_equal. apply IH.
  intros y Hy. apply H. now right.
Qed.

Lemma delete_by_id_fresh {D : Type} (key : D -> UUID) (k : UUID) (c : list D) :
  find_by_id key k c = None -> delete_by_id key k c = c.
Proof.
  intros H. apply filter_all. intros x Hx. rewrite find_by_id_None in H.
  apply negb_true_iff. apply Z.eqb_neq. now apply H.
Qed.

Lemma resolve_backlink_app {P : Type} (field : P -> list UUID)
  (l1 l2 : list P) (child : UUID) :
  resolve_backlink field (l1 ++ l2) child
  = match resolve_backlink field l1 child with
    | Some p => Some p
    | None => resolve_backlink field l2 child
    end.
Proof.
  unfold resolve_backlink. induction l1 as [|x l1 IH]; simpl; [reflexivity|].
  now destruct (mem_id child (field x)).
Qed.

(** X8. Creating a workplace under identifiers that are not in use and
    deleting it again returns normally and leaves the workplaces, the
    memberships, the sprints, the issues and the comments exactly as
    they were before the creation; the creator stays stored. *)
Theorem delete_after_create_workplace (cfg : Config) (wid mid : UUID)
  (creation : dict) (user : User) (st : Store) :
  find_by_id Workplace_id wid (db_Workplace st) = None ->
  find_by_id UserAssignedWorkplace_id mid (db_UserAssignedWorkplace st) = None ->
  fresh_member st mid ->
  let st1 := exec (create_workplace cfg wid mid creation user) st in
  let st2 := exec (delete_workplace wid) st1 in
  result (delete_workplace wid) st1 = Ok ResponseNone
  /\ db_Workplace st2 = db_Workplace st
  /\ db_UserAssignedWorkplace st2 = db_UserAssignedWorkplace st
  /\ db_Sprint st2 = db_Sprint st /\ db_Issue st2 = db_Issue st
  /\ db_Comment st2 = db_Comment st
  /\ find_by_id User_id (User_id user) (db_User st2) = Some user.
Proof.
  intros Hw Hm Hfresh.
  set (w := {| Workplace_creation := creation; Workplace_id := wid;
               Workplace_states := states cfg; Workplace_users := [mid];
               Workplace_sprints := []; Workplace_issues := [] |}).
  set (m := {| UserAssignedWorkplace_id := mid;
               UserAssignedWorkplace_user := User_id user;
               UserAssignedWorkplace_role := ADMIN |}).
  assert (Hst1 : exec (create_workplace cfg wid mid creation user) st
                 = {| db_User := upsert User_id user (db_User st);
                      db_UserAssignedWorkplace :=
                        db_UserAssignedWorkplace st ++ [m];
                      db_Workplace := db_Workplace st ++ [w];
                      db_Sprint := db_Sprint st; db_Issue := db_Issue st;
                      db_Comment := db_Comment st |}).
  { unfold create_workplace, Workplace.save, Workplace_save,
      UserAssignedWorkplace.save, User.save, exec, bind, modify_store, ret,
      with_Workplace, with_UserAssignedWorkplace, with_User. simpl.
    fold m. change (set_Workplace_users _ [mid]) with w.
    now rewrite (upsert_fresh Workplace_id w _ Hw),
      (upsert_fresh UserAssignedWorkplace_id m _ Hm). }
  cbv zeta. rewrite Hst1. clear Hst1.
  set (st1 := {| db_User := upsert User_id user (db_User st);
                 db_UserAssignedWorkplace := db_UserAssignedWorkplace st ++ [m];
                 db_Workplace := db_Workplace st ++ [w];
                 db_Sprint := db_Sprint st; db_Issue := db_Issue st;
                 db_Comment := db_Comment st |}).
  assert (Hres : forall k, UserAssignedWorkplace_workplace st1 k
                           = if UUID_eqb k mid then Some w
                             else UserAssignedWorkplace_workplace st k).
  { intros k. unfold UserAssignedWorkplace_workplace. simpl.
    rewrite resolve_backlink_app.
    destruct (UUID_eqb k mid) eqn:E.
    - apply Z.eqb_eq in E. subst k.
      destruct (resolve_backlink Workplace_users (db_Workplace st) mid)
        as [q|] eqn:Eq.
      + apply resolve_backlink_Some in Eq as [Hq Hl]. now elim (Hfresh q).
      + unfold resolve_backlink. simpl. unfold UUID_eqb.
        now rewrite Z.eqb_refl.
    - destruct (resolve_backlink Workplace_users (db_Workplace st) k);
        [reflexivity|].
      unfold resolve_backlink. simpl. now rewrite E. }
  assert (Hkeep : filter
                    (fun x =>
                       negb match UserAssignedWorkplace_workplace st1
                                    (UserAssignedWorkplace_id x) with
                            | Some q => UUID_eqb (Workplace_id q) wid
                            | None => false
                            end)
                    (db_UserAssignedWorkplace st ++ [m])
                  = db_UserAssignedWorkplace st).
  { rewrite filter_app. simpl. rewrite Hres. simpl. unfold UUID_eqb at 1.
    rewrite Z.eqb_refl. simpl. unfold UUID_eqb at 1. rewrite Z.eqb_refl.
    simpl. rewrite app_nil_r. apply filter_all. intros x Hx. rewrite Hres.
    destruct (UUID_eqb (UserAssignedWorkplace_id x) mid) eqn:E.
    - apply Z.eqb_eq in E. rewrite find_by_id_None in Hm. now elim (Hm x Hx).
    - destruct (UserAssignedWorkplace_workplace st
                  (UserAssignedWorkplace_id x)) as [q|] eqn:Eq;
        [|reflexivity].
      apply resolve_backlink_Some in Eq as [Hq _].
      apply negb_true_iff, Z.eqb_neq. rewrite find_by_id_None in Hw.
      now apply Hw. }
  assert (Hfind : find_by_id Workplace_id wid (db_Workplace st ++ [w])
                  = Some w).
  { rewrite <- (upsert_fresh Workplace_id w _ Hw).
    exact (find_by_id_upsert_same Workplace_id w _). }
  assert (Hdm : exec (delete_members_of wid) st1
                = {| db_User := upsert User_id user (db_User st);
                     db_UserAssignedWorkplace := db_UserAssignedWorkplace st;
                     db_Workplace := db_Workplace st ++ [w];
                     db_Sprint := db_Sprint st; db_Issue := db_Issue st;
                     db_Comment := db_Comment st |}).
  { transitivity
      (with_UserAssignedWorkplace
         (filter
            (fun x =>
               negb match UserAssignedWorkplace_workplace st1
                            (UserAssignedWorkplace_id x) with
                    | Some q => UUID_eqb (Workplace_id q) wid
                    | None => false
                    end)) st1); [reflexivity|].
    unfold with_UserAssignedWorkplace.
    change (db_UserAssignedWorkplace st1)
      with (db_UserAssignedWorkplace st ++ [m]).
    now rewrite Hkeep. }
  unfold result, exec. rewrite (delete_workplace_found st1 wid w Hfind), Hdm.
  unfold fetch_Workplace, Workplace.delete, delete_links, bind, modify_store,
    ret, lookup_UserAssignedWorkplace. simpl. rewrite Hm. simpl.
  split; [reflexivity|]. split; [|split; [reflexivity|]].
  - unfold delete_by_id. rewrite filter_app. simpl. unfold UUID_eqb.
    rewrite Z.eqb_refl. simpl. rewrite app_nil_r.
    now apply (delete_by_id_fresh Workplace_id).
  - repeat split. exact (find_by_id_upsert_same User_id user _).
Qed.

Lemma delete_after_create_workplace_witness :
  db_Workplace
    (exec (delete_workplace 2)
       (exec (create_workplace sample_config 2 41
                [("name"%string, PStr "V")] sample_user) sample_store))
  = db_Workplace sample_store.
Proof.
  assert (Hfresh : fresh_member sample_store 41).
  { intros w [<-|[]]. simpl. intros [H|[]]. discriminate. }
  destruct (delete_after_create_workplace sample_config 2 41
              [("name"%string, PStr "V")] sample_user sample_store
              eq_refl eq_refl Hfresh) as [_ [H _]].
  exact H.
Defined.

(** ** Listing the workplaces of a user *)

Lemma ids_for_user_returns (user : User) (id : UUID)
  (users : list UserAssignedWorkplaceObj) (st : Store) :
  (forall u, In u users -> m_user u <> None) ->
  exists l, ids_for_user user id users st = (st, Ok l)
            /\ forall k, In k l <->
                         k = id
                         /\ exists u x, In u users /\ m_user u = Some x
                                        /\ User_id x = User_id user.
Proof.
  induction users as [|u t IH]; intros Hall; simpl.
  - exists []. split; [reflexivity|]. intros k. split; [intros []|].
    now intros [_ [u [x [[] _]]]].
  - destruct (m_user u) as [x|] eqn:Eu;
      [|now elim (Hall u (or_introl eq_refl))].
    destruct IH as [l [El Hl]]; [intros v Hv; apply Hall; now right|].
    unfold bind. simpl. rewrite El.
    destruct (UUID_eqb (User_id x) (User_id user)) eqn:E; eexists;
      (split; [reflexivity|]); intros k; simpl; rewrite Hl.
    + apply Z.eqb_eq in E. split.
      * intros [<-|[-> [v [y [Hv Hy]]]]].
        -- split; [reflexivity|]. exists u, x. now repeat split; [left|..].
        -- split; [reflexivity|]. exists v, y. split; [now right|exact Hy].
      * intros [-> [v [y [[<-|Hv] Hy]]]]; [now left|].
        right. split; [reflexivity|]. now exists v, y.
    + apply Z.eqb_neq in E. split.
      * intros [-> [v [y [Hv Hy]]]]. split; [reflexivity|].
        exists v, y. split; [now right|exact Hy].
      * intros [-> [v [y [[<-|Hv] [Hy Hid]]]]].
        -- rewrite Eu in Hy. injection Hy as <-. contradiction.
        -- split; [reflexivity|]. now exists v, y.
Qed.

Lemma ids_for_user_cases (user : User) (id : UUID)
  (users : list UserAssignedWorkplaceObj) (st : Store) :
  (exists l, ids_for_user user id users st = (st, Ok l))
  \/ ids_for_user user id users st
     = (st, Raise (AttributeError "'NoneType' object has no attribute 'id'")).
Proof.
  induction users as [|u t IH]; simpl.
  - left. now exists [].
  - destruct (m_user u) as [x|]; [|now right].
    unfold bind. simpl. destruct IH as [[l ->]| ->]; [left|now right].
    eexists. reflexivity.
Qed.

Lemma ids_for_user_raises (user : User) (id : UUID)
  (users : list UserAssignedWorkplaceObj) (st : Store) :
  (exists u, In u users /\ m_user u = None) ->
  ids_for_user user id users st
  = (st, Raise (AttributeError "'NoneType' object has no attribute 'id'")).
Proof.
  induction users as [|u t IH]; intros [v [Hv Hn]]; [contradiction|]. simpl.
  destruct (m_user u) as [x|] eqn:Eu; [|reflexivity].
  destruct Hv as [<-|Hv]; [congruence|].
  unfold bind. simpl. rewrite IH; [reflexivity|now exists v].
Qed.

Lemma ids_of_workplaces_returns (user : User) (ws : list WorkplaceObj)
  (st : Store) :
  (forall w u, In w ws -> In u (w_users w) -> m_user u <> None) ->
  exists l, ids_of_workplaces user ws st = (st, Ok l)
            /\ forall k, In k l <->
                         exists w u x, In w ws /\ k = Workplace_id (w_self w)
                                       /\ In u (w_users w)
                                       /\ m_user u = Some x
                                       /\ User_id x = User_id user.
Proof.
  induction ws as [|w t IH]; intros Hall; simpl.
  - exists []. split; [reflexivity|]. intros k. split; [intros []|].
    now intros [w [u [x [[] _]]]].
  - destruct (ids_for_user_returns user (Workplace_id (w_self w)) (w_users w)
                st) as [here [Eh Hh]];
      [intros u Hu; apply (Hall w u); [now left|exact Hu]|].
    destruct IH as [rest [Er Hr]];
      [intros v u Hv; apply Hall; now right|].
    unfold bind. rewrite Eh, Er. eexists. split; [reflexivity|].
    intros k. rewrite in_app_iff, Hh, Hr. split.
    + intros [[-> [u [x [Hu Hx]]]]|[v [u [x [Hv Hrest]]]]].
      * exists w, u, x. split; [now left|]. now split.
      * exists v, u, x. split; [now right|exact Hrest].
    + intros [v [u [x [[<-|Hv] [-> Hrest]]]]].
      * left. split; [reflexivity|]. now exists u, x.
      * right. exists v, u, x. now split.
Qed.

Lemma ids_of_workplaces_raises (user : User) (ws : list WorkplaceObj)
  (st : Store) :
  (exists w u, In w ws /\ In u (w_users w) /\ m_user u = None) ->
  ids_of_workplaces user ws st
  = (st, Raise (AttributeError "'NoneType' object has no attribute 'id'")).
Proof.
  induction ws as [|w t IH]; intros [v [u [Hv [Hu Hn]]]]; [contradiction|].
  simpl. unfold bind.
  destruct Hv as [<-|Hv].
  - rewrite ids_for_user_raises; [reflexivity|now exists u].
  - destruct (ids_for_user_cases user (Workplace_id (w_self w)) (w_users w) st)
      as [[l ->]| ->]; [|reflexivity].
    rewrite IH; [reflexivity|now exists v, u].
Qed.

(** X9. When the user of every stored membership that a workplace lists
    exists, the listing returns, in the order of the collection, exactly
    the workplaces whose identifier is that of a workplace listing a
    stored membership of the caller; nothing is written. *)
Theorem get_user_workplaces_of_member (user : User) (st : Store) :
  (forall w k m, In w (db_Workplace st) -> In k (Workplace_users w) ->
                 lookup_UserAssignedWorkplace st k = Some m ->
                 find_by_id User_id (UserAssignedWorkplace_user m) (db_User st)
                 <> None) ->
  exists ids,
    get_user_workplaces user st
    = (st, Ok (filter (fun w => mem_id (Workplace_id w) ids) (db_Workplace st)))
    /\ forall k, In k ids <->
                 exists w j m, In w (db_Workplace st) /\ Workplace_id w = k
                               /\ In j (Workplace_users w)
                               /\ lookup_UserAssignedWorkplace st j = Some m
                               /\ UserAssignedWorkplace_user m = User_id user.
Proof.
  intros Hall.
  destruct (ids_of_workplaces_returns user
              (map (fetch_Workplace st) (db_Workplace st)) st)
    as [ids [E Hids]].
  { intros wo u Hwo Hu. apply in_map_iff in Hwo as [w [<- Hw]]. simpl in Hu.
    apply In_fetch_links in Hu as [k [m [Hk [Hm ->]]]]. simpl.
    now apply (Hall w k m). }
  exists ids. split.
  - unfold get_user_workplaces, bind, get_store, ret. simpl. now rewrite E.
  - intros k. rewrite Hids. split.
    + intros [wo [u [x [Hwo [-> [Hu [Hx Hid]]]]]]].
      apply in_map_iff in Hwo as [w [<- Hw]]. simpl in *.
      apply In_fetch_links in Hu as [j [m [Hj [Hm ->]]]]. simpl in Hx.
      apply find_by_id_Some in Hx as [_ Hx].
      exists w, j, m. repeat split; try assumption. congruence.
    + intros [w [j [m [Hw [<- [Hj [Hm Hu]]]]]]].
      destruct (find_by_id User_id (UserAssignedWorkplace_user m) (db_User st))
        as [x|] eqn:Ex; [|now elim (Hall w j m)].
      exists (fetch_Workplace st w), (fetch_UserAssignedWorkplace st m), x.
      split; [now apply in_map|]. split; [reflexivity|].
      split; [simpl; apply In_fetch_links; now exists j, m|].
      split; [exact Ex|].
      apply find_by_id_Some in Ex as [_ Ex]. congruence.
Qed.

Lemma get_user_workplaces_of_member_witness :
  result (get_user_workplaces sample_user) sample_store
  = Ok [sample_workplace].
Proof.
  assert (Hall : forall w k m,
             In w (db_Workplace sample_store) -> In k (Workplace_users w) ->
             lookup_UserAssignedWorkplace sample_store k = Some m ->
             find_by_id User_id (UserAssignedWorkplace_user m)
               (db_User sample_store) <> None).
  { intros w k m [<-|[]] [<-|[]] [= <-]. discriminate. }
  destruct (get_user_workplaces_of_member sample_user sample_store Hall)
    as [ids [E Hids]].
  assert (H1 : mem_id 1 ids = true).
  { apply mem_id_In, Hids. exists sample_workplace, 40, sample_member.
    repeat split; left; reflexivity. }
  unfold result. rewrite E. simpl. now rewrite H1.
Defined.

(** X10. One stored membership whose user does not exist, listed by any
    workplace, makes the listing fail for every caller: an
    [AttributeError] escapes and nothing is written. *)
Theorem get_user_workplaces_dangling_user (user : User) (st : Store)
  (w : Workplace) (k : UUID) (m : UserAssignedWorkplace) :
  In w (db_Workplace st) -> In k (Workplace_users w) ->
  lookup_UserAssignedWorkplace st k = Some m ->
  find_by_id User_id (UserAssignedWorkplace_user m) (db_User st) = None ->
  get_user_workplaces user st
  = (st, Raise (AttributeError "'NoneType' object has no attribute 'id'")).
Proof.
  intros Hw Hk Hm Hu.
  unfold get_user_workplaces, bind, get_store. simpl.
  rewrite ids_of_workplaces_raises; [reflexivity|].
  exists (fetch_Workplace st w), (fetch_UserAssignedWorkplace st m).
  split; [now apply in_map|]. split; [|exact Hu].
  simpl. apply In_fetch_links. now exists k, m.
Qed.

Lemma get_user_workplaces_dangling_user_witness :
  result (get_user_workplaces sample_user)
    (with_User (fun _ => []) sample_store)
  = Raise (AttributeError "'NoneType' object has no attribute 'id'").
Proof.
  unfold result.
  now rewrite (get_user_workplaces_dangling_user sample_user
                 (with_User (fun _ => []) sample_store) sample_workplace 40
                 sample_member (or_introl eq_refl) (or_introl eq_refl)
                 eq_refl eq_refl).
Defined.

(** ** What the deletes leave alone *)

Lemma UserAssignedWorkplace_delete_eq (rule : DeleteRules.t)
  (self : UserAssignedWorkplaceObj) (st : Store) :
  UserAssignedWorkplace.delete rule self st
  = (with_UserAssignedWorkplace
       (delete_by_id UserAssignedWorkplace_id
          (UserAssignedWorkplace_id (m_self self))) st, Ok tt).
Proof.
  unfold UserAssignedWorkplace.delete, UserAssignedWorkplace.delete_refs, bind,
    ret, modify_store. simpl. now destruct rule.
Qed.

(** X11. Deleting a stored membership, with either link rule, removes
    its record only. The user it links stays stored even under
    [DELETE_LINKS], because the hook clears the link first; and every
    workplace is left as it was, so the workplace that listed the
    membership still lists its identifier. *)
Theorem membership_delete_record_only (rule : DeleteRules.t) (st : Store)
  (m : UserAssignedWorkplace) (u : User) (w : Workplace) :
  find_by_id User_id (UserAssignedWorkplace_user m) (db_User st) = Some u ->
  UserAssignedWorkplace_workplace st (UserAssignedWorkplace_id m) = Some w ->
  let self := fetch_UserAssignedWorkplace st m in
  let st' := exec (UserAssignedWorkplace.delete rule self) st in
  m_user self = Some u
  /\ result (UserAssignedWorkplace.delete rule self) st = Ok tt
  /\ find_by_id UserAssignedWorkplace_id (UserAssignedWorkplace_id m)
       (db_UserAssignedWorkplace st') = None
  /\ find_by_id User_id (UserAssignedWorkplace_user m) (db_User st') = Some u
  /\ db_Workplace st' = db_Workplace st
  /\ In w (db_Workplace st')
  /\ In (UserAssignedWorkplace_id m) (Workplace_users w).
Proof.
  intros Hu Hw. cbv zeta. unfold exec, result.
  rewrite UserAssignedWorkplace_delete_eq. simpl.
  split; [exact Hu|]. split; [reflexivity|].
  split; [apply find_by_id_delete_same|]. split; [exact Hu|].
  split; [reflexivity|]. now apply resolve_backlink_Some in Hw.
Qed.

Lemma membership_delete_record_only_witness :
  let st' := exec (UserAssignedWorkplace.delete DeleteRules.DELETE_LINKS
                     (fetch_UserAssignedWorkplace sample_store sample_member))
               sample_store in
  find_by_id User_id 50 (db_User st') = Some sample_user
  /\ In sample_workplace (db_Workplace st').
Proof.
  destruct (membership_delete_record_only DeleteRules.DELETE_LINKS sample_store
              sample_member sample_user sample_workplace eq_refl eq_refl)
    as [_ [_ [_ [Hu [_ [Hw _]]]]]].
  split; [exact Hu|exact Hw].
Defined.

Lemma Comment_delete_preserves (P : Store -> Prop) (rule : DeleteRules.t)
  (self : CommentObj) :
  (forall f st, P st -> P (with_Issue f st)) ->
  (forall f st, P st -> P (with_Comment f st)) ->
  preserves P (Comment.delete rule self).
Proof.
  intros HI HC st Hst.
  unfold Comment.delete, Comment.delete_refs, exec, bind, list_remove,
    Issue_save, modify_store, ret.
  destruct (c_issue self) as [i|]; simpl; [|exact Hst].
  destruct (remove_first _ _) as [l|]; simpl; [|exact Hst].
  destruct rule; simpl; now apply HC, HI.
Qed.

Lemma Issue_hook_preserves (P : Store -> Prop) (self : IssueObj) :
  (forall f st, P st -> P (with_Workplace f st)) ->
  preserves_with P (Issue.delete_refs self)
    (fun self' => i_author self' = None /\ i_implementers self' = []
                  /\ i_comments self' = i_comments self).
Proof.
  intros HW st Hst.
  unfold Issue.delete_refs, exec, result, bind, list_remove, Workplace_save,
    modify_store, not_awaited, ret.
  destruct (i_workplace self) as [w|]; simpl;
    [|split; [exact Hst|discriminate]].
  destruct (remove_first _ (Workplace_issues w)) as [l|]; simpl;
    [|split; [exact Hst|discriminate]].
  destruct (i_sprint self) as [s|]; simpl.
  - destruct (remove_first _ (Sprint_issues s)) as [l'|]; simpl.
    + split; [now apply HW|]. intros a [= <-]. now repeat split.
    + split; [now apply HW|discriminate].
  - split; [now apply HW|]. intros a [= <-]. now repeat split.
Qed.

Lemma Issue_delete_preserves (P : Store -> Prop) (rule : DeleteRules.t)
  (self : IssueObj) :
  (forall f st, P st -> P (with_Workplace f st)) ->
  (forall f st, P st -> P (with_Issue f st)) ->
  (forall f st, P st -> P (with_Comment f st)) ->
  preserves P (Issue.delete rule self).
Proof.
  intros HW HI HC. unfold Issue.delete.
  apply (preserves_bind_with _ _ _ _ (Issue_hook_preserves P self HW)).
  intros self' [Ha [Him Hc]].
  rewrite Ha, Him, Hc, delete_link_None, delete_links_nil.
  apply preserves_bind_ret, preserves_bind_ret, preserves_bind.
  - apply preserves_delete_links. intros c _.
    now apply Comment_delete_preserves.
  - intros _. apply preserves_modify_store. intros st. apply HI.
Qed.

Lemma Sprint_hook_preserves (P : Store -> Prop) (self : SprintObj) :
  (forall f st, P st -> P (with_Workplace f st)) ->
  preserves_with P (Sprint.delete_ref_workplace self)
    (fun self' => s_issues self' = s_issues self).
Proof.
  intros HW st Hst.
  unfold Sprint.delete_ref_workplace, exec, result, bind, list_remove,
    Workplace_save, modify_store, ret.
  destruct (s_workplace self) as [w|]; simpl;
    [|split; [exact Hst|discriminate]].
  destruct (remove_first _ _) as [l|]; simpl;
    [|split; [exact Hst|discriminate]].
  split; [now apply HW|]. now intros a [= <-].
Qed.

Lemma Sprint_delete_preserves (P : Store -> Prop) (rule : DeleteRules.t)
  (self : SprintObj) :
  (forall f st, P st -> P (with_Workplace f st)) ->
  (forall f st, P st -> P (with_Sprint f st)) ->
  (forall f st, P st -> P (with_Issue f st)) ->
  (forall f st, P st -> P (with_Comment f st)) ->
  preserves P (Sprint.delete rule self).
Proof.
  intros HW HS HI HC. unfold Sprint.delete.
  apply (preserves_bind_with _ _ _ _ (Sprint_hook_preserves P self HW)).
  intros self' ->. apply preserves_bind.
  - apply preserves_delete_links. intros i _.
    now apply Issue_delete_preserves.
  - intros _. apply preserves_modify_store. intros st. apply HS.
Qed.

(** X12. Deleting a comment, an issue or a sprint, with either link
    rule and whether the hook succeeds or raises, never changes the
    users or the memberships: the hooks clear the author and the
    implementers before the link rule is applied. *)
Theorem deletes_keep_members_and_users (rule : DeleteRules.t) (st : Store) :
  (forall c,
      db_User (exec (Comment.delete rule c) st) = db_User st
      /\ db_UserAssignedWorkplace (exec (Comment.delete rule c) st)
         = db_UserAssignedWorkplace st)
  /\ (forall i,
         db_User (exec (Issue.delete rule i) st) = db_User st
         /\ db_UserAssignedWorkplace (exec (Issue.delete rule i) st)
            = db_UserAssignedWorkplace st)
  /\ (forall s,
         db_User (exec (Sprint.delete rule s) st) = db_User st
         /\ db_UserAssignedWorkplace (exec (Sprint.delete rule s) st)
            = db_UserAssignedWorkplace st).
Proof.
  set (P := fun x => db_User x = db_User st
                     /\ db_UserAssignedWorkplace x
                        = db_UserAssignedWorkplace st).
  assert (H0 : P st) by now split.
  split; [|split].
  - intros c. now apply (Comment_delete_preserves P rule c).
  - intros i. now apply (Issue_delete_preserves P rule i).
  - intros s. now apply (Sprint_delete_preserves P rule s).
Qed.

(** X13. Deleting a workplace never deletes or changes a user, whether
    the request returns or raises. *)
Theorem delete_workplace_keeps_users (wid : UUID) (st : Store) :
  db_User (exec (delete_workplace wid) st) = db_User st.
Proof.
  set (P := fun x => db_User x = db_User st).
  assert (Hd : preserves P (delete_workplace wid)).
  { unfold delete_workplace, delete_members_of, Workplace.find_one,
      Workplace.delete.
    preserves_tac; try (apply preserves_modify_store; now intros x).
    - apply preserves_delete_links. intros m _ x Hx. unfold exec.
      now rewrite UserAssignedWorkplace_delete_eq.
    - apply preserves_delete_links. intros s _.
      now apply Sprint_delete_preserves.
    - apply preserves_delete_links. intros i _.
      now apply Issue_delete_preserves. }
  now apply Hd.
Qed.

(** ** Documents without a parent *)

(** X14. A sprint or an issue that no workplace lists, and a comment
    that no issue lists, cannot be deleted: the hook finds no parent, an
    [AttributeError] escapes and the record stays, with either link
    rule. *)
Theorem delete_without_parent (rule : DeleteRules.t) (st : Store) :
  (forall s, Sprint_workplace st (Sprint_id s) = None ->
             Sprint.delete rule (fetch_Sprint st s) st
             = (st, Raise (AttributeError
                             "'NoneType' object has no attribute 'sprints'")))
  /\ (forall i, Issue_workplace st (Issue_id i) = None ->
                Issue.delete rule (fetch_Issue st i) st
                = (st, Raise (AttributeError
                                "'NoneType' object has no attribute 'issues'")))
  /\ (forall c, Comment_issue st (Comment_id c) = None ->
                Comment.delete rule (fetch_Comment st c) st
                = (st, Raise (AttributeError
                                "'NoneType' object has no attribute 'comments'"))).
Proof.
  split; [|split].
  - intros s H. unfold Sprint.delete, Sprint.delete_ref_workplace, bind.
    simpl. now rewrite H.
  - intros i H. unfold Issue.delete, Issue.delete_refs, bind.
    simpl. now rewrite H.
  - intros c H. unfold Comment.delete, Comment.delete_refs, bind.
    simpl. now rewrite H.
Qed.

(** An issue that no workplace lists, in a store of its own. *)
Lemma delete_without_parent_witness :
  let st := with_Workplace (fun _ => []) sample_store in
  result (Issue.delete DeleteRules.DO_NOTHING (fetch_Issue st sample_issue)) st
  = Raise (AttributeError "'NoneType' object has no attribute 'issues'")
  /\ find_by_id Issue_id 20
       (db_Issue (exec (Issue.delete DeleteRules.DO_NOTHING
                          (fetch_Issue st sample_issue)) st))
     = Some sample_issue.
Proof.
  cbv zeta. unfold result, exec.
  destruct (delete_without_parent DeleteRules.DO_NOTHING
              (with_Workplace (fun _ => []) sample_store)) as [_ [H _]].
  rewrite (H sample_issue eq_refl). split; reflexivity.
Defined.

(** ** Deleting a comment *)

(** X15. Deleting a stored comment whose issue lists it (once) returns
    normally, with either link rule: the comment record is gone, the
    stored issue no longer lists the comment and is otherwise as it
    was, and no other collection is written. *)
Theorem comment_delete_detaches (rule : DeleteRules.t) (st : Store)
  (c : Comment) (i : Issue) :
  Comment_issue st (Comment_id c) = Some i ->
  NoDup (Issue_comments i) ->
  let self := fetch_Comment st c in
  let st' := exec (Comment.delete rule self) st in
  result (Comment.delete rule self) st = Ok tt
  /\ find_by_id Comment_id (Comment_id c) (db_Comment st') = None
  /\ (exists i',
         find_by_id Issue_id (Issue_id i) (db_Issue st') = Some i'
         /\ ~ In (Comment_id c) (Issue_comments i')
         /\ (forall k, k <> Comment_id c ->
                       (In k (Issue_comments i') <-> In k (Issue_comments i)))
         /\ Issue_base i' = Issue_base i
         /\ Issue_creation_date i' = Issue_creation_date i
         /\ Issue_author i' = Issue_author i
         /\ Issue_implementers i' = Issue_implementers i)
  /\ db_User st' = db_User st
  /\ db_UserAssignedWorkplace st' = db_UserAssignedWorkplace st
  /\ db_Workplace st' = db_Workplace st
  /\ db_Sprint st' = db_Sprint st.
Proof.
  intros Hi Hnd.
  destruct (resolve_backlink_Some _ _ _ _ Hi) as [_ Hlisted].
  destruct (remove_first_In _ _ Hlisted) as [l Hl].
  pose proof (remove_first_NoDup _ _ _ Hl Hnd) as Hspec.
  unfold Comment.delete, Comment.delete_refs, fetch_Comment, exec, result,
    bind, list_remove, Issue_save, modify_store, ret. simpl.
  rewrite Hi. simpl. rewrite Hl. simpl.
  assert (Hrule : forall x : Store,
             delete_link rule UserAssignedWorkplace.delete None x = (x, Ok tt))
    by (intros x; now destruct rule).
  rewrite Hrule. simpl.
  split; [reflexivity|]. split; [apply find_by_id_delete_same|].
  split; [|now repeat split].
  eexists. split; [exact (find_by_id_upsert_same Issue_id _ _)|]. simpl.
  split; [intros Hin; now apply Hspec in Hin|].
  split; [|now repeat split].
  intros k Hk. rewrite Hspec. tauto.
Qed.

Lemma comment_delete_detaches_witness :
  let st' := exec (Comment.delete DeleteRules.DO_NOTHING
                     (fetch_Comment sample_store sample_comment))
               sample_store in
  find_by_id Comment_id 30 (db_Comment st') = None
  /\ db_Workplace st' = db_Workplace sample_store.
Proof.
  assert (Hnd : NoDup (Issue_comments sample_issue)).
  { constructor; [intros []|constructor]. }
  destruct (comment_delete_detaches DeleteRules.DO_NOTHING sample_store
              sample_comment sample_issue eq_refl Hnd)
    as [_ [Hgone [_ [_ [_ [Hw _]]]]]].
  split; [exact Hgone|exact Hw].
Defined.

(** ** Deleting an issue and its comments *)

(** X16. Deleting a stored issue with the default link rule returns
    normally and removes the issue, but leaves all comments stored. The
    comments that only this issue listed then have no issue: their back
    link resolves to none, and deleting one of them afterwards raises
    [AttributeError] and leaves it stored. *)
Theorem issue_delete_orphans_comments (st : Store) (i : Issue)
  (w : Workplace) :
  Issue_workplace st (Issue_id i) = Some w ->
  (forall i' c, In i' (db_Issue st) -> In c (Issue_comments i) ->
                In c (Issue_comments i') -> Issue_id i' = Issue_id i) ->
  let self := fetch_Issue st i in
  let st' := exec (Issue.delete DeleteRules.DO_NOTHING self) st in
  result (Issue.delete DeleteRules.DO_NOTHING self) st = Ok tt
  /\ find_by_id Issue_id (Issue_id i) (db_Issue st') = None
  /\ db_Comment st' = db_Comment st
  /\ (forall c, In (Comment_id c) (Issue_comments i) ->
                Comment_issue st' (Comment_id c) = None
                /\ forall rule,
                     Comment.delete rule (fetch_Comment st' c) st'
                     = (st', Raise (AttributeError
                          "'NoneType' object has no attribute 'comments'"))).
Proof.
  intros Hw Honly.
  destruct (resolve_backlink_Some _ _ _ _ Hw) as [_ Hlisted].
  destruct (remove_first_In _ _ Hlisted) as [l Hl].
  assert (Hrun : exists f,
             Issue.delete DeleteRules.DO_NOTHING (fetch_Issue st i) st
             = (with_Issue (delete_by_id Issue_id (Issue_id i))
                  (with_Workplace f st), Ok tt)).
  { unfold Issue.delete, Issue.delete_refs, fetch_Issue, bind, list_remove,
      Workplace_save, modify_store, not_awaited, ret. simpl.
    rewrite Hw. simpl. rewrite Hl. simpl.
    destruct (Issue_sprint st (Issue_id i)) as [s|] eqn:Es.
    - apply resolve_backlink_Some in Es as [_ Hs].
      destruct (remove_first_In _ _ Hs) as [l' Hl']. rewrite Hl'. simpl.
      eexists. reflexivity.
    - simpl. eexists. reflexivity. }
  destruct Hrun as [f Hrun]. cbv zeta. unfold result, exec. rewrite Hrun.
  simpl. split; [reflexivity|]. split; [apply find_by_id_delete_same|].
  split; [reflexivity|]. intros c Hc.
  assert (Hnone : Comment_issue
                    (with_Issue (delete_by_id Issue_id (Issue_id i))
                       (with_Workplace f st)) (Comment_id c) = None).
  { apply resolve_backlink_None. simpl. intros p Hp Hcp.
    apply In_delete_by_id in Hp as [Hp Hne].
    now apply Hne, (Honly p (Comment_id c)). }
  split; [exact Hnone|]. intros rule.
  unfold Comment.delete, Comment.delete_refs, bind. simpl.
  unfold Comment_issue in Hnone. simpl in Hnone.
  unfold Comment_issue. simpl. now rewrite Hnone.
Qed.

Lemma issue_delete_orphans_comments_witness :
  let st' := exec (Issue.delete DeleteRules.DO_NOTHING
                     (fetch_Issue sample_store sample_issue)) sample_store in
  find_by_id Comment_id 30 (db_Comment st') = Some sample_comment
  /\ Comment_issue st' 30 = None.
Proof.
  assert (Honly : forall i' c, In i' (db_Issue sample_store) ->
                               In c (Issue_comments sample_issue) ->
                               In c (Issue_comments i') ->
                               Issue_id i' = Issue_id sample_issue).
  { intros i' c [<-|[]] _ _. reflexivity. }
  destruct (issue_delete_orphans_comments sample_store sample_issue
              sample_workplace eq_refl Honly) as [_ [_ [Hc Horph]]].
  cbv zeta. rewrite Hc. split; [reflexivity|].
  exact (proj1 (Horph sample_comment (or_introl eq_refl))).
Defined.

(** ** Deleting a sprint together with its links *)

(** X17. With the link rule [DELETE_LINKS], deleting a stored sprint
    that a workplace lists returns normally and removes the sprint and
    every issue it lists (in a store where a comment belongs to one
    issue and sprint issues are workplace issues). *)
Theorem sprint_delete_links_deletes_issues (st : Store) (s : Sprint)
  (w : Workplace) :
  In s (db_Sprint st) ->
  Sprint_workplace st (Sprint_id s) = Some w ->
  comments_apart st -> sprint_issues_owned st ->
  let self := fetch_Sprint st s in
  let st' := exec (Sprint.delete DeleteRules.DELETE_LINKS self) st in
  result (Sprint.delete DeleteRules.DELETE_LINKS self) st = Ok tt
  /\ find_by_id Sprint_id (Sprint_id s) (db_Sprint st') = None
  /\ (forall k, In k (Sprint_issues s) ->
                find_by_id Issue_id k (db_Issue st') = None).
Proof.
  intros Hs Hw Hap Hown. apply owned_listed in Hown.
  assert (Hready : ready_Sprint (fetch_Sprint st s)).
  { apply fetch_Sprint_ready; try assumption.
    apply resolve_backlink_Some in Hw as [Hw Hl]. now exists w. }
  set (XM := fun k => find_by_id UserAssignedWorkplace_id k
                        (db_UserAssignedWorkplace st) = None).
  set (XS := fun k => find_by_id Sprint_id k (db_Sprint st) = None).
  set (XI := fun k => find_by_id Issue_id k (db_Issue st) = None).
  assert (Hstart : gone XM XS XI st) by now repeat split.
  destruct (Sprint_delete_gone XM XS XI _ Hready st Hstart)
    as [[] [st2 [E [_ [HS HI]]]]].
  cbv zeta. unfold result, exec. rewrite E. simpl.
  split; [reflexivity|]. split; [apply HS; now right|].
  intros k Hk. apply HI.
  destruct (find_by_id Issue_id k (db_Issue st)) as [d|] eqn:Ed;
    [right|now left].
  exists (fetch_Issue st d). split.
  - simpl. apply In_fetch_links. now exists k, d.
  - now apply find_by_id_Some in Ed as [_ <-].
Qed.

Lemma sprint_delete_links_deletes_issues_witness :
  find_by_id Issue_id 20
    (db_Issue (exec (Sprint.delete DeleteRules.DELETE_LINKS
                       (fetch_Sprint sample_store sample_sprint))
                 sample_store))
  = None.
Proof.
  assert (Hap : comments_apart sample_store).
  { intros i1 i2 c [<-|[]] [<-|[]] _ _. reflexivity. }
  assert (Hown : sprint_issues_owned sample_store).
  { intros s i [<-|[]] [<-|[]]. exists sample_workplace.
    split; left; reflexivity. }
  destruct (sprint_delete_links_deletes_issues sample_store sample_sprint
              sample_workplace (or_introl eq_refl) eq_refl Hap Hown)
    as [_ [_ H]].
  apply H. left. reflexivity.
Defined.

(** ** The cascade reaches the comments *)

Lemma gone_comments_weaken (X Y : UUID -> Prop) (st : Store) :
  (forall k, Y k -> X k) -> gone_comments X st -> gone_comments Y st.
Proof. intros H HX k Hk. now apply HX, H. Qed.

(** Deleting the elements of a list one after the other, each one
    adding the identifiers [ids x] to those that are gone. *)
Lemma returns_for_each_comments {A : Type} (ids : A -> UUID -> Prop)
  (f : A -> M unit) (l : list A) (X : UUID -> Prop) :
  (forall Y x, In x l ->
               returns (gone_comments Y) (f x)
                 (fun _ => gone_comments (fun k => Y k \/ ids x k))) ->
  returns (gone_comments X) (for_each f l)
    (fun _ => gone_comments (fun k => X k \/ exists x, In x l /\ ids x k)).
Proof.
  intros Hf.
  set (I := fun seen =>
              gone_comments (fun k => X k \/ exists x, In x seen /\ ids x k)).
  apply (returns_consequence (I []) _ _ (fun _ => I l)).
  - apply (returns_for_each I). intros seen x Hx.
    eapply returns_consequence;
      [apply (Hf (fun k => X k \/ exists y, In y seen /\ ids y k) x Hx)
      |intros st H; exact H|].
    intros u st. apply gone_comments_weaken.
    intros k [Hk|[y [Hy Hid]]].
    + left. now left.
    + apply in_app_iff in Hy as [Hy|[<-|[]]].
      * left. right. now exists y.
      * now right.
  - intros st. apply gone_comments_weaken. intros k [Hk|[y [[] _]]].
    exact Hk.
  - now intros _ st.
Qed.

Lemma Comment_delete_gone_comments (X : UUID -> Prop) (rule : DeleteRules.t)
  (issue_id : UUID) (self : CommentObj) :
  ready_Comment issue_id self ->
  returns (gone_comments X) (Comment.delete rule self)
    (fun _ => gone_comments (fun k => X k \/ k = Comment_id (c_self self))).
Proof.
  intros [i [Hi [_ Hin]]] st HX.
  destruct (remove_first_In _ _ Hin) as [l Hl].
  exists tt. eexists. split.
  - unfold Comment.delete, Comment.delete_refs, bind, list_remove.
    rewrite Hi. simpl. rewrite Hl. simpl. now destruct rule.
  - simpl. intros k [Hk| ->].
    + now apply find_by_id_delete_None, HX.
    + apply find_by_id_delete_same.
Qed.

Lemma Issue_delete_gone_comments (X : UUID -> Prop) (self : IssueObj) :
  ready_Issue self ->
  returns (gone_comments X) (Issue.delete DeleteRules.DELETE_LINKS self)
    (fun _ =>
       gone_comments
         (fun k => X k \/ exists c, In c (i_comments self)
                                    /\ k = Comment_id (c_self c))).
Proof.
  intros Hready. unfold Issue.delete.
  apply (returns_bind _ _ _ _ _
           (Issue_hook_returns (gone_comments X) self (fun _ _ H => H)
              Hready)).
  intros self'. apply returns_assume. intros [Ha [Himpl [Hc Hid]]].
  rewrite Ha, Himpl, Hc, Hid, delete_link_None, delete_links_nil.
  change (returns (gone_comments X)
            (for_each (Comment.delete DeleteRules.DELETE_LINKS)
               (i_comments self) ;;
             modify_store
               (with_Issue (delete_by_id Issue_id (Issue_id (i_self self)))))
            (fun _ =>
               gone_comments
                 (fun k => X k \/ exists c, In c (i_comments self)
                                            /\ k = Comment_id (c_self c)))).
  eapply returns_bind.
  - apply (returns_for_each_comments (fun c k => k = Comment_id (c_self c))).
    intros Y c Hin.
    apply (Comment_delete_gone_comments Y _ (Issue_id (i_self self))).
    now apply (proj2 (proj2 Hready)).
  - intros u. apply returns_modify_store. now intros st.
Qed.

Lemma Sprint_delete_gone_comments (X : UUID -> Prop) (self : SprintObj) :
  ready_Sprint self ->
  returns (gone_comments X) (Sprint.delete DeleteRules.DELETE_LINKS self)
    (fun _ =>
       gone_comments
         (fun k => X k \/ exists i, In i (s_issues self)
                                    /\ exists c, In c (i_comments i)
                                         /\ k = Comment_id (c_self c))).
Proof.
  intros Hready. unfold Sprint.delete.
  apply (returns_bind _ _ _ _ _
           (Sprint_hook_returns (gone_comments X) self (fun _ _ H => H)
              Hready)).
  intros self'. apply returns_assume. intros [Hi Hs]. rewrite Hi, Hs.
  eapply returns_bind.
  - apply (returns_for_each_comments
             (fun i k => exists c, In c (i_comments i)
                                   /\ k = Comment_id (c_self c))).
    intros Y i Hin. apply Issue_delete_gone_comments.
    now apply (proj2 Hready).
  - intros u. apply returns_modify_store. now intros st.
Qed.

Lemma Workplace_delete_gone_comments (X : UUID -> Prop)
  (self : WorkplaceObj) :
  ready_Workplace self ->
  returns (gone_comments X) (Workplace.delete DeleteRules.DELETE_LINKS self)
    (fun _ =>
       gone_comments
         (fun k =>
            (X k \/ exists s, In s (w_sprints self)
                              /\ exists i, In i (s_issues s)
                                   /\ exists c, In c (i_comments i)
                                        /\ k = Comment_id (c_self c))
            \/ exists i, In i (w_issues self)
                         /\ exists c, In c (i_comments i)
                              /\ k = Comment_id (c_self c))).
Proof.
  intros [Hs Hi]. unfold Workplace.delete, delete_links.
  apply (returns_bind _ _ (fun _ => gone_comments X)).
  { apply (returns_consequence (gone_comments X) _ _
             (fun _ => gone_comments (fun k => X k \/ exists m, In m (w_users self) /\ False))).
    - apply (returns_for_each_comments (fun _ _ => False)).
      intros Y m _ st HY. exists tt. eexists.
      split; [apply UserAssignedWorkplace_delete_eq|].
      simpl. intros k [Hk|[]]. now apply HY.
    - now intros st.
    - intros _ st. apply gone_comments_weaken. intros k Hk. now left. }
  intros u1. eapply returns_bind.
  { apply (returns_for_each_comments
             (fun s k => exists i, In i (s_issues s)
                                   /\ exists c, In c (i_comments i)
                                        /\ k = Comment_id (c_self c))).
    intros Y s Hin. now apply Sprint_delete_gone_comments, Hs. }
  intros u2. eapply returns_bind.
  { apply (returns_for_each_comments
             (fun i k => exists c, In c (i_comments i)
                                   /\ k = Comment_id (c_self c))).
    intros Y i Hin. now apply Issue_delete_gone_comments, Hi. }
  intros u3. apply returns_modify_store. now intros st.
Qed.

(** X18. Deleting a workplace also deletes the comments: afterwards no
    comment that an issue owned by the workplace listed is findable
    (same store conditions as for the cascade over sprints and
    issues). *)
Theorem delete_workplace_deletes_comments (st : Store) (wid : UUID)
  (w : Workplace) :
  find_by_id Workplace_id wid (db_Workplace st) = Some w ->
  comments_apart st -> sprint_issues_owned st ->
  forall i d c,
    owned_issue st w i ->
    find_by_id Issue_id i (db_Issue st) = Some d ->
    In c (Issue_comments d) ->
    find_by_id Comment_id c (db_Comment (exec (delete_workplace wid) st))
    = None.
Proof.
  intros Hfind Hap Hown i d c Hi Hd Hc. apply owned_listed in Hown.
  destruct (find_by_id_Some _ _ _ _ Hfind) as [Hw _].
  unfold exec. rewrite (delete_workplace_found st wid w Hfind).
  set (st1 := exec (delete_members_of wid) st).
  assert (Hready : ready_Workplace (fetch_Workplace st1 w))
    by now apply (fetch_Workplace_ready st1 w).
  set (X := fun k => find_by_id Comment_id k (db_Comment st1) = None).
  assert (Hstart : gone_comments X st1) by now intros k.
  destruct (Workplace_delete_gone_comments X _ Hready st1 Hstart)
    as [[] [st2 [E HX]]].
  rewrite E. simpl. apply HX.
  destruct (find_by_id Comment_id c (db_Comment st1)) as [cd|] eqn:Ec;
    [|left; now left].
  assert (Hcd : In (fetch_Comment st1 cd) (i_comments (fetch_Issue st1 d))
                /\ c = Comment_id (c_self (fetch_Comment st1 cd))).
  { split.
    - simpl. apply In_fetch_links. now exists c, cd.
    - now apply find_by_id_Some in Ec as [_ <-]. }
  destruct Hi as [Hi|[k [s [Hk [Hs Hi]]]]].
  - right. exists (fetch_Issue st1 d). split.
    + simpl. apply In_fetch_links. now exists i, d.
    + now exists (fetch_Comment st1 cd).
  - left. right. exists (fetch_Sprint st1 s). split.
    + simpl. apply In_fetch_links. now exists k, s.
    + exists (fetch_Issue st1 d). split.
      * simpl. apply In_fetch_links. now exists i, d.
      * now exists (fetch_Comment st1 cd).
Qed.

Lemma delete_workplace_deletes_comments_witness :
  find_by_id Comment_id 30
    (db_Comment (exec (delete_workplace 1) sample_store)) = None.
Proof.
  assert (Hap : comments_apart sample_store).
  { intros i1 i2 c [<-|[]] [<-|[]] _ _. reflexivity. }
  assert (Hown : sprint_issues_owned sample_store).
  { intros s i [<-|[]] [<-|[]]. exists sample_workplace.
    split; left; reflexivity. }
  apply (delete_workplace_deletes_comments sample_store 1 sample_workplace
           eq_refl Hap Hown 20 sample_issue 30).
  - left. left. reflexivity.
  - reflexivity.
  - left. reflexivity.
Defined.

(** ** Editing twice *)

Lemma dict_set_same_value (k : string) (v : pyval) (d : dict) :
  dict_get k d = Some v -> dict_set k v d = d.
Proof.
  induction d as [|[k' v'] d IH]; simpl; [discriminate|].
  destruct (String.eqb k' k) eqn:E.
  - intros [= ->]. apply String.eqb_eq in E. now subst.
  - intros H. now rewrite IH.
Qed.

Lemma dict_update_noop (d upd : dict) :
  (forall k v, In (k, v) upd -> dict_get k d = Some v) ->
  dict_update d upd = d.
Proof.
  unfold dict_update. induction upd as [|[k v] upd IH]; intros H; simpl;
    [reflexivity|].
  rewrite (dict_set_same_value k v d (H k v (or_introl eq_refl))).
  apply IH. intros k' v' Hin. apply H. now right.
Qed.

Lemma dict_get_In (k : string) (v : pyval) (d : dict) :
  NoDup (map fst d) -> In (k, v) d -> dict_get k d = Some v.
Proof.
  induction d as [|[k' v'] d IH]; intros Hnd Hin; [contradiction|].
  inversion Hnd as [|? ? Hk Hnd']; subst. simpl.
  destruct Hin as [[= -> ->]|Hin].
  - now rewrite String.eqb_refl.
  - destruct (String.eqb k' k) eqn:E; [|now apply IH].
    apply String.eqb_eq in E. subst k'. exfalso. apply Hk.
    apply in_map_iff. now exists (k, v).
Qed.

Lemma dict_update_idempotent (d upd : dict) :
  NoDup (map fst upd) ->
  dict_update (dict_update d upd) upd = dict_update d upd.
Proof.
  intros Hnd. apply dict_update_noop. intros k v Hin.
  now rewrite (dict_get_update k d upd Hnd), (dict_get_In k v upd Hnd Hin).
Qed.

(** X19. Editing is idempotent: sending the same fields a second time
    gives the same answer and leaves the store as the first request
    left it, whether or not the workplace exists. *)
Theorem edit_workplace_idempotent (fields : dict) (wid : UUID) (st : Store) :
  NoDup (map fst fields) ->
  let st1 := exec (edit_workplace fields wid) st in
  exec (edit_workplace fields wid) st1 = st1
  /\ result (edit_workplace fields wid) st1
     = result (edit_workplace fields wid) st.
Proof.
  intros Hnd. cbv zeta.
  destruct (find_by_id Workplace_id wid (db_Workplace st)) as [w|] eqn:Ew.
  - assert (Hrun : forall x d,
               find_by_id Workplace_id wid (db_Workplace x) = Some d ->
               edit_workplace fields wid x
               = (with_Workplace
                    (update_by_id Workplace_id wid
                       (fun y => set_Workplace_creation y
                                   (dict_update (Workplace_creation y) fields)))
                    x, Ok SuccessfulResponse)).
    { intros x d Hd. destruct (find_by_id_Some _ _ _ _ Hd) as [_ Hid].
      unfold edit_workplace, Workplace.find_one, Workplace.update_set, bind,
        get_store, modify_store, ret, attr_of. simpl. rewrite Hd. simpl.
      now rewrite Hid. }
    unfold exec, result. rewrite (Hrun st w Ew). simpl.
    erewrite Hrun;
      [|simpl; apply find_by_id_update_same; [reflexivity|exact Ew]].
    simpl. split; [|reflexivity].
    unfold with_Workplace. simpl. f_equal.
    unfold update_by_id. rewrite map_map. apply map_ext. intros y.
    destruct (UUID_eqb (Workplace_id y) wid) eqn:E; simpl; rewrite E;
      [|reflexivity].
    unfold set_Workplace_creation. simpl. f_equal.
    now apply dict_update_idempotent.
  - unfold exec, result.
    rewrite (edit_workplace_not_found st fields wid Ew). simpl.
    now rewrite (edit_workplace_not_found st fields wid Ew).
Qed.

Lemma edit_workplace_idempotent_witness :
  let fields := [("name"%string, PStr "V")] in
  exec (edit_workplace fields 1) (exec (edit_workplace fields 1) sample_store)
  = exec (edit_workplace fields 1) sample_store.
Proof.
  assert (Hnd : NoDup (map fst [("name"%string, PStr "V")])).
  { constructor; [intros []|constructor]. }
  exact (proj1 (edit_workplace_idempotent [("name"%string, PStr "V")] 1
                  sample_store Hnd)).
Defined.

(** ** Hashing memberships *)

(** X20. The hash of a membership agrees with its equality: two
    memberships that compare equal have the same hash, and a membership
    that compares equal to a raw identifier hashes like that identifier,
    so a set or dictionary of memberships can be searched by
    identifier. *)
Theorem membership_hash_agrees_with_eq (a : UserAssignedWorkplace) :
  (forall b, UserAssignedWorkplace.__eq__ a (OUserAssignedWorkplace b) = true ->
             UserAssignedWorkplace_hash a = UserAssignedWorkplace_hash b)
  /\ (forall u, UserAssignedWorkplace.__eq__ a (OValue (PUUID u)) = true ->
                UserAssignedWorkplace_hash a = UUID_hash u).
Proof.
  unfold UserAssignedWorkplace_hash. split.
  - intros b H. simpl in H. apply Z.eqb_eq in H. now rewrite H.
  - intros u H. simpl in H. apply Z.eqb_eq in H. now rewrite H.
Qed.

Lemma membership_hash_agrees_with_eq_witness :
  UserAssignedWorkplace_hash sample_member = UUID_hash 40.
Proof.
  exact (proj2 (membership_hash_agrees_with_eq sample_member) 40 eq_refl).
Defined.
